(** * Technion course fetcher: a shallow embedding of the fetch-and-normalize
    pipeline (technion_fetcher_full.py, smart_fetcher_fixed.py) and the
    properties of its specification.

    Conventions of the embedding.
    - A Python [str] is a [string]: the UTF-8 bytes of the text.  Hebrew
      literals are the bytes of the source file.  The classes [\d] and [\s]
      and the methods [strip], [isdigit] are taken on the ASCII range.
    - JSON values as produced by [json.loads] are the inductive [json];
      a Python dict is an association list in insertion order.
    - A Python exception is a value of [exn]; code that may raise lives in
      the state-and-error monad [M].
    - Library functions whose text is not part of the repository
      (sha256, json.loads, urlencode) are parameters of a Section. *)

From Stdlib Require Import ZArith List Ascii String Bool Lia DecimalString.
From stdpp Require Import base option gmap strings list sorting.

Open Scope string_scope.
Open Scope Z_scope.

(** ** Python strings *)

Module PyStr.

Definition chars (s : string) : list ascii := list_ascii_of_string s.
Definition str (l : list ascii) : string := string_of_list_ascii l.

Definition code (c : ascii) : N := N_of_ascii c.

Definition in_range (lo hi : N) (c : ascii) : bool :=
  ((lo <=? code c) && (code c <=? hi))%N.

(** [c.isdigit()] and the class [\d], on ASCII. *)
Definition is_digit (c : ascii) : bool := in_range 48 57 c.

(** [c.isspace()] and the class [\s], on ASCII: TAB LF VT FF CR, FS GS RS US,
    and the space. *)
Definition is_space (c : ascii) : bool :=
  in_range 9 13 c || in_range 28 31 c || Ascii.eqb c " ".

Definition nl : ascii := "010"%char.
Definition cr : ascii := "013"%char.

Fixpoint lstrip_by (p : ascii -> bool) (l : list ascii) : list ascii :=
  match l with
  | c :: l' => if p c then lstrip_by p l' else l
  | [] => []
  end.

Definition rstrip_by (p : ascii -> bool) (l : list ascii) : list ascii :=
  rev (lstrip_by p (rev l)).

(** [s.strip()] *)
Definition strip (s : string) : string :=
  str (rstrip_by is_space (lstrip_by is_space (chars s))).

(** [s.lstrip("0")], [s.rstrip("\n")] *)
Definition lstrip_char (c : ascii) (s : string) : string :=
  str (lstrip_by (Ascii.eqb c) (chars s)).
Definition rstrip_char (c : ascii) (s : string) : string :=
  str (rstrip_by (Ascii.eqb c) (chars s)).

Fixpoint starts_with (p l : list ascii) : option (list ascii) :=
  match p, l with
  | [], _ => Some l
  | a :: p', b :: l' => if Ascii.eqb a b then starts_with p' l' else None
  | _ :: _, [] => None
  end.

(** [s.startswith(p)] *)
Definition startswith (p s : string) : bool :=
  bool_decide (is_Some (starts_with (chars p) (chars s))).

(** [s.removeprefix(p)] *)
Definition removeprefix (p s : string) : string :=
  match starts_with (chars p) (chars s) with
  | Some rest => str rest
  | None => s
  end.

(** [s[n:]] and [s[:n]] for a non-negative literal [n]. *)
Definition slice_from (n : nat) (s : string) : string := str (drop n (chars s)).
Definition slice_to (n : nat) (s : string) : string := str (take n (chars s)).

(** [s.split(sep)] for a non-empty separator: the pieces between the
    non-overlapping occurrences of [sep], found left to right. *)
Fixpoint split_go (sep : list ascii) (acc : list ascii) (l : list ascii)
    (fuel : nat) : list (list ascii) :=
  match fuel with
  | O => [rev acc]
  | S fuel' =>
      match l with
      | [] => [rev acc]
      | c :: l' =>
          match starts_with sep l with
          | Some rest => rev acc :: split_go sep [] rest fuel'
          | None => split_go sep (c :: acc) l' fuel'
          end
      end
  end.

Definition split (sep s : string) : list string :=
  str <$> split_go (chars sep) [] (chars s) (S (String.length s)).

(** [s.replace(old, new)] for a non-empty [old]. *)
Fixpoint replace_go (old new : list ascii) (l : list ascii) (fuel : nat)
    : list ascii :=
  match fuel with
  | O => l
  | S fuel' =>
      match l with
      | [] => []
      | c :: l' =>
          match starts_with old l with
          | Some rest => (new ++ replace_go old new rest fuel')%list
          | None => c :: replace_go old new l' fuel'
          end
      end
  end.

Definition replace (old new s : string) : string :=
  str (replace_go (chars old) (chars new) (chars s) (S (String.length s))).

(** [sep.join(l)] *)
Fixpoint join (sep : string) (l : list string) : string :=
  match l with
  | [] => ""
  | [x] => x
  | x :: l' => x ++ sep ++ join sep l'
  end.

(** [s.isdigit()] *)
Definition isdigit (s : string) : bool :=
  negb (String.eqb s "") && forallb is_digit (chars s).

Definition digit_val (c : ascii) : Z := Z.of_N (code c) - 48.

(** The value of a run of decimal digits, most significant first. *)
Definition digits_val (l : list ascii) : Z :=
  fold_left (fun acc c => 10 * acc + digit_val c) l 0.

(** [s.zfill(n)] for a string without a sign. *)
Definition zfill (n : nat) (s : string) : string :=
  str (replicate (n - String.length s)%nat "0"%char ++ chars s)%list.

(** Two decimal digits, as [%02d] prints a number below 100. *)
Definition digit_char (z : Z) : ascii := ascii_of_N (Z.to_N (48 + z)).

Definition two_digits (z : Z) : string :=
  str [digit_char (z / 10 mod 10); digit_char (z mod 10)].

Definition four_digits (z : Z) : string :=
  str [digit_char (z / 1000 mod 10); digit_char (z / 100 mod 10);
       digit_char (z / 10 mod 10); digit_char (z mod 10)].

End PyStr.

(** ** Regular expressions, with the backtracking semantics of Python's [re] *)

Module Re.
Import PyStr.

Inductive regex : Type :=
| Eps                              (* the empty pattern *)
| Chr (p : ascii -> bool)          (* one character of a class *)
| Seq (a b : regex)
| Alt (a b : regex)                (* a|b, the left branch tried first *)
| Star (a : regex)                 (* a*, greedy *)
| LazyStar (a : regex)             (* a*?, lazy *)
| Grp (n : nat) (a : regex)        (* the n-th capturing group *)
| Bol                              (* ^ *)
| Eol                              (* $: the end, or before a final newline *)
| BolM                             (* ^ under re.MULTILINE *)
| EolM.                            (* $ under re.MULTILINE *)

Definition Plus (a : regex) : regex := Seq a (Star a).
Definition Opt (a : regex) : regex := Alt a Eps.

Fixpoint Lit_chars (l : list ascii) : regex :=
  match l with
  | [] => Eps
  | c :: l' => Seq (Chr (Ascii.eqb c)) (Lit_chars l')
  end.

(** A literal piece of pattern text. *)
Definition Lit (s : string) : regex := Lit_chars (chars s).

Fixpoint Seqs (rs : list regex) : regex :=
  match rs with
  | [] => Eps
  | [r] => r
  | r :: rs' => Seq r (Seqs rs')
  end.

Fixpoint Alts (rs : list regex) : regex :=
  match rs with
  | [] => Eps
  | [r] => r
  | r :: rs' => Alt r (Alts rs')
  end.

Definition digit : regex := Chr is_digit.                    (* \d *)
Definition space : regex := Chr is_space.                    (* \s *)
Definition dot : regex := Chr (fun c => negb (Ascii.eqb c nl)). (* . *)
Definition dot_all : regex := Chr (fun _ => true).           (* . under DOTALL *)
Definition one_of (s : string) : regex :=
  Chr (fun c => existsb (Ascii.eqb c) (chars s)).
Definition none_of (s : string) : regex :=
  Chr (fun c => negb (existsb (Ascii.eqb c) (chars s))).
Definition range (lo hi : ascii) : regex := Chr (in_range (code lo) (code hi)).

(** Captured groups: the most recent capture of a group comes first. *)
Definition caps : Type := list (nat * list ascii).

Fixpoint group (g : caps) (n : nat) : option (list ascii) :=
  match g with
  | [] => None
  | (m, t) :: g' => if Nat.eqb m n then Some t else group g' n
  end.

(** The text consumed between a position with [s] still to read and a later
    one with [s'] still to read. *)
Definition consumed (s s' : list ascii) : list ascii :=
  take (length s - length s') s.

(** A position of the matcher: the character just before it ([None] at the
    start of the subject), the text still to read, and the captures so far. *)
Record pos : Type := Pos { prev : option ascii; rest : list ascii; grps : caps }.

Definition at_eol (s : list ascii) : bool :=
  match s with
  | [] => true
  | [c] => Ascii.eqb c nl
  | _ => false
  end.

Definition at_bolm (p : option ascii) : bool :=
  match p with
  | None => true
  | Some c => Ascii.eqb c nl
  end.

Definition at_eolm (s : list ascii) : bool :=
  match s with
  | [] => true
  | c :: _ => Ascii.eqb c nl
  end.

Definition shorter (q p : pos) : bool := (length (rest q) <? length (rest p))%nat.

(** The loops of the two stars.  [step] is the matcher of the starred
    pattern; an iteration that consumes nothing is not repeated. *)
Fixpoint star_loop {A : Type} (step : pos -> (pos -> option A) -> option A)
    (k : pos -> option A) (fuel : nat) (p : pos) : option A :=
  match fuel with
  | O => k p
  | S fuel' =>
      match step p (fun q => if shorter q p then star_loop step k fuel' q else None) with
      | Some x => Some x
      | None => k p
      end
  end.

Fixpoint lazy_loop {A : Type} (step : pos -> (pos -> option A) -> option A)
    (k : pos -> option A) (fuel : nat) (p : pos) : option A :=
  match fuel with
  | O => k p
  | S fuel' =>
      match k p with
      | Some x => Some x
      | None => step p (fun q => if shorter q p then lazy_loop step k fuel' q else None)
      end
  end.

(** The matcher, in continuation-passing style: [run r p k] tries the ways
    for [r] to match at [p] in the order of the backtracking engine and
    returns the first result that the continuation [k] accepts. *)
Fixpoint run {A : Type} (r : regex) (p : pos) (k : pos -> option A) : option A :=
  match r with
  | Eps => k p
  | Chr c =>
      match rest p with
      | x :: s' => if c x then k (Pos (Some x) s' (grps p)) else None
      | [] => None
      end
  | Seq a b => run a p (fun q => run b q k)
  | Alt a b =>
      match run a p k with
      | Some x => Some x
      | None => run b p k
      end
  | Star a => star_loop (fun p k => run a p k) k (length (rest p)) p
  | LazyStar a => lazy_loop (fun p k => run a p k) k (length (rest p)) p
  | Grp n a =>
      run a p (fun q =>
        k (Pos (prev q) (rest q) ((n, consumed (rest p) (rest q)) :: grps q)))
  | Bol => if bool_decide (prev p = None) then k p else None
  | Eol => if at_eol (rest p) then k p else None
  | BolM => if at_bolm (prev p) then k p else None
  | EolM => if at_eolm (rest p) then k p else None
  end.

(** A match object: the matched text (group 0), the captures, and the
    position after the match. *)
Record mtch : Type := Mtch { m_text : list ascii; m_end : pos }.

Definition m_group (m : mtch) (n : nat) : string :=
  match group (grps (m_end m)) n with
  | Some t => str t
  | None => ""
  end.

(** An attempt at one position. *)
Definition match_at (r : regex) (p : pos) : option mtch :=
  run r p (fun q => Some (Mtch (consumed (rest p) (rest q)) q)).

Definition start (s : string) : pos := Pos None (chars s) [].

(** [re.match(r, s)] *)
Definition re_match (r : regex) (s : string) : option mtch :=
  match_at r (start s).

(** [re.fullmatch(r, s)] *)
Definition re_fullmatch (r : regex) (s : string) : option mtch :=
  run r (start s) (fun q =>
    match rest q with
    | [] => Some (Mtch (chars s) q)
    | _ => None
    end).

(** A replacement template: literal text and group references [\n]. *)
Inductive piece : Type := TLit (s : string) | TGrp (n : nat).

Definition expand (t : list piece) (m : mtch) : list ascii :=
  flat_map (fun x =>
    match x with
    | TLit s => chars s
    | TGrp n => chars (m_group m n)
    end) t.

(** The scan of [re.sub]: at each position, left to right, the pattern is
    tried; a match is replaced and the scan resumes after it; an empty match
    is replaced and the scan steps over one character. *)
Fixpoint sub_go (r : regex) (t : list piece) (fuel : nat) (pv : option ascii)
    (s : list ascii) : list ascii :=
  match fuel with
  | O => s
  | S fuel' =>
      match match_at r (Pos pv s []) with
      | Some m =>
          let q := m_end m in
          if (length (rest q) <? length s)%nat
          then (expand t m ++ sub_go r t fuel' (prev q) (rest q))%list
          else
            match s with
            | [] => expand t m
            | c :: s' => (expand t m ++ c :: sub_go r t fuel' (Some c) s')%list
            end
      | None =>
          match s with
          | [] => []
          | c :: s' => c :: sub_go r t fuel' (Some c) s'
          end
      end
  end.

(** [re.sub(r, t, s)] *)
Definition re_sub (r : regex) (t : list piece) (s : string) : string :=
  str (sub_go r t (S (String.length s)) None (chars s)).

(** The leftmost match: the text before it and the match. *)
Fixpoint search_go (r : regex) (pv : option ascii) (before s : list ascii)
    : option (list ascii * mtch) :=
  match match_at r (Pos pv s []) with
  | Some m => Some (rev before, m)
  | None =>
      match s with
      | [] => None
      | c :: s' => search_go r (Some c) (c :: before) s'
      end
  end.

(** [re.split(r, s, maxsplit=1)] for a pattern without groups that cannot
    match the empty text. *)
Definition re_split1 (r : regex) (s : string) : list string :=
  match search_go r None [] (chars s) with
  | Some (before, m) => [str before; str (rest (m_end m))]
  | None => [s]
  end.

(** The matches of a pattern, as a relation between the position before and
    the position after: what the matcher can return, whatever the order in
    which it tries. *)
Inductive Matches : regex -> pos -> pos -> Prop :=
| M_Eps p : Matches Eps p p
| M_Chr c x s pv g : c x = true -> Matches (Chr c) (Pos pv (x :: s) g) (Pos (Some x) s g)
| M_Seq a b p q r : Matches a p q -> Matches b q r -> Matches (Seq a b) p r
| M_AltL a b p q : Matches a p q -> Matches (Alt a b) p q
| M_AltR a b p q : Matches b p q -> Matches (Alt a b) p q
| M_Star0 a p : Matches (Star a) p p
| M_StarS a p q r :
    Matches a p q -> shorter q p = true -> Matches (Star a) q r ->
    Matches (Star a) p r
| M_Lazy0 a p : Matches (LazyStar a) p p
| M_LazyS a p q r :
    Matches a p q -> shorter q p = true -> Matches (LazyStar a) q r ->
    Matches (LazyStar a) p r
| M_Grp n a p q :
    Matches a p q ->
    Matches (Grp n a) p
      (Pos (prev q) (rest q) ((n, consumed (rest p) (rest q)) :: grps q))
| M_Bol p : prev p = None -> Matches Bol p p
| M_Eol p : at_eol (rest p) = true -> Matches Eol p p
| M_BolM p : at_bolm (prev p) = true -> Matches BolM p p
| M_EolM p : at_eolm (rest p) = true -> Matches EolM p p.


(** The position after the longest run of characters of a class. *)
Fixpoint skip_run (c : ascii -> bool) (pv : option ascii) (s : list ascii)
    : option ascii * list ascii :=
  match s with
  | x :: s' => if c x then skip_run c (Some x) s' else (pv, s)
  | [] => (pv, s)
  end.

End Re.

(** ** JSON values, exceptions and the monads of the embedding *)

Module Py.
Import PyStr.

#[local] Unset Elimination Schemes.
Inductive json : Type :=
| JNull
| JBool (b : bool)
| JNum (z : Z)
| JStr (s : string)
| JArr (l : list json)
| JObj (kvs : list (string * json)).
#[local] Set Elimination Schemes.

(** Exceptions, by class; all of them derive from [Exception]. *)
Inductive exn : Type :=
| RuntimeError (msg : string)
| ValueError (msg : string)
| KeyError (key : string)
| TypeError (msg : string)
| AttributeError (msg : string)
| OtherError (msg : string).    (* e.g. requests.RequestException *)

Definition is_RuntimeError (e : exn) : bool :=
  match e with
  | RuntimeError _ => true
  | _ => false
  end.

(** A computation that returns or raises. *)
Definition res (A : Type) : Type := exn + A.

Definition raise {A : Type} (e : exn) : res A := inl e.

#[export] Instance res_ret : MRet res := fun A x => inr x.
#[export] Instance res_bind : MBind res := fun A B f m =>
  match m with
  | inl e => inl e
  | inr x => f x
  end.

(** The loop [for x in l: body], threading the variables the body assigns. *)
Fixpoint for_res {A S : Type} (l : list A) (body : A -> S -> res S) (s : S)
    : res S :=
  match l with
  | [] => mret s
  | x :: l' => s' ← body x s; for_res l' body s'
  end.

(** Truth value of a JSON-shaped Python value. *)
Definition truthy (j : json) : bool :=
  match j with
  | JNull => false
  | JBool b => b
  | JNum z => negb (z =? 0)
  | JStr s => negb (String.eqb s "")
  | JArr l => match l with [] => false | _ => true end
  | JObj kvs => match kvs with [] => false | _ => true end
  end.

(** Python dicts with string keys, in insertion order. *)
Section Dict.
Context {V : Type}.

Fixpoint dict_lookup (k : string) (d : list (string * V)) : option V :=
  match d with
  | [] => None
  | (k', v) :: d' => if String.eqb k' k then Some v else dict_lookup k d'
  end.

(** [d[k] = v]: an existing key keeps its place. *)
Fixpoint dict_set (k : string) (v : V) (d : list (string * V))
    : list (string * V) :=
  match d with
  | [] => [(k, v)]
  | (k', v') :: d' =>
      if String.eqb k' k then (k, v) :: d' else (k', v') :: dict_set k v d'
  end.
End Dict.

(** [j[k]] *)
Definition getitem (j : json) (k : string) : res json :=
  match j with
  | JObj kvs =>
      match dict_lookup k kvs with
      | Some v => mret v
      | None => raise (KeyError k)
      end
  | _ => raise (TypeError "indices must be integers")
  end.

(** [j.get(k, dflt)] *)
Definition dict_get (j : json) (k : string) (dflt : json) : res json :=
  match j with
  | JObj kvs => mret (default dflt (dict_lookup k kvs))
  | _ => raise (AttributeError "get")
  end.

(** A value used where the code needs a [str] (a method of [str], or an
    argument of [re]). *)
Definition as_str (j : json) : res string :=
  match j with
  | JStr s => mret s
  | _ => raise (TypeError "expected string")
  end.

(** The items of [for x in j]. *)
Definition iter_items (j : json) : res (list json) :=
  match j with
  | JArr l => mret l
  | JObj kvs => mret ((fun kv => JStr (fst kv)) <$> kvs)
  | JStr s => mret ((fun c => JStr (str [c])) <$> chars s)
  | _ => raise (TypeError "not iterable")
  end.

(** [str(z)] for an integer. *)
Definition str_of_Z (z : Z) : string := NilZero.string_of_int (Z.to_int z).

(** The shape [{"d": {"results": []}}]. *)
Definition is_empty_results (j : json) : bool :=
  match j with
  | JObj [(d, JObj [(r, JArr [])])] => String.eqb d "d" && String.eqb r "results"
  | _ => false
  end.

(** What [session.post] does with a request: it raises, or it returns a
    response with a status code and a body. *)
Inductive reply : Type :=
| PostRaises (e : exn)
| PostReturns (status_code : Z) (text : string).

(** The world of a run.
    - [server n q]: the answer of the upstream service to query [q] when [n]
      requests were posted before it;
    - [posted]: the queries posted so far, the latest first;
    - [cache_files]: the files of the cache directory, by name, each holding
      the JSON value that was dumped into it;
    - [building_memo]: the table of [functools.cache] on [get_building_name];
    - [json_files]: the course files written by [save_to_json], by path;
    - [documents]: the committed documents of the store, by path. *)
Record World : Type := mkWorld {
  server : nat -> string -> reply;
  posted : list string;
  cache_files : gmap string json;
  building_memo : gmap (Z * Z * string) string;
  json_files : gmap string json;
  documents : gmap (list string) json;
}.

Definition set_posted (f : list string -> list string) (w : World) : World :=
  mkWorld (server w) (f (posted w)) (cache_files w) (building_memo w)
    (json_files w) (documents w).
Definition set_cache_files (f : gmap string json -> gmap string json)
    (w : World) : World :=
  mkWorld (server w) (posted w) (f (cache_files w)) (building_memo w)
    (json_files w) (documents w).
Definition set_building_memo
    (f : gmap (Z * Z * string) string -> gmap (Z * Z * string) string)
    (w : World) : World :=
  mkWorld (server w) (posted w) (cache_files w) (f (building_memo w))
    (json_files w) (documents w).
Definition set_json_files (f : gmap string json -> gmap string json)
    (w : World) : World :=
  mkWorld (server w) (posted w) (cache_files w) (building_memo w)
    (f (json_files w)) (documents w).
Definition set_documents
    (f : gmap (list string) json -> gmap (list string) json)
    (w : World) : World :=
  mkWorld (server w) (posted w) (cache_files w) (building_memo w)
    (json_files w) (f (documents w)).

(** A computation on the world that returns or raises. *)
Definition M (A : Type) : Type := World -> World * res A.

#[export] Instance M_ret : MRet M := fun A x w => (w, inr x).
#[export] Instance M_bind : MBind M := fun A B f m w =>
  match m w with
  | (w', inl e) => (w', inl e)
  | (w', inr x) => f x w'
  end.

Definition lift {A : Type} (r : res A) : M A := fun w => (w, r).
Definition throw {A : Type} (e : exn) : M A := lift (raise e).
Definition modify (f : World -> World) : M unit := fun w => (f w, inr tt).

(** [try: m except C: h], where [C] is the class of the exceptions that
    [handles] accepts. *)
Definition try_except {A : Type} (m : M A) (handles : exn -> bool)
    (h : exn -> M A) : M A := fun w =>
  match m w with
  | (w', inl e) => if handles e then h e w' else (w', inl e)
  | (w', inr x) => (w', inr x)
  end.

(** [except Exception] *)
Definition any_exception (e : exn) : bool := true.

Fixpoint for_M {A S : Type} (l : list A) (body : A -> S -> M S) (s : S) : M S :=
  match l with
  | [] => mret s
  | x :: l' => s' ← body x s; for_M l' body s'
  end.

(** Library functions of Python that the program calls and whose text is not
    part of it. *)
Class PyLib : Type := {
  (** [hashlib.sha256(q.encode()).hexdigest()] *)
  sha256_hexdigest : string -> string;
  (** [json.loads] *)
  json_loads : string -> res json;
  (** [urllib.parse.urlencode] of a dict of strings *)
  urlencode : list (string * string) -> string;
  (** [urllib.parse.quote] *)
  quote : string -> string;
  (** [str(j)] of a list or a dict, as an f-string prints it *)
  repr_container : json -> string;
}.

(** [f"{j}"] *)
Definition format_value `{PyLib} (j : json) : string :=
  match j with
  | JStr s => s
  | JNull => "None"
  | JBool true => "True"
  | JBool false => "False"
  | JNum z => str_of_Z z
  | _ => repr_container j
  end.

End Py.

(** ** technion_fetcher_full.py *)

Module Fetcher.
Import PyStr Re Py.

(** The dataclass [CourseInfo].  The fields copied from the upstream record
    hold whatever JSON value it has there. *)
Record CourseInfo : Type := mkCourseInfo {
  course_number : string;
  name : json;
  syllabus : json;
  faculty : json;
  academic_level : json;
  points : string;
  responsible : string;
  prerequisites : string;
  adjoining_courses : string;
  no_additional_credit : string;
  notes : json;
  exams : list (string * string);
  schedule : list json;
}.

(** The attributes of a [TechnionCourseFetcher] that the code reads:
    [self.cache_dir] ([None] when no cache directory is configured) and
    whether [self.db] holds a Firestore client. *)
Record TechnionCourseFetcher : Type := mkFetcher {
  cache_dir : option string;
  db : bool;
}.

Definition path_join (dir file : string) : string := dir ++ "/" ++ file.

Definition json_is_str (j : json) (s : string) : bool :=
  match j with
  | JStr t => String.eqb t s
  | _ => false
  end.

(** [j in l] for a list [l] of strings. *)
Definition json_in_strs (j : json) (l : list string) : bool :=
  existsb (json_is_str j) l.

Section WithLib.
Context `{PyLib}.

(** *** The request layer *)

(** The class of the characters that are unsafe in a file name: the
    angle brackets, the colon, the double quote, the two slashes, the bar,
    the question mark and the star. *)
Definition unsafe_char : regex :=
  Chr (fun c => existsb (Ascii.eqb c)
    ["<"; ">"; ":"; "034"; "/"; "\"; "|"; "?"; "*"]%char).

Definition _get_cache_file (dir query : string) : string :=
  let cache_name := slice_to 64 (re_sub unsafe_char [TLit "_"] query) in
  let cache_hash := slice_to 8 (sha256_hexdigest query) in
  path_join dir (cache_name ++ "_" ++ cache_hash ++ ".json").

Definition crlf : string := str [cr; nl].
Definition lf : string := str [nl].

(** The part of [_send_request] after the cache was consulted: one request
    to the service and the unwrapping of its batch response. *)
Definition fetch_live (f : TechnionCourseFetcher) (query : string)
    (allow_empty : bool) : M json := fun w =>
  let response := server w (length (posted w)) query in
  let w := set_posted (cons query) w in
  match response with
  | PostRaises e => (w, raise e)
  | PostReturns status_code text =>
      if negb (status_code =? 202)
      then (w, raise (RuntimeError "Bad status code"))
      else
        let response_chunks := split (lf ++ lf) (strip (replace crlf lf text)) in
        match response_chunks with
        | [_; _; chunk] =>
            let json_str := hd "" (split lf chunk) in
            match json_loads json_str with
            | inl e => (w, raise e)
            | inr result =>
                if negb allow_empty && is_empty_results result
                then (w, raise (RuntimeError "Empty response"))
                else
                  match cache_dir f with
                  | Some dir =>
                      (set_cache_files <[_get_cache_file dir query := result]> w,
                       inr result)
                  | None => (w, inr result)
                  end
            end
        | _ => (w, raise (RuntimeError "Invalid response format"))
        end
  end.

Definition _send_request (f : TechnionCourseFetcher) (query : string)
    (allow_empty : bool) : M json := fun w =>
  match cache_dir f with
  | Some dir =>
      match cache_files w !! _get_cache_file dir query with
      | Some stored => (w, inr stored)
      | None => fetch_live f query allow_empty w
      end
  | None => fetch_live f query allow_empty w
  end.

(** [raw_data["d"][k]] *)
Definition d_field (raw_data : json) (k : string) : res json :=
  d ← getitem raw_data "d"; getitem d k.

(** *** Dates *)

(** Days since 1970-01-01 to (year, month, day) of the proleptic Gregorian
    calendar, as [datetime] computes it. *)
Definition civil_from_days (days : Z) : Z * Z * Z :=
  let z := days + 719468 in
  let era := z / 146097 in
  let doe := z - era * 146097 in
  let yoe := (doe - doe / 1460 + doe / 36524 - doe / 146096) / 365 in
  let doy := doe - (365 * yoe + yoe / 4 - yoe / 100) in
  let mp := (5 * doy + 2) / 153 in
  let d := doy - (153 * mp + 2) / 5 + 1 in
  let m := if mp <? 10 then mp + 3 else mp - 9 in
  let y := yoe + era * 400 + (if m <=? 2 then 1 else 0) in
  (y, m, d).

(** [datetime.fromtimestamp(ms / 1000, timezone.utc)], kept as the number of
    whole days since the epoch; a date after the year 9999 raises. *)
Definition fromtimestamp_ms (ms : Z) : res Z :=
  let seconds := ms / 1000 in
  if 253402300799 <? seconds
  then raise (ValueError "year is out of range")
  else mret (seconds / 86400).

(** [date.strftime("%d-%m-%Y")] *)
Definition strftime_dmY (days : Z) : string :=
  let '(y, m, d) := civil_from_days days in
  two_digits d ++ "-" ++ two_digits m ++ "-" ++ four_digits y.

(** [date.weekday()]: Monday is 0. *)
Definition weekday (days : Z) : Z := (days + 3) mod 7.

(** [/Date\((\d+)\)/] *)
Definition sap_date_re : regex :=
  Seqs [Lit "/Date("; Grp 1 (Plus digit); Lit ")/"].

Definition _parse_sap_date (date_str : string) : res Z :=
  match re_match sap_date_re date_str with
  | None => raise (ValueError "Invalid date format")
  | Some m => fromtimestamp_ms (digits_val (chars (m_group m 1)))
  end.

Definition _sap_date_parse (date_str : string) : res Z :=
  match re_fullmatch sap_date_re date_str with
  | None => raise (RuntimeError "Invalid date")
  | Some m => fromtimestamp_ms (digits_val (chars (m_group m 1)))
  end.

(** *** get_building_name *)

Definition building_mapping : list (string * string) :=
  [("בנין אולמן", "אולמן");
   ("בנין בורוביץ הנדסה אזרחית", "בורוביץ הנדסה אזרחית");
   ("בנין דן קהאן", "דן קהאן");
   ("בנין הנ' אוירונאוטית", "הנ' אוירונאוטית");
   ("בנין זיסאפל", "זיסאפל");
   ("בנין להנדסת חמרים", "הנדסת חמרים");
   ("בנין ליידי דייוס", "ליידי דייוס");
   ("בנין למדעי המחשב", "מדעי המחשב");
   ("בנין ע'ש אמדו", "אמדו");
   ("בנין ע'ש טאוב", "טאוב");
   ("בנין ע'ש סגו", "סגו");
   ("בנין פישבך", "פישבך");
   ("בנין פקולטה לרפואה", "פקולטה לרפואה");
   ("בניין ננו-אלקטרוניקה", "ננו-אלקטרוניקה");
   ("בניין ספורט", "ספורט")].

(** The loop over [building_mapping.items()]: the first entry whose key is a
    prefix of [building] rewrites it and ends the loop. *)
Fixpoint apply_mapping (mapping : list (string * string)) (building : string)
    : string :=
  match mapping with
  | [] => building
  | (old, new) :: mapping' =>
      if startswith old building
      then new ++ slice_from (String.length old) building
      else apply_mapping mapping' building
  end.

Definition building_query (year semester : Z) (room_id : string) : string :=
  "GObjectSet(Otjid='" ++ quote room_id ++ "',Peryr='" ++ str_of_Z year
    ++ "',Perid='" ++ str_of_Z semester ++ "')?"
    ++ urlencode [("sap-client", "700"); ("$select", "Building")].

(** The body of [get_building_name], without the memo table.  The inner
    computation returns [None] where the [try] block falls through to the
    final [return ""]. *)
Definition get_building_name_body (f : TechnionCourseFetcher)
    (year semester : Z) (room_id : string) : M string :=
  if String.eqb room_id "" then mret ""
  else
    let query := building_query year semester room_id in
    found ← try_except
      (raw_data ← _send_request f query false;
       building ← lift (d_field raw_data "Building");
       if truthy building
       then
         building ← lift (as_str building);
         let building := re_sub (Plus space) [TLit " "] (strip building) in
         mret (Some (apply_mapping building_mapping building))
       else mret None)
      any_exception (fun _ => mret None);
    mret (default "" found).

(** [@cache]: a result is computed once for each argument tuple and kept. *)
Definition get_building_name (f : TechnionCourseFetcher)
    (year semester : Z) (room_id : string) : M string := fun w =>
  match building_memo w !! (year, semester, room_id) with
  | Some kept => (w, inr kept)
  | None =>
      match get_building_name_body f year semester room_id w with
      | (w', inr v) =>
          (set_building_memo <[(year, semester, room_id) := v]> w', inr v)
      | (w', inl e) => (w', inl e)
      end
  end.

(** *** _parse_schedule_text *)

Definition dd : regex := Seq digit digit.                         (* \d\d *)
Definition hhmm : regex := Seqs [dd; Lit ":"; dd].                (* \d\d:\d\d *)
Definition ddmm : regex := Seqs [dd; Lit "."; dd; Lit "."].       (* \d\d\.\d\d\. *)

(** The five clean-up patterns, in the order of the source. *)
Definition from_date_re : regex := Seqs [Bol; Lit "מ "; ddmm; Lit ", "].
Definition until_date_re : regex := Seqs [Bol; Lit "עד "; ddmm; Lit ", "].
Definition date_range_re : regex :=
  Seqs [Bol; ddmm; Lit " עד "; ddmm; Lit ", "].
Definition except_re : regex :=
  Seqs [Lit ", יוצא מן הכלל: "; Star dot; Eol].
Definition total_days_re : regex :=
  Seqs [Lit ", הכל "; Plus digit; Lit " ימים"; Eol].

Definition day_names : list string :=
  ["רִאשׁוֹ"; "ראשון"; "שני"; "שלישי"; "רביעי"; "חמישי"; "שישי"].

(** The pattern of one entry: the word for day in either spelling, a space,
    a day name (group 1), a space, the two times (groups 2 and 3) around a
    dash with optional blanks. *)
Definition entry_re : regex :=
  Seqs [Alt (Lit "יום") (Lit "יוֹם"); Lit " ";
        Grp 1 (Alts (Lit <$> day_names)); Lit " ";
        Grp 2 hhmm; Star space; Lit "-"; Star space; Grp 3 hhmm].

(** The body of the loop over [schedule_text.split(",")]. *)
Definition parse_entry (entries : list (string * string * string))
    (entry : string) : list (string * string * string) :=
  let entry := strip entry in
  match re_match entry_re entry with
  | Some m =>
      let day := m_group m 1 in
      let day := if String.eqb day "רִאשׁוֹ" then "ראשון" else day in
      let time_begin := m_group m 2 in
      let time_end := m_group m 3 in
      (entries ++ [(day, time_begin, time_end)])%list
  | None => entries
  end.

Definition clean_schedule_text (schedule_text : string) : string :=
  let schedule_text := re_sub from_date_re [] schedule_text in
  let schedule_text := re_sub until_date_re [] schedule_text in
  let schedule_text := re_sub date_range_re [] schedule_text in
  let schedule_text := re_sub except_re [] schedule_text in
  re_sub total_days_re [] schedule_text.

Definition _parse_schedule_text (schedule_text : string)
    : list (string * string * string) :=
  fold_left parse_entry (split "," (clean_schedule_text schedule_text)) [].

(** *** _extract_prerequisites, _extract_relations, _extract_adjoining_courses *)

(** [\((\d+)\)] and [^\(([^()]+)\)$] *)
Definition paren_number_re : regex :=
  Seqs [Lit "("; Grp 1 (Plus digit); Lit ")"].
Definition outer_paren_re : regex :=
  Seqs [Bol; Lit "("; Grp 1 (Plus (none_of "()")); Lit ")"; Eol].

(** The body of the loop of [_extract_prerequisites]. *)
Definition prereq_item (item : json) (prereq : string) : res string :=
  bracket ← getitem item "Bracket";
  bracket ← as_str bracket;
  let prereq := prereq ++ bracket in
  module_id ← getitem item "ModuleId";
  module_id ← as_str module_id;
  let prereq :=
    if negb (String.eqb (lstrip_char "0" module_id) "")
    then prereq ++ module_id else prereq in
  operator ← getitem item "Operator";
  if json_is_str operator "AND" then mret (prereq ++ " ו-")
  else if json_is_str operator "OR" then mret (prereq ++ " או ")
  else mret prereq.

Definition _extract_prerequisites (prereq_data : json) : res string :=
  items ← iter_items prereq_data;
  prereq ← for_res items prereq_item "";
  let prereq := re_sub paren_number_re [TGrp 1] prereq in
  let prereq := re_sub outer_paren_re [TGrp 1] prereq in
  mret (strip prereq).

Definition relation_item (item : json) (relations : list string)
    : res (list string) :=
  otjid ← getitem item "Otjid";
  otjid ← as_str otjid;
  let course_num := removeprefix "SM" otjid in
  key ← getitem item "ZzRelationshipKey";
  if json_in_strs key ["AZEC"; "AZID"]
  then mret (relations ++ [course_num])%list
  else mret relations.

Definition _extract_relations (relations_data : json) : res string :=
  items ← iter_items relations_data;
  relations ← for_res items relation_item [];
  mret (join " " relations).

(** [\d{5,8}] *)
Definition d5_8 : regex :=
  Seqs [digit; digit; digit; digit; digit;
        Opt (Seq digit (Opt (Seq digit (Opt digit))))].

(** [^(?:...|...):] under MULTILINE, with the two marker phrases. *)
Definition adjoining_marker_re : regex :=
  Seqs [BolM; Alt (Lit "מקצוע צמוד") (Lit "מקצועות צמודים"); Lit ":"].
(** [\d{5,8}(\s*,\s*\d{5,8})*$] under MULTILINE *)
Definition number_list_re : regex :=
  Seqs [d5_8; Star (Grp 1 (Seqs [Star space; Lit ","; Star space; d5_8])); EolM].
(** [(.*?)(?:\.$|\.\n|\n\n|$)] under DOTALL *)
Definition first_sentence_re : regex :=
  Seqs [Grp 1 (LazyStar dot_all);
        Alts [Seq (Lit ".") Eol; Lit ("." ++ lf); Lit (lf ++ lf); Eol]].
(** Five to eight digits (group 1), then optionally a blank and the rest of
    the line (group 2). *)
Definition leading_number_re : regex :=
  Seqs [Grp 1 d5_8; Opt (Grp 2 (Seq space (Star dot)))].
(** [^9730\d\d$] and [^\d{3}\d{3}$] *)
Definition old_9730_re : regex := Seqs [Bol; Lit "9730"; dd; Eol].
Definition six_digits_re : regex :=
  Seqs [Bol; digit; digit; digit; digit; digit; digit; Eol].

Definition normalize_course (course : string) : string :=
  if (String.length course <=? 6)%nat
  then
    let course := zfill 6 course in
    if bool_decide (is_Some (re_match old_9730_re course))
    then "970300" ++ slice_from 4 course
    else if bool_decide (is_Some (re_match six_digits_re course))
    then "0" ++ slice_to 3 course ++ "0" ++ slice_from 3 course
    else course
  else zfill 8 course.

Definition adjoining_candidate (courses : list string) (adjoining_course : string)
    : list string :=
  let adjoining_course := strip adjoining_course in
  match re_match leading_number_re adjoining_course with
  | Some m => (courses ++ [m_group m 1])%list
  | None => courses
  end.

Definition _extract_adjoining_courses (semester_notes : json)
    : res (list string) :=
  if negb (truthy semester_notes) then mret []
  else
    semester_notes ← as_str semester_notes;
    match re_split1 adjoining_marker_re semester_notes with
    | [_; after] =>
        let content := strip after in
        let courses :=
          match re_match number_list_re content with
          | Some m => strip <$> split "," (str (m_text m))
          | None =>
              match re_match first_sentence_re content with
              | Some m => fold_left adjoining_candidate (split "," (m_group m 1)) []
              | None => []
              end
          end in
        mret (normalize_course <$> courses)
    | _ => mret []
    end.

(** *** Values read from the upstream records *)

(** [len(j)] *)
Definition py_len (j : json) : res nat :=
  match j with
  | JArr l => mret (length l)
  | JObj kvs => mret (length kvs)
  | JStr s => mret (String.length s)
  | _ => raise (TypeError "object has no len()")
  end.

(** [j[0]] *)
Definition index0 (j : json) : res json :=
  match j with
  | JArr (x :: _) => mret x
  | JArr [] => raise (OtherError "IndexError")
  | JStr s =>
      match chars s with
      | c :: _ => mret (JStr (str [c]))
      | [] => raise (OtherError "IndexError")
      end
  | JObj _ => raise (KeyError "0")
  | _ => raise (TypeError "not subscriptable")
  end.

(** An optional sign, then digits, single underscores allowed between them. *)
Definition int_re : regex :=
  Seqs [Opt (one_of "+-"); Plus digit; Star (Seq (Lit "_") (Plus digit))].

(** [int(j)] *)
Definition py_int (j : json) : res Z :=
  match j with
  | JNum z => mret z
  | JBool b => mret (if b then 1 else 0)
  | JStr s =>
      let t := strip s in
      match re_fullmatch int_re t with
      | Some _ =>
          let magnitude := digits_val (filter is_digit (chars t)) in
          mret (if startswith "-" t then - magnitude else magnitude)
      | None => raise (ValueError "invalid literal for int()")
      end
  | _ => raise (TypeError "int() argument")
  end.

(** An argument passed as [room_id: str] to [get_building_name]: a falsy
    scalar answers like the empty string; any other value that is not a
    string raises [TypeError], in the cache wrapper or in
    [urllib.parse.quote]. *)
Definition room_id_arg (j : json) : res string :=
  match j with
  | JStr s => mret s
  | JNull | JBool false | JNum 0 => mret ""
  | _ => raise (TypeError "room_id")
  end.

(** The loop that builds [responsible] in [get_course_data] and [staff] in
    [get_course_schedule]: the source has the same text at both places. *)
Definition person_name (person : json) (names : string) : res string :=
  title ← getitem person "Title";
  title ← as_str title;
  let title := strip title in
  let names :=
    if negb (String.eqb title "") && negb (String.eqb title "-")
    then names ++ title ++ " " else names in
  first_name ← getitem person "FirstName";
  last_name ← getitem person "LastName";
  mret (names ++ format_value first_name ++ " " ++ format_value last_name ++ lf).

Definition people_names (persons : json) : res string :=
  persons ← iter_items persons;
  names ← for_res persons person_name "";
  mret (rstrip_char nl names).

(** *** get_room_info *)

(** [PT(\d\d)H(\d\d)M00S] and [(\d\d\d)-(\d\d\d\d)] *)
Definition pt_00_re : regex :=
  Seqs [Lit "PT"; Grp 1 dd; Lit "H"; Grp 2 dd; Lit "M00S"].
Definition room_re : regex :=
  Seqs [Grp 1 (Seqs [digit; digit; digit]); Lit "-"; Grp 2 (Seq dd dd)].

Definition hh_mm (m : mtch) : string := m_group m 1 ++ ":" ++ m_group m 2.

Definition room_info_query (year semester : Z) (event_schedule_id : json)
    : string :=
  "EventScheduleSet?" ++ urlencode
    [("sap-client", "700");
     ("$filter", "Otjid eq '" ++ format_value event_schedule_id
        ++ "' and Peryr eq '" ++ str_of_Z year ++ "' and Perid eq '"
        ++ str_of_Z semester ++ "'");
     ("$expand", "Rooms")].

(** The loop over the rooms of one result. *)
Definition room_info_room (f : TechnionCourseFetcher) (year semester : Z)
    (room : json) (sets : gset string * gset Z) : M (gset string * gset Z) :=
  let '(buildings, room_numbers) := sets in
  room_id ← lift (dict_get room "Otjid" (JStr ""));
  room_name ← lift (dict_get room "Name" (JStr ""));
  room_name ← lift (as_str room_name);
  match re_fullmatch room_re room_name with
  | Some m =>
      room_id ← lift (room_id_arg room_id);
      building ← get_building_name f year semester room_id;
      let room_number := digits_val (chars (m_group m 2)) in
      mret (buildings ∪ {[building]}, room_numbers ∪ {[room_number]})
  | None => mret sets
  end.

(** The loop over the results. *)
Definition room_info_result (f : TechnionCourseFetcher) (year semester : Z)
    (result : json) (rooms_by_time : gmap (Z * string * string) (string * Z))
    : M (gmap (Z * string * string) (string * Z)) :=
  date_raw ← lift (dict_get result "Evdat" (JStr ""));
  begin_raw ← lift (dict_get result "Beguz" (JStr ""));
  end_raw ← lift (dict_get result "Enduz" (JStr ""));
  if negb (truthy date_raw) || negb (truthy begin_raw) || negb (truthy end_raw)
  then mret rooms_by_time
  else
    date ← lift (s ← as_str date_raw; _sap_date_parse s);
    let weekday := (weekday date + 1) mod 7 in
    begin_raw ← lift (as_str begin_raw);
    match re_fullmatch pt_00_re begin_raw with
    | None => mret rooms_by_time
    | Some begin_match =>
        end_raw ← lift (as_str end_raw);
        match re_fullmatch pt_00_re end_raw with
        | None => mret rooms_by_time
        | Some end_match =>
            let weekday_and_time :=
              (weekday, hh_mm begin_match, hh_mm end_match) in
            rooms ← lift (r ← dict_get result "Rooms" (JObj []);
                          r ← dict_get r "results" (JArr []);
                          iter_items r);
            sets ← for_M rooms (room_info_room f year semester) (∅, ∅);
            let '(buildings, room_numbers) := sets in
            match elements buildings with
            | [building] =>
                let room_number :=
                  match elements room_numbers with
                  | [n] => n
                  | _ => 0
                  end in
                mret (<[weekday_and_time := (building, room_number)]> rooms_by_time)
            | _ => mret rooms_by_time
            end
        end
    end.

Definition get_room_info (f : TechnionCourseFetcher) (year semester : Z)
    (event_schedule_id : json) : M (gmap (Z * string * string) (string * Z)) :=
  try_except
    (raw_data ← _send_request f (room_info_query year semester event_schedule_id) false;
     results ← lift (r ← d_field raw_data "results"; iter_items r);
     for_M results (room_info_result f year semester) ∅)
    any_exception (fun _ => mret ∅).

(** *** get_course_schedule *)

(** The nested function [raw_schedule_sort_key]: the pair
    [(group_id == 0, group_id)]. *)
Definition raw_schedule_sort_key (raw_schedule : json) : res (bool * Z) :=
  seqnr ← getitem raw_schedule "ZzSeSeqnr";
  group_id ← py_int seqnr;
  mret (group_id =? 0, group_id).

(** The order [<] of Python on pairs of a bool and an int. *)
Definition key_lt (a b : bool * Z) : bool :=
  match fst a, fst b with
  | false, true => true
  | true, false => false
  | _, _ => snd a <? snd b
  end.

(** [sorted(l, key=key)]: the keys are computed first, then the items are
    put in ascending order of their keys, items of equal keys staying in their
    original order. *)
Fixpoint insert_by {K A : Type} (lt : K -> K -> bool) (x : K * A)
    (l : list (K * A)) : list (K * A) :=
  match l with
  | [] => [x]
  | y :: l' => if lt (fst y) (fst x) then y :: insert_by lt x l' else x :: l
  end.

Definition sort_by {K A : Type} (lt : K -> K -> bool) (l : list (K * A))
    : list (K * A) :=
  foldr (insert_by lt) [] l.

Fixpoint with_keys {K A : Type} (key : A -> res K) (l : list A)
    : res (list (K * A)) :=
  match l with
  | [] => mret []
  | x :: l' => k ← key x; kl ← with_keys key l'; mret ((k, x) :: kl)
  end.

Definition py_sorted {A : Type} (key : A -> res (bool * Z)) (l : list A)
    : res (list A) :=
  keyed ← with_keys key l;
  mret (snd <$> sort_by key_lt keyed).

(** [03940[89]\d\d], [^SE\d+\s*] and the pattern of the physical-education
    names. *)
Definition sport_course_re : regex := Seqs [Lit "03940"; one_of "89"; dd].
Definition se_prefix_re : regex :=
  Seqs [Bol; Lit "SE"; Plus digit; Star space].
Definition sport_education_re : regex :=
  Seqs [Lit "ספורט חינוך גופני"; Star space; Lit "-"].

(** The two patterns of schedules given by dates. *)
Definition single_date_re : regex :=
  Seqs [ddmm; Lit ": "; hhmm; Lit "-"; hhmm].
Definition date_list_re : regex :=
  Seqs [Plus (Grp 1 (Seq ddmm (Lit ", "))); Lit "בהתאמה "; hhmm; Lit "-"; hhmm].

Definition day_mapping : list (string * Z) :=
  [("ראשון", 0); ("שני", 1); ("שלישי", 2); ("רביעי", 3); ("חמישי", 4);
   ("שישי", 5)].

(** The category of an item, with the relabelling of the sport courses. *)
Definition item_category (course_number : string) (raw_schedule raw_item : json)
    : res json :=
  category ← getitem raw_item "CategoryText";
  let is_sport_course :=
    bool_decide (is_Some (re_match sport_course_re course_number)) in
  if is_sport_course && json_in_strs category ["ספורט"; "נבחרת ספורט"]
  then
    category ← getitem raw_item "Name";
    text ← as_str category;
    if bool_decide (is_Some (re_match sport_education_re text))
       || String.eqb text "ספורט נבחרות ספורט"
    then
      group_name ← getitem raw_schedule "Name";
      if truthy group_name
      then
        group_name ← as_str group_name;
        mret (JStr (re_sub se_prefix_re [] group_name))
      else mret category
    else mret category
  else mret category.

(** The room of an item: the building and the room number read from
    [RoomText], or else the table of [get_room_info].  The last [else] of the
    source cannot be reached: when the first test fails, [RoomText] is empty
    or is the see-details text, and the [elif] holds. *)
Definition item_room (f : TechnionCourseFetcher) (year semester : Z)
    (raw_item : json)
    : M (string * Z * option (gmap (Z * string * string) (string * Z))) :=
  room_text ← lift (dict_get raw_item "RoomText" (JStr ""));
  if truthy room_text && negb (json_is_str room_text "ראה פרטים")
  then
    room_text ← lift (as_str room_text);
    match re_match room_re room_text with
    | Some room_match =>
        room_id ← lift (r ← dict_get raw_item "RoomId" (JStr ""); room_id_arg r);
        building ← get_building_name f year semester room_id;
        mret (building, digits_val (chars (m_group room_match 2)), None)
    | None => mret ("", 0, None)
    end
  else
    event_id ← lift (dict_get raw_item "Otjid" (JStr ""));
    if truthy event_id
    then
      building_room_dict ← get_room_info f year semester event_id;
      mret ("", 0, Some building_room_dict)
    else mret ("", 0, None).

(** The body of the loop over [day_time_entries]. *)
Definition schedule_entry (group_id : Z) (category : json) (building : string)
    (room : Z) (building_room_dict : option (gmap (Z * string * string) (string * Z)))
    (staff : string) (raw_item : json)
    (entry : string * string * string) (schedule : list json)
    : res (list json) :=
  let '(day, time_begin, time_end) := entry in
  let '(final_building, final_room) :=
    match building_room_dict with
    | Some d =>
        if bool_decide (d = ∅) then (building, room)
        else
          match dict_lookup day day_mapping with
          | Some weekday => default (building, room) (d !! (weekday, time_begin, time_end))
          | None => (building, room)
          end
    | None => (building, room)
    end in
  otjid ← getitem raw_item "Otjid";
  otjid ← as_str otjid;
  let number := if isdigit otjid then digits_val (chars otjid) else group_id in
  mret (schedule ++
    [JObj [("קבוצה", JNum group_id);
           ("סוג", category);
           ("יום", JStr day);
           ("שעה", JStr (time_begin ++ " - " ++ time_end));
           ("בניין", JStr final_building);
           ("חדר", JNum final_room);
           ("מרצה/מתרגל", JStr staff);
           ("מס.", JNum number)]])%list.

(** The body of the loop over the items of a group. *)
Definition schedule_item (f : TechnionCourseFetcher) (year semester : Z)
    (course_number : string) (raw_schedule : json) (group_id : Z)
    (raw_item : json) (schedule : list json) : M (list json) :=
  category ← lift (item_category course_number raw_schedule raw_item);
  '(building, room, building_room_dict) ← item_room f year semester raw_item;
  staff ← lift (p ← getitem raw_item "Persons"; p ← getitem p "results";
                people_names p);
  schedule_text ← lift (dict_get raw_item "ScheduleSummary" (JStr ""));
  if negb (truthy schedule_text) || json_is_str schedule_text "לֹא סָדִיר"
  then mret schedule
  else
    schedule_text ← lift (as_str schedule_text);
    if bool_decide (is_Some (re_match single_date_re schedule_text))
       || bool_decide (is_Some (re_match date_list_re schedule_text))
    then mret schedule
    else
      let day_time_entries := _parse_schedule_text schedule_text in
      lift (for_res day_time_entries
              (schedule_entry group_id category building room
                 building_room_dict staff raw_item) schedule).

(** The body of the loop over the sorted groups. *)
Definition schedule_group (f : TechnionCourseFetcher) (year semester : Z)
    (course_number : string) (raw_schedule : json) (schedule : list json)
    : M (list json) :=
  group_id ← lift (seqnr ← getitem raw_schedule "ZzSeSeqnr"; py_int seqnr);
  items ← lift (e ← getitem raw_schedule "EObjectSet"; e ← getitem e "results";
                iter_items e);
  for_M items (schedule_item f year semester course_number raw_schedule group_id)
    schedule.

Definition schedule_query (year semester : Z) (course_number : string) : string :=
  "SmObjectSet(Otjid='SM" ++ course_number ++ "',Peryr='" ++ str_of_Z year
    ++ "',Perid='" ++ str_of_Z semester
    ++ "',ZzCgOtjid='',ZzPoVersion='',ZzScOtjid='')/SeObjectSet?"
    ++ urlencode [("sap-client", "700"); ("$expand", "EObjectSet,EObjectSet/Persons")].

Definition get_course_schedule (f : TechnionCourseFetcher) (year semester : Z)
    (course_number : string) : M (list json) :=
  let query := schedule_query year semester course_number in
  fetched ← try_except
    (raw_data ← _send_request f query true; mret (Some raw_data))
    is_RuntimeError (fun _ => mret None);
  match fetched with
  | None => mret []
  | Some raw_data =>
      schedule_results ← lift (d_field raw_data "results");
      if negb (truthy schedule_results) then mret []
      else
        groups ← lift (l ← iter_items schedule_results;
                       py_sorted raw_schedule_sort_key l);
        for_M groups (schedule_group f year semester course_number) []
  end.

(** *** get_course_data *)

(** The two substitutions that format [points]:
    [(\.[1-9]+)0+$] by its group 1, then [\.0+$] by nothing. *)
Definition points_re1 : regex :=
  Seqs [Grp 1 (Seq (Lit ".") (Plus (range "1" "9"))); Plus (Lit "0"); Eol].
Definition points_re2 : regex := Seqs [Lit "."; Plus (Lit "0"); Eol].

Definition format_points (points : string) : string :=
  let points := re_sub points_re1 [TGrp 1] points in
  re_sub points_re2 [] points.

Definition exam_mapping : list (string * string) :=
  [("FI", "מועד א"); ("FB", "מועד ב"); ("MI", "בוחן מועד א");
   ("M2", "בוחן מועד ב")].

(** [PT(\d\d)H(\d\d)M\d\dS] *)
Definition pt_re : regex :=
  Seqs [Lit "PT"; Grp 1 dd; Lit "H"; Grp 2 dd; Lit "M"; dd; Lit "S"].

(** The computation of [time_str] for one exam. *)
Definition exam_time_str (time_begin_raw time_end_raw : json) : res string :=
  if truthy time_begin_raw && truthy time_end_raw
  then
    time_begin_raw ← as_str time_begin_raw;
    let begin_match := re_match pt_re time_begin_raw in
    time_end_raw ← as_str time_end_raw;
    let end_match := re_match pt_re time_end_raw in
    match begin_match, end_match with
    | Some begin_match, Some end_match =>
        let time_begin := hh_mm begin_match in
        let time_end := hh_mm end_match in
        if negb (String.eqb time_begin "00:00") || negb (String.eqb time_end "00:00")
        then mret (" " ++ time_begin ++ " - " ++ time_end)
        else mret ""
    | _, _ => mret ""
    end
  else mret "".

(** [category not in exam_mapping], then [exam_mapping[category]]: the label
    of a category code, [None] for a value that is not a key.  A list or a
    dict cannot be hashed. *)
Definition exam_label (category : json) : res (option string) :=
  match category with
  | JStr c => mret (dict_lookup c exam_mapping)
  | JArr _ | JObj _ => raise (TypeError "unhashable type")
  | _ => mret None
  end.

(** The body of the loop over the exams. *)
Definition exam_item (exam : json) (exams : list (string * string))
    : res (list (string * string)) :=
  category ← dict_get exam "CategoryCode" JNull;
  label ← exam_label category;
  match label with
  | None => mret exams
  | Some label =>
      date_raw ← dict_get exam "ExamDate" JNull;
      if negb (truthy date_raw) then mret exams
      else
        date_raw ← as_str date_raw;
        date ← _parse_sap_date date_raw;
        let date := strftime_dmY date in
        time_begin_raw ← dict_get exam "ExamBegTime" (JStr "");
        time_end_raw ← dict_get exam "ExamEndTime" (JStr "");
        time_str ← exam_time_str time_begin_raw time_end_raw;
        mret (dict_set label (date ++ time_str) exams)
  end.

Definition course_exams (exams_data : json) : res (list (string * string)) :=
  items ← iter_items exams_data;
  for_res items exam_item [].

Definition course_query (year semester : Z) (course_number : json) : string :=
  "SmObjectSet?" ++ urlencode
    [("sap-client", "700");
     ("$filter", "Peryr eq '" ++ str_of_Z year ++ "' and Perid eq '"
        ++ str_of_Z semester ++ "' and Otjid eq '"
        ++ format_value course_number ++ "'");
     ("$select", "Otjid,Points,Name,StudyContentDescription,OrgText,ZzAcademicLevelText,ZzSemesterNote,Responsible,Exams,SmRelations,SmPrereq");
     ("$expand", "Responsible,Exams,SmRelations,SmPrereq")].

(** [course_data[k]["results"]] *)
Definition results_of (course_data : json) (k : string) : res json :=
  v ← getitem course_data k; getitem v "results".

(** The local variables of [get_course_data] when it asks for the schedule. *)
Record CourseLocals : Type := mkCourseLocals {
  clean_course_number : string;
  l_points : string;
  l_responsible : string;
  l_prereq : string;
  l_relations : string;
  l_adjoining : list string;
  l_exams : list (string * string);
}.

(** The part of [get_course_data] between the query of the course and the
    query of its schedule. *)
Definition course_locals (course_data : json) : res CourseLocals :=
  clean_course_number ← getitem course_data "Otjid";
  clean_course_number ← as_str clean_course_number;
  let clean_course_number :=
    if startswith "SM" clean_course_number
    then slice_from 2 clean_course_number else clean_course_number in
  points ← getitem course_data "Points";
  points ← as_str points;
  let points := format_points points in
  responsible ← (p ← results_of course_data "Responsible"; people_names p);
  prereq ← (p ← results_of course_data "SmPrereq"; _extract_prerequisites p);
  relations ← (r ← results_of course_data "SmRelations"; _extract_relations r);
  note ← getitem course_data "ZzSemesterNote";
  adjoining ← _extract_adjoining_courses note;
  exams ← (e ← results_of course_data "Exams"; course_exams e);
  mret (mkCourseLocals clean_course_number points responsible prereq relations
          adjoining exams).

(** The final [return CourseInfo(...)]: the remaining fields are read from
    the record in the order of the keyword arguments. *)
Definition course_info (course_data : json) (l : CourseLocals)
    (schedule : list json) : res CourseInfo :=
  name ← getitem course_data "Name";
  syllabus ← getitem course_data "StudyContentDescription";
  faculty ← getitem course_data "OrgText";
  academic_level ← getitem course_data "ZzAcademicLevelText";
  notes ← getitem course_data "ZzSemesterNote";
  mret (mkCourseInfo (clean_course_number l) name syllabus faculty
          academic_level (l_points l) (l_responsible l) (l_prereq l)
          (join " " (l_adjoining l)) (l_relations l) notes (l_exams l) schedule).

Definition get_course_data (f : TechnionCourseFetcher) (year semester : Z)
    (course_number : json) : M CourseInfo :=
  raw_data ← _send_request f (course_query year semester course_number) false;
  results ← lift (d_field raw_data "results");
  n ← lift (py_len results);
  if negb (n =? 1)%nat
  then throw (RuntimeError "Expected 1 result")
  else
    course_data ← lift (index0 results);
    locals ← lift (course_locals course_data);
    schedule ← get_course_schedule f year semester (clean_course_number locals);
    lift (course_info course_data locals schedule).

(** *** Persistence and the loop over the courses of a semester *)

Definition opt_field (k : string) (v : string) (d : list (string * json))
    : list (string * json) :=
  if negb (String.eqb v "") then dict_set k (JStr v) d else d.

(** The loop that copies the non-empty exam dates into the [general] dict. *)
Definition add_exams (exams : list (string * string)) (d : list (string * json))
    : list (string * json) :=
  fold_left (fun d '(exam_type, exam_date) => opt_field exam_type exam_date d)
    exams d.

(** The [general] dict that [save_to_json] and the university writer build. *)
Definition general_dict (course : CourseInfo) : list (string * json) :=
  let general :=
    [("מספר מקצוע", JStr (course_number course));
     ("שם מקצוע", name course);
     ("סילבוס", syllabus course);
     ("פקולטה", faculty course);
     ("מסגרת לימודים", academic_level course);
     ("נקודות", JStr (points course));
     ("אחראים", JStr (responsible course));
     ("הערות", notes course)] in
  let general := opt_field "מקצועות קדם" (prerequisites course) general in
  let general := opt_field "מקצועות צמודים" (adjoining_courses course) general in
  let general :=
    opt_field "מקצועות ללא זיכוי נוסף" (no_additional_credit course) general in
  add_exams (exams course) general.

Definition course_dict (course : CourseInfo) : json :=
  JObj [("general", JObj (general_dict course));
        ("schedule", JArr (schedule course))].

Definition save_to_json (courses : list CourseInfo) (file_path : string)
    : M unit :=
  modify (set_json_files <[file_path := JArr (course_dict <$> courses)]>).

(** The value [firestore.SERVER_TIMESTAMP], kept as a mark in the document. *)
Definition SERVER_TIMESTAMP : json := JObj [("@transform", JStr "SERVER_TIMESTAMP")].

Definition exams_json (exams : list (string * string)) : json :=
  JObj ((fun kv => (fst kv, JStr (snd kv))) <$> exams).

(** A write batch: the pending [set] calls, the oldest first. *)
Definition batch : Type := list (list string * json).

(** The documents after the writes of a batch were applied, in order. *)
Definition apply_batch (b : batch) (docs : gmap (list string) json)
    : gmap (list string) json :=
  fold_left (fun docs '(path, data) => <[path := data]> docs) b docs.

Definition commit (b : batch) : M unit :=
  modify (set_documents (apply_batch b)).

Definition firestore_doc (course : CourseInfo) (year semester : Z) : json :=
  JObj [("courseNumber", JStr (course_number course));
        ("name", name course);
        ("syllabus", syllabus course);
        ("faculty", faculty course);
        ("academicLevel", academic_level course);
        ("points", JStr (points course));
        ("responsible", JStr (responsible course));
        ("prerequisites", JStr (prerequisites course));
        ("adjoiningCourses", JStr (adjoining_courses course));
        ("noAdditionalCredit", JStr (no_additional_credit course));
        ("notes", notes course);
        ("exams", exams_json (exams course));
        ("schedule", JArr (schedule course));
        ("lastUpdated", SERVER_TIMESTAMP);
        ("year", JNum year);
        ("semester", JNum semester)].

(** The loop of a writer over [enumerate(courses)]: each document is set in
    the batch, and the batch is committed after every 500th. *)
Definition batch_step (doc : CourseInfo -> list string * json)
    (course : CourseInfo) (st : nat * batch) : M (nat * batch) :=
  let '(i, b) := st in
  let b := (b ++ [doc course])%list in
  if ((i + 1) mod 500 =? 0)%nat
  then _ ← commit b; mret (S i, [])
  else mret (S i, b).

Definition write_batches (doc : CourseInfo -> list string * json)
    (courses : list CourseInfo) : M unit :=
  '(_, b) ← for_M courses (batch_step doc) (O, []);
  if negb (length courses mod 500 =? 0)%nat then commit b else mret tt.

Definition collection_name (year semester : Z) : string :=
  "courses_" ++ str_of_Z year ++ "_" ++ str_of_Z semester.

Definition save_to_firestore (f : TechnionCourseFetcher)
    (courses : list CourseInfo) (year semester : Z) : M unit :=
  if negb (db f) then mret tt
  else
    write_batches
      (fun course =>
         ([collection_name year semester; course_number course],
          firestore_doc course year semester))
      courses.

Definition course_numbers_query (year semester : Z) : string :=
  "SmObjectSet?" ++ urlencode
    [("sap-client", "700"); ("$skip", "0"); ("$top", "10000");
     ("$filter", "Peryr eq '" ++ str_of_Z year ++ "' and Perid eq '"
        ++ str_of_Z semester ++ "'");
     ("$select", "Otjid")].

Definition get_course_numbers (f : TechnionCourseFetcher) (year semester : Z)
    : M (list json) :=
  raw_data ← _send_request f (course_numbers_query year semester) false;
  lift (results ← d_field raw_data "results";
        items ← iter_items results;
        for_res items (fun x acc => otjid ← getitem x "Otjid";
                                    mret (acc ++ [otjid])%list) []).

(** The body of the loop of [fetch_semester_courses]: the [try] block around
    [get_course_data] and its [except Exception]. *)
Definition fetch_course (f : TechnionCourseFetcher) (year semester : Z)
    (course_number : json) (st : list CourseInfo * list json)
    : M (list CourseInfo * list json) :=
  let '(courses, failed_courses) := st in
  try_except
    (course ← get_course_data f year semester course_number;
     mret ((courses ++ [course])%list, failed_courses))
    any_exception
    (fun _ => mret (courses, (failed_courses ++ [course_number])%list)).

(** The loop, with the two lists it fills. *)
Definition fetch_loop (f : TechnionCourseFetcher) (year semester : Z)
    (course_numbers : list json) : M (list CourseInfo * list json) :=
  for_M course_numbers (fetch_course f year semester) ([], []).

Definition fetch_semester_courses (f : TechnionCourseFetcher)
    (year semester : Z) (output_dir : option string) (to_firestore : bool)
    : M (list CourseInfo) :=
  course_numbers ← get_course_numbers f year semester;
  '(courses, failed_courses) ← fetch_loop f year semester course_numbers;
  _ ← match output_dir with
      | Some dir =>
          save_to_json courses (path_join dir (collection_name year semester ++ ".json"))
      | None => mret tt
      end;
  _ ← (if to_firestore then save_to_firestore f courses year semester else mret tt);
  mret courses.

(** *** get_semesters *)

(** [date.strftime("%Y-%m-%d")] *)
Definition strftime_Ymd (days : Z) : string :=
  let '(y, m, d) := civil_from_days days in
  four_digits y ++ "-" ++ two_digits m ++ "-" ++ two_digits d.

Definition semesters_query : string :=
  "SemesterSet?" ++ urlencode
    [("sap-client", "700"); ("$select", "PiqYear,PiqSession,Begda,Endda")].

(** [self._parse_sap_date(result[k]).strftime("%Y-%m-%d")] *)
Definition semester_date (result : json) (k : string) : res string :=
  v ← getitem result k;
  v ← as_str v;
  days ← _parse_sap_date v;
  mret (strftime_Ymd days).

(** The body of the loop of [get_semesters]. *)
Definition semester_item (result : json) (semesters : list json)
    : res (list json) :=
  year ← (v ← getitem result "PiqYear"; py_int v);
  semester ← (v ← getitem result "PiqSession"; py_int v);
  if negb (bool_decide (semester ∈ [200; 201; 202])) then mret semesters
  else
    start_date ← semester_date result "Begda";
    end_date ← semester_date result "Endda";
    mret (semesters ++
      [JObj [("year", JNum year);
             ("semester", JNum semester);
             ("start_date", JStr start_date);
             ("end_date", JStr end_date);
             ("semester_code", JStr (str_of_Z year ++ "-" ++ str_of_Z semester))]])%list.

(** The key [(x["year"], x["semester"])] of the final sort. *)
Definition semester_key (x : json) : res (Z * Z) :=
  year ← getitem x "year";
  semester ← getitem x "semester";
  match year, semester with
  | JNum y, JNum s => mret (y, s)
  | _, _ => raise (TypeError "not comparable")
  end.

(** The order [<] of Python on pairs of ints. *)
Definition pair_lt (a b : Z * Z) : bool :=
  (a.1 <? b.1) || ((a.1 =? b.1) && (a.2 <? b.2)).

(** [sorted(l, key=semester_key, reverse=True)]: descending, and the items
    of equal keys in their original order. *)
Definition sorted_desc (l : list json) : res (list json) :=
  keyed ← with_keys semester_key l;
  mret (sort_by (fun a b => pair_lt b a) keyed).*2.

Definition get_semesters (f : TechnionCourseFetcher) : M (list json) :=
  raw_data ← _send_request f semesters_query false;
  lift (results ← d_field raw_data "results";
        items ← iter_items results;
        semesters ← for_res items semester_item [];
        sorted_desc semesters).

End WithLib.
End Fetcher.

(** ** smart_fetcher_fixed.py *)

Module SmartFetcher.
Import PyStr Re Py Fetcher.

Section WithLib.
Context `{PyLib}.

(** [NoCacheTechnionCourseFetcher]: the constructor passes no cache
    directory to the base class. *)
Definition NoCacheTechnionCourseFetcher (has_db : bool) : TechnionCourseFetcher :=
  mkFetcher None has_db.

(** Its override of [_send_request]: the request and the unwrapping of the
    base method, with no cache before or after. *)
Definition NoCache_send_request (query : string) (allow_empty : bool) : M json :=
  fun w =>
  let response := server w (length (posted w)) query in
  let w := set_posted (cons query) w in
  match response with
  | PostRaises e => (w, raise e)
  | PostReturns status_code text =>
      if negb (status_code =? 202)
      then (w, raise (RuntimeError "Bad status code"))
      else
        let response_chunks := split (lf ++ lf) (strip (replace crlf lf text)) in
        match response_chunks with
        | [_; _; chunk] =>
            let json_str := hd "" (split lf chunk) in
            match json_loads json_str with
            | inl e => (w, raise e)
            | inr result =>
                if negb allow_empty && is_empty_results result
                then (w, raise (RuntimeError "Empty response"))
                else (w, inr result)
            end
        | _ => (w, raise (RuntimeError "Invalid response format"))
        end
  end.

(** The body of the loop that fills [existing_schedules].  A course number
    that is not a string is stored under a key that no [course_number] of a
    [CourseInfo] equals; the table keeps the string keys only. *)
Definition existing_item (item : json) (existing_schedules : gmap string json)
    : res (gmap string json) :=
  general ← dict_get item "general" (JObj []);
  course_num ← dict_get general "מספר מקצוע" JNull;
  schedule ← dict_get item "schedule" (JArr []);
  if truthy course_num
  then
    match course_num with
    | JStr c => mret (<[c := schedule]> existing_schedules)
    | JArr _ | JObj _ => raise (TypeError "unhashable type")
    | _ => mret existing_schedules
    end
  else mret existing_schedules.

(** The loop inside [try]: an exception ends it and leaves the entries
    stored so far. *)
Fixpoint load_items (items : list json) (existing_schedules : gmap string json)
    : gmap string json :=
  match items with
  | [] => existing_schedules
  | item :: items' =>
      match existing_item item existing_schedules with
      | inr existing_schedules' => load_items items' existing_schedules'
      | inl _ => existing_schedules
      end
  end.

(** [existing_schedules] after the data file was looked for ([None]: there
    is no such file) and read. *)
Definition load_existing_schedules (data_file : option json) : gmap string json :=
  match data_file with
  | None => ∅
  | Some existing_data =>
      match iter_items existing_data with
      | inr items => load_items items ∅
      | inl _ => ∅
      end
  end.

Definition is_dict (j : json) : bool :=
  match j with
  | JObj _ => true
  | _ => false
  end.

(** [vars(item) if hasattr(item, '__dict__') else item]: a value of JSON
    shape (None, a bool, an int, a str, a list, a dict) has no [__dict__]. *)
Definition item_vars (item : json) : json := item.

(** The two steps that make [schedule] a list of dicts; [course.schedule] is
    a list already. *)
Definition as_list_of_dicts (schedule : list json) : list json :=
  match schedule with
  | first :: _ => if negb (is_dict first) then item_vars <$> schedule else schedule
  | [] => schedule
  end.

(** The schedule that is stored for a course. *)
Definition stored_schedule (existing_schedules : gmap string json)
    (course : CourseInfo) : json :=
  let schedule := as_list_of_dicts (schedule course) in
  match schedule, existing_schedules !! course_number course with
  | [], Some existing => existing
  | _, _ => JArr schedule
  end.

(** The dict [course_data] of the loop. *)
Definition course_data (existing_schedules : gmap string json)
    (university_id : string) (year semester : Z) (semester_name : string)
    (course : CourseInfo) : json :=
  JObj [("general", JObj (general_dict course));
        ("schedule", stored_schedule existing_schedules course);
        ("metadata", JObj [("fetched_at", SERVER_TIMESTAMP);
                           ("university", JStr university_id);
                           ("year", JNum year);
                           ("semester", JNum semester);
                           ("semester_name", JStr semester_name)])].

Definition semester_names : list (Z * string) :=
  [(200, "חורף"); (201, "אביב"); (202, "קיץ")].

Definition semester_name_of (semester : Z) : res string :=
  match list_find (fun kv => fst kv = semester) semester_names with
  | Some (_, (_, n)) => mret n
  | None => raise (KeyError (str_of_Z semester))
  end.

(** [set(fields, merge=True)]: the fields given replace those of the same
    name and the others stay. *)
Definition set_merge (path : list string) (fields : list (string * json))
    : M unit :=
  modify (set_documents (fun docs =>
    let old := match docs !! path with
               | Some (JObj kvs) => kvs
               | _ => []
               end in
    <[path := JObj (fold_left (fun d '(k, v) => dict_set k v d) fields old)]> docs)).

Definition ArrayUnion (l : list json) : json :=
  JObj [("@transform", JStr "ArrayUnion"); ("elements", JArr l)].

Definition save_to_firestore_university_structure (f : TechnionCourseFetcher)
    (courses : list CourseInfo) (university_id : string) (year semester : Z)
    (output_dir : option string) : M unit :=
  if negb (db f) then mret tt
  else
    let output_dir := default "./data" output_dir in
    let data_file := path_join output_dir (collection_name year semester ++ ".json") in
    files ← (fun w => (w, inr (json_files w)));
    let existing_schedules := load_existing_schedules (files !! data_file) in
    let collection_name := collection_name year semester in
    semester_name ← lift (semester_name_of semester);
    _ ← set_merge [university_id; "metadata"]
          [("last_updated", SERVER_TIMESTAMP);
           ("available_semesters", ArrayUnion [JStr collection_name]);
           ("semester_counts." ++ collection_name,
            JNum (Z.of_nat (length courses)))];
    write_batches
      (fun course =>
         ([university_id; "data"; collection_name; course_number course],
          course_data existing_schedules university_id year semester
            semester_name course))
      courses.

(** [get_current_semester], as a function of the year and the month of
    [datetime.datetime.now()]. *)
Definition get_current_semester (year month : Z) : Z * Z :=
  if (10 <=? month) || (month <=? 2)
  then
    let semester_year := if 10 <=? month then year else year in
    (semester_year, 200)
  else if (3 <=? month) && (month <=? 7) then (year, 201)
  else (year, 202).

Definition get_next_semester (year semester : Z) : Z * Z :=
  if semester =? 200 then (year, 201)
  else if semester =? 201 then (year, 202)
  else (year + 1, 200).

(** The [try] block of the loop of [main] for one semester: the courses are
    fetched, with the output directory of the command line, and written to
    the store unless there are none.  The result tells whether the semester
    counts as successful. *)
Definition update_semester (f : TechnionCourseFetcher) (output_dir : string)
    (year semester : Z) : M bool :=
  let dir := if String.eqb output_dir "" then None else Some output_dir in
  courses ← fetch_semester_courses f year semester dir false;
  match courses with
  | [] => mret false
  | _ =>
      _ ← save_to_firestore_university_structure f courses "Technion" year
            semester None;
      mret true
  end.

End WithLib.
End SmartFetcher.

(** ** Concrete inputs for the examples *)

Module Demo.
Import PyStr Re Py Fetcher.

(** The upstream record of a course, for the examples. *)
Definition course_record (otjid : string) : json :=
  JObj [("Otjid", JStr otjid);
        ("Points", JStr "3.50");
        ("Name", JStr "Algebra");
        ("StudyContentDescription", JStr "");
        ("OrgText", JStr "Mathematics");
        ("ZzAcademicLevelText", JStr "");
        ("ZzSemesterNote", JStr "");
        ("Responsible", JObj [("results", JArr
           [JObj [("Title", JStr "Dr."); ("FirstName", JStr "A");
                  ("LastName", JStr "B")]])]);
        ("Exams", JObj [("results", JArr
           [JObj [("CategoryCode", JStr "FI");
                  ("ExamDate", JStr "/Date(1641600000000)/");
                  ("ExamBegTime", JStr "PT09H00M00S");
                  ("ExamEndTime", JStr "PT12H00M00S")];
            JObj [("CategoryCode", JStr "FB");
                  ("ExamDate", JStr "/Date(1641600000000)/");
                  ("ExamBegTime", JStr "PT00H00M00S");
                  ("ExamEndTime", JStr "PT00H00M00S")];
            JObj [("CategoryCode", JStr "MI"); ("ExamDate", JStr "")];
            JObj [("CategoryCode", JStr "XX");
                  ("ExamDate", JStr "/Date(1641600000000)/")]])]);
        ("SmRelations", JObj [("results", JArr [])]);
        ("SmPrereq", JObj [("results", JArr
           [JObj [("Bracket", JStr "("); ("ModuleId", JStr "00440102");
                  ("Operator", JStr "")];
            JObj [("Bracket", JStr ")"); ("ModuleId", JStr "00000000");
                  ("Operator", JStr "")]])])].

Definition results (l : list json) : json :=
  JObj [("d", JObj [("results", JArr l)])].

(** The payloads that the example server sends, by name. *)
Definition payloads : list (string * json) :=
  [("building", JObj [("d", JObj [("Building", JStr "בנין  ע'ש טאוב 2")])]);
   ("empty", results []);
   ("none", JObj [("d", JObj [("Building", JNull)])]);
   ("numbers", results [JObj [("Otjid", JStr "SM1")]; JObj [("Otjid", JStr "SM2")];
                        JObj [("Otjid", JStr "SM3")]]);
   ("course1", results [course_record "SM1"]);
   ("course3", results [course_record "SM3"]);
   ("two", results [course_record "SM2"; course_record "SM2"])].

(** [sub in s] *)
Definition contains (sub s : string) : bool :=
  bool_decide (is_Some (search_go (Lit sub) None [] (chars s))).

(** Stand-ins for the library functions: [json_loads] knows the payloads
    above by their names. *)
#[export] Instance lib : PyLib := {|
  sha256_hexdigest := fun q => "0011223344556677";
  json_loads := fun s =>
    match dict_lookup s payloads with
    | Some j => inr j
    | None => inl (ValueError "Expecting value")
    end;
  urlencode := fun kvs => join "&" ((fun kv => fst kv ++ "=" ++ snd kv) <$> kvs);
  quote := fun s => s;
  repr_container := fun _ => "[...]";
|}.

(** A batch response whose third part carries the named payload. *)
Definition batch_response (payload : string) : string :=
  "--batch" ++ crlf ++ crlf ++ "HTTP/1.1 200 OK" ++ crlf ++ crlf ++ payload
    ++ crlf ++ "--batch--" ++ crlf.

Definition world (srv : nat -> string -> reply) : World :=
  mkWorld srv [] ∅ ∅ ∅ ∅.

(** A server for a semester of three courses: it lists them, has a record
    for the first and the third and two records for the second, and refuses
    every query of a schedule with the given status. *)
Definition semester_server (schedule_status : Z) : nat -> string -> reply :=
  fun _ q =>
    if contains "SeObjectSet" q then PostReturns schedule_status ""
    else if contains "SM1" q then PostReturns 202 (batch_response "course1")
    else if contains "SM2" q then PostReturns 202 (batch_response "two")
    else if contains "SM3" q then PostReturns 202 (batch_response "course3")
    else PostReturns 202 (batch_response "numbers").

(** A schedule entry, a record of a course with a given schedule, and the
    item of a course file for a course number and a schedule. *)
Definition entry (day : string) : json :=
  JObj [("קבוצה", JNum 11); ("יום", JStr day); ("שעה", JStr "10:30 - 12:30")].

Definition course (number : string) (sched : list json) : CourseInfo :=
  mkCourseInfo number (JStr "Algebra") (JStr "") (JStr "Mathematics") (JStr "")
    "3.5" "Dr. A B" "" "" "" (JStr "") [("מועד א", "08-01-2022")] sched.

Definition file_item (number : string) (sched : list json) : json :=
  JObj [("general", JObj [("מספר מקצוע", JStr number)]);
        ("schedule", JArr sched)].

(** A raw schedule group with an id and a name. *)
Definition group (seqnr name : string) : json :=
  JObj [("ZzSeSeqnr", JStr seqnr); ("Name", JStr name)].

End Demo.

(** * Properties *)

(** ** Strings *)

Module PyStrFacts.
Import PyStr.

Lemma str_chars s : str (chars s) = s.
Proof. apply string_of_list_ascii_of_string. Qed.

Lemma chars_str l : chars (str l) = l.
Proof. apply list_ascii_of_string_of_list_ascii. Qed.

Lemma chars_app s t : chars (s ++ t) = (chars s ++ chars t)%list.
Proof. induction s as [|c s IH]; simpl; [done | by rewrite IH]. Qed.

Lemma str_app l k : str (l ++ k)%list = str l ++ str k.
Proof. induction l as [|c l IH]; simpl; [done | by rewrite IH]. Qed.

Lemma str_inj l k : str l = str k -> l = k.
Proof. intros E. by rewrite <- (chars_str l), E, chars_str. Qed.

Lemma length_chars s : length (chars s) = String.length s.
Proof. induction s as [|c s IH]; simpl; [done | by rewrite IH]. Qed.

End PyStrFacts.

(** ** The matcher *)

Module ReFacts.
Import PyStr Re PyStrFacts.




(** A match consumes a prefix of the text still to read. *)
Lemma sub_go_S r t fuel pv s :
  sub_go r t (S fuel) pv s =
  match match_at r (Pos pv s []) with
  | Some m =>
      let q := m_end m in
      if (length (rest q) <? length s)%nat
      then (expand t m ++ sub_go r t fuel (prev q) (rest q))%list
      else
        match s with
        | [] => expand t m
        | c :: s' => (expand t m ++ c :: sub_go r t fuel (Some c) s')%list
        end
  | None =>
      match s with
      | [] => []
      | c :: s' => c :: sub_go r t fuel (Some c) s'
      end
  end.
Proof. reflexivity. Qed.


Lemma consumed_app (t s : list ascii) : consumed (t ++ s) s = t.
Proof.
  unfold consumed. rewrite length_app.
  replace (length t + length s - length s)%nat with (length t) by lia.
  by rewrite take_app_length.
Qed.



Lemma Matches_Chr c p q :
  Matches (Chr c) p q ->
  exists x, c x = true /\ rest p = x :: rest q /\ grps q = grps p
            /\ prev q = Some x.
Proof. inversion 1; subst; simpl. by eexists. Qed.

Lemma Matches_Seq a b p r :
  Matches (Seq a b) p r -> exists q, Matches a p q /\ Matches b q r.
Proof. inversion 1; subst. by eexists. Qed.





(** A star of a class matches a run of the class. *)
Lemma Matches_Star_Chr c p q :
  Matches (Star (Chr c)) p q ->
  exists t, rest p = (t ++ rest q)%list /\ forallb c t = true
            /\ grps q = grps p.
Proof.
  remember (Star (Chr c)) as r eqn:Er.
  induction 1 as [| | | | |a p|a p q r Ha _ _ _ IH2| | | | | | |]; try done.
  - by exists [].
  - injection Er as ->.
    destruct IH2 as (t & E & Ht & Eg); [done|].
    apply Matches_Chr in Ha as (x & Hx & Ex & Egx & _).
    exists (x :: t). simpl. by rewrite Ex, E, Hx, Ht, Eg, Egx.
Qed.

Lemma Matches_Plus_Chr c p q :
  Matches (Plus (Chr c)) p q ->
  exists x t, rest p = (x :: t ++ rest q)%list /\ c x = true
              /\ forallb c t = true /\ grps q = grps p.
Proof.
  intros (p' & (x & Hx & E & Eg & _)%Matches_Chr
             & (t & E' & Ht & Eg')%Matches_Star_Chr)%Matches_Seq.
  exists x, t. by rewrite E, E', Eg', Eg.
Qed.

(** The greedy star of a class, when the continuation accepts the end of
    the run: the whole run is taken. *)
Lemma star_class_greedy {A} c (k : pos -> option A) x :
  forall fuel pv s g,
    (length s <= fuel)%nat ->
    k (Pos (skip_run c pv s).1 (skip_run c pv s).2 g) = Some x ->
    star_loop (fun p k => run (Chr c) p k) k fuel (Pos pv s g) = Some x.
Proof.
  induction fuel as [|fuel IH]; intros pv s g Hf Hk.
  - destruct s; simpl in *; [done | lia].
  - destruct s as [|y s]; simpl in *; [by rewrite Hk|].
    destruct (c y) eqn:Hc; simpl in *; [|by rewrite Hk].
    unfold shorter; simpl.
    destruct (length s <? S (length s))%nat eqn:E;
      [|apply Nat.ltb_ge in E; lia].
    rewrite (IH (Some y) s g); [done | lia | done].
Qed.

End ReFacts.

(** ** Exceptions and the monads *)

Module PyFacts.
Import PyStr Py.

#[export] Instance exn_eq_dec : EqDecision exn.
Proof. solve_decision. Defined.

Lemma res_bind_inr {A B} (m : res A) (k : A -> res B) y :
  (m ≫= k) = inr y <-> exists x, m = inr x /\ k x = inr y.
Proof.
  destruct m as [e|x]; simpl; split.
  - intros [=].
  - by intros (x & [=] & _).
  - intros E. by exists x.
  - by intros (x' & [= <-] & E).
Qed.

Lemma M_bind_inr {A B} (m : M A) (k : A -> M B) w w' y :
  (m ≫= k) w = (w', inr y) <->
  exists w1 x, m w = (w1, inr x) /\ k x w1 = (w', inr y).
Proof.
  unfold mbind, M_bind. destruct (m w) as [w1 [e|x]]; split.
  - intros [=].
  - by intros (w2 & x & [=] & _).
  - intros E. by exists w1, x.
  - by intros (w2 & x' & [= <- <-] & E).
Qed.

Lemma lift_inr {A} (r : res A) w w' y :
  lift r w = (w', inr y) <-> w' = w /\ r = inr y.
Proof. unfold lift. split; [by intros [= <- ->] | by intros [-> ->]]. Qed.

Lemma for_res_app {A S} (body : A -> S -> res S) (l1 l2 : list A) (s : S) :
  for_res (l1 ++ l2) body s = (s' ← for_res l1 body s; for_res l2 body s').
Proof.
  revert s. induction l1 as [|x l1 IH]; intros s; simpl; [done|].
  destruct (body x s) as [e|s']; simpl; [done | apply IH].
Qed.

End PyFacts.

(** ** Sorting the groups of a schedule *)

Module SortFacts.
Import PyStr Py Fetcher PyFacts.

Section Sort.
Context {K A : Type} (lt : K -> K -> bool).

Lemma insert_by_perm (x : K * A) l : insert_by lt x l ≡ₚ x :: l.
Proof.
  induction l as [|y l IH]; simpl; [done|].
  destruct (lt y.1 x.1); [|done].
  by rewrite IH, Permutation_swap.
Qed.

Lemma sort_by_perm (l : list (K * A)) : sort_by lt l ≡ₚ l.
Proof.
  induction l as [|x l IH]; simpl; [done|].
  by rewrite insert_by_perm, IH.
Qed.

(** [x] may stand before [y]: [y] is not below [x]. *)
Definition not_after (x y : K * A) : Prop := lt y.1 x.1 = false.

Hypothesis lt_irrefl : forall a, lt a a = false.
Hypothesis lt_asym : forall a b, lt a b = true -> lt b a = false.
Hypothesis lt_negtrans :
  forall a b c, lt b a = false -> lt c b = false -> lt c a = false.

Lemma insert_by_sorted x l :
  StronglySorted not_after l -> StronglySorted not_after (insert_by lt x l).
Proof.
  induction 1 as [|y l Hl IH Hy]; simpl.
  - repeat constructor.
  - destruct (lt y.1 x.1) eqn:E.
    + constructor; [done|].
      rewrite insert_by_perm. constructor; [|done].
      unfold not_after. by apply lt_asym.
    + constructor; [by constructor|].
      constructor; [done|].
      eapply Forall_impl; [exact Hy|].
      intros z Hz. unfold not_after in *. by eapply lt_negtrans.
Qed.

Lemma sort_by_sorted l : StronglySorted not_after (sort_by lt l).
Proof.
  induction l as [|x l IH]; simpl; [constructor | by apply insert_by_sorted].
Qed.

(** Stability: the items of one key keep their order. *)
Lemma insert_by_filter `{EqDecision K} k x l :
  filter (fun y : K * A => y.1 = k) (insert_by lt x l)
  = filter (fun y : K * A => y.1 = k) (x :: l).
Proof.
  induction l as [|y l IH]; simpl; [done|].
  destruct (lt y.1 x.1) eqn:E; [|done].
  rewrite !filter_cons. rewrite filter_cons in IH.
  destruct (decide (y.1 = k)) as [Ey|Ey], (decide (x.1 = k)) as [Ex|Ex];
    rewrite IH; try done.
  rewrite Ey, Ex, lt_irrefl in E. done.
Qed.

Lemma sort_by_filter `{EqDecision K} k l :
  filter (fun y : K * A => y.1 = k) (sort_by lt l)
  = filter (fun y : K * A => y.1 = k) l.
Proof.
  induction l as [|x l IH]; simpl; [done|].
  by rewrite insert_by_filter, !filter_cons, IH.
Qed.
End Sort.

End SortFacts.

Module GroupOrder.
Import PyStr Py Fetcher PyFacts SortFacts.

Section Groups.
Context `{PyLib}.

(** [int(raw_schedule["ZzSeSeqnr"])], the group id of a raw schedule. *)
Definition group_id_of (raw_schedule : json) : res Z :=
  seqnr ← getitem raw_schedule "ZzSeSeqnr"; py_int seqnr.

Definition has_id (x : json) (i : Z) : Prop := group_id_of x = inr i.

Definition key_of (i : Z) : bool * Z := (i =? 0, i).

Lemma sort_key_of x i : has_id x i -> raw_schedule_sort_key x = inr (key_of i).
Proof.
  unfold has_id, group_id_of, raw_schedule_sort_key.
  destruct (getitem x "ZzSeSeqnr") as [e|v]; simpl; [done|].
  by intros ->.
Qed.

Lemma key_lt_irrefl a : key_lt a a = false.
Proof. destruct a as [[] i]; unfold key_lt; simpl; lia. Qed.

Lemma key_lt_asym a b : key_lt a b = true -> key_lt b a = false.
Proof. destruct a as [[] i], b as [[] j]; unfold key_lt; simpl; lia. Qed.

Lemma key_lt_negtrans a b c :
  key_lt b a = false -> key_lt c b = false -> key_lt c a = false.
Proof.
  destruct a as [[] i], b as [[] j], c as [[] k]; unfold key_lt; simpl; lia.
Qed.

(** A keyed item whose key is the key of its own group id. *)
Definition keyed_ok (y : bool * Z * json) : Prop :=
  y.1 = key_of y.1.2 /\ has_id y.2 y.1.2.

Lemma with_keys_zip l ids :
  Forall2 has_id l ids ->
  exists kl, with_keys raw_schedule_sort_key l = inr kl
    /\ kl.*2 = l /\ (fun y : bool * Z * json => y.1.2) <$> kl = ids
    /\ Forall keyed_ok kl.
Proof.
  induction 1 as [|x i l ids Hx _ (kl & E & El & Ei & Hok)]; simpl.
  - by exists [].
  - rewrite (sort_key_of x i Hx), E. simpl.
    exists ((key_of i, x) :: kl). csimpl.
    split; [done|]. split; [by f_equal|]. split; [by f_equal|].
    by constructor.
Qed.

Lemma keyed_ids (s : list (bool * Z * json)) :
  Forall keyed_ok s ->
  Forall2 has_id s.*2 ((fun y : bool * Z * json => y.1.2) <$> s).
Proof.
  induction 1 as [|y s [_ Hy] _ IH]; simpl; constructor; done.
Qed.

(** In a list sorted by the keys, the zero ids come last and the others
    ascend. *)
Lemma keyed_sorted (s : list (bool * Z * json)) :
  Forall keyed_ok s -> StronglySorted (not_after key_lt) s ->
  let ids := (fun y : bool * Z * json => y.1.2) <$> s in
  ids = (filter (fun i => i ≠ 0) ids ++ filter (fun i => i = 0) ids)%list
  /\ StronglySorted Z.le (filter (fun i => i ≠ 0) ids).
Proof.
  intros Hok Hs. cbv zeta. induction Hs as [|y s Hs IH Hy]; csimpl.
  - split; [done | constructor].
  - apply Forall_cons in Hok as [[Ey _] Hok].
    destruct (IH Hok) as [IH1 IH2]. clear IH.
    set (ids := (fun y : bool * Z * json => y.1.2) <$> s) in *.
    assert (Hle : Forall (fun j => key_lt (key_of j) (key_of y.1.2) = false) ids).
    { unfold ids. apply Forall_fmap. rewrite Forall_forall in Hy, Hok.
      apply Forall_forall. intros z Hz. simpl.
      destruct (Hok z Hz) as [Ez _]. specialize (Hy z Hz).
      unfold not_after in Hy. by rewrite Ez, Ey in Hy. }
    rewrite !filter_cons.
    destruct (decide (y.1.2 ≠ 0)) as [Hn|Hz], (decide (y.1.2 = 0)) as [Hz'|Hn'];
      try done.
    + split; [by rewrite <- app_comm_cons, <- IH1|].
      constructor; [done|].
      apply Forall_forall. intros j [Hj Hin]%list_elem_of_filter.
      rewrite Forall_forall in Hle. specialize (Hle j Hin).
      unfold key_lt, key_of in Hle; simpl in Hle.
      destruct (j =? 0) eqn:Ej, (y.1.2 =? 0) eqn:Ey0; lia.
    + assert (Hall : Forall (fun j => j = 0) ids).
      { eapply Forall_impl; [exact Hle|]. intros j Hj.
        unfold key_lt, key_of in Hj; simpl in Hj.
        destruct (j =? 0) eqn:Ej, (y.1.2 =? 0) eqn:Ey0; lia. }
      assert (E1 : filter (fun i => i ≠ 0) ids = []).
      { clear -Hall. induction Hall as [|j ids Hj _ IH]; [done|].
        rewrite filter_cons. destruct (decide (j ≠ 0)); [done | exact IH]. }
      rewrite E1 in IH1 |- *. rewrite app_nil_l in IH1 |- *.
      split; [by rewrite <- IH1 | constructor].
Qed.

Lemma keyed_filter g (s : list (bool * Z * json)) :
  Forall keyed_ok s ->
  filter (fun x => group_id_of x = inr g) s.*2
  = (filter (fun y : bool * Z * json => y.1 = key_of g) s).*2.
Proof.
  induction 1 as [|y s [Ey Hy] _ IH]; csimpl; [done|].
  rewrite !filter_cons, IH. unfold has_id in Hy.
  destruct (decide (group_id_of y.2 = inr g)) as [E|E],
           (decide (y.1 = key_of g)) as [E'|E']; try done.
  - rewrite Hy in E. injection E as <-. done.
  - rewrite Ey in E'. unfold key_of in E'. injection E' as _ E'.
    rewrite Hy, E' in E. done.
Qed.

End Groups.
End GroupOrder.

Module GroupOrderSpec.
Import PyStr Py Fetcher PyFacts SortFacts GroupOrder.

(** C4. Sorting the raw schedule groups by [raw_schedule_sort_key] succeeds
    when every group has an integer id; the result is a rearrangement of the
    groups in which the non-zero ids ascend and the groups of id 0 come last,
    and the groups of one id keep their original order.  The ids 3, 0, 1, 0
    come out as 1, 3, 0, 0. *)
Theorem sorted_by_group_id `{PyLib} (l : list json) (ids : list Z) :
  Forall2 has_id l ids ->
  exists l' ids',
    py_sorted raw_schedule_sort_key l = inr l'
    /\ Forall2 has_id l' ids'
    /\ l' ≡ₚ l
    /\ ids' = (filter (fun i => i ≠ 0) ids' ++ filter (fun i => i = 0) ids')%list
    /\ StronglySorted Z.le (filter (fun i => i ≠ 0) ids')
    /\ (forall g, filter (fun x => group_id_of x = inr g) l'
                  = filter (fun x => group_id_of x = inr g) l)
    /\ (ids = [3; 0; 1; 0] -> ids' = [1; 3; 0; 0]).
Proof.
  intros Hids.
  destruct (with_keys_zip l ids Hids) as (kl & E & El & Ei & Hok).
  set (s := sort_by key_lt kl).
  assert (Hperm : s ≡ₚ kl) by apply sort_by_perm.
  assert (Hoks : Forall keyed_ok s) by by rewrite Hperm.
  assert (Hsorted : StronglySorted (not_after key_lt) s).
  { apply sort_by_sorted; [apply key_lt_asym | apply key_lt_negtrans]. }
  exists s.*2, ((fun y : bool * Z * json => y.1.2) <$> s).
  split; [unfold py_sorted; by rewrite E|].
  split; [by apply keyed_ids|].
  split; [by rewrite Hperm, El|].
  destruct (keyed_sorted s Hoks Hsorted) as [Hz Ha].
  split; [exact Hz|]. split; [exact Ha|].
  split.
  - intros g. rewrite (keyed_filter g s Hoks). rewrite <- El.
    rewrite (keyed_filter g kl Hok). unfold s.
    by rewrite (sort_by_filter key_lt key_lt_irrefl).
  - intros ->. unfold s.
    destruct kl as [|[k1 x1] [|[k2 x2] [|[k3 x3] [|[k4 x4] [|? ?]]]]];
      try discriminate Ei.
    apply Forall_cons in Hok as [[E1 _] Hok].
    apply Forall_cons in Hok as [[E2 _] Hok].
    apply Forall_cons in Hok as [[E3 _] Hok].
    apply Forall_cons in Hok as [[E4 _] Hok].
    simpl in *. injection Ei as Ei1 Ei2 Ei3 Ei4.
    rewrite E1, E2, E3, E4, Ei1, Ei2, Ei3, Ei4. reflexivity.
Qed.

Lemma sorted_by_group_id_witness :
  exists l' ids',
    py_sorted raw_schedule_sort_key
      [Demo.group "3" "a"; Demo.group "0" "b"; Demo.group "1" "c";
       Demo.group "0" "d"] = inr l'
    /\ Forall2 has_id l' ids'
    /\ l' ≡ₚ [Demo.group "3" "a"; Demo.group "0" "b"; Demo.group "1" "c";
              Demo.group "0" "d"]
    /\ ids' = (filter (fun i => i ≠ 0) ids' ++ filter (fun i => i = 0) ids')%list
    /\ StronglySorted Z.le (filter (fun i => i ≠ 0) ids')
    /\ (forall g, filter (fun x => group_id_of x = inr g) l'
                  = filter (fun x => group_id_of x = inr g)
                      [Demo.group "3" "a"; Demo.group "0" "b";
                       Demo.group "1" "c"; Demo.group "0" "d"])
    /\ ([3; 0; 1; 0] = [3; 0; 1; 0] -> ids' = [1; 3; 0; 0]).
Proof.
  apply (sorted_by_group_id (H := Demo.lib)).
  repeat constructor.
Defined.

(** The groups themselves, on the example of the specification: the two
    groups of id 0 stay in their order. *)
Example sorted_3_0_1_0 :
  py_sorted raw_schedule_sort_key
    [Demo.group "3" "a"; Demo.group "0" "b"; Demo.group "1" "c";
     Demo.group "0" "d"]
  = inr [Demo.group "1" "c"; Demo.group "3" "a"; Demo.group "0" "b";
         Demo.group "0" "d"].
Proof. vm_compute. reflexivity. Qed.

End GroupOrderSpec.

(** ** The record of a course *)

Module CourseFacts.
Import PyStr Py Fetcher PyFacts.

Section Course.
Context `{PyLib}.

Lemma as_str_inr j s : as_str j = inr s <-> j = JStr s.
Proof. destruct j; simpl; split; intros E; by inversion E. Qed.

(** The steps of a successful [get_course_data]. *)
Lemma get_course_data_inv f year semester cn w w' c :
  get_course_data f year semester cn w = (w', inr c) ->
  exists w1 raw_data results course_data locals schedule,
    _send_request f (course_query year semester cn) false w = (w1, inr raw_data)
    /\ d_field raw_data "results" = inr results
    /\ py_len results = inr 1%nat
    /\ index0 results = inr course_data
    /\ course_locals course_data = inr locals
    /\ get_course_schedule f year semester (clean_course_number locals) w1
       = (w', inr schedule)
    /\ course_info course_data locals schedule = inr c.
Proof.
  unfold get_course_data.
  intros (w1 & raw_data & Hreq & E)%M_bind_inr.
  apply M_bind_inr in E as (? & results & [-> Hres]%lift_inr & E).
  apply M_bind_inr in E as (? & n & [-> Hlen]%lift_inr & E).
  destruct (n =? 1)%nat eqn:Hn; simpl in E; [|by inversion E].
  apply Nat.eqb_eq in Hn as ->.
  apply M_bind_inr in E as (? & course_data & [-> Hcd]%lift_inr & E).
  apply M_bind_inr in E as (? & locals & [-> Hloc]%lift_inr & E).
  apply M_bind_inr in E as (w2 & schedule & Hsched & [-> Hinfo]%lift_inr).
  by exists w1, raw_data, results, course_data, locals, schedule.
Qed.

Lemma course_info_inv course_data l sched c :
  course_info course_data l sched = inr c ->
  course_number c = clean_course_number l /\ points c = l_points l
  /\ exams c = l_exams l /\ schedule c = sched
  /\ prerequisites c = l_prereq l /\ responsible c = l_responsible l.
Proof.
  unfold course_info.
  intros (? & _ & E)%res_bind_inr. apply res_bind_inr in E as (? & _ & E).
  apply res_bind_inr in E as (? & _ & E). apply res_bind_inr in E as (? & _ & E).
  apply res_bind_inr in E as (? & _ & E). by inversion E.
Qed.

Lemma course_locals_inv course_data l :
  course_locals course_data = inr l ->
  exists raw_points exams_data prereq_data,
    getitem course_data "Points" = inr (JStr raw_points)
    /\ l_points l = format_points raw_points
    /\ results_of course_data "Exams" = inr exams_data
    /\ course_exams exams_data = inr (l_exams l)
    /\ results_of course_data "SmPrereq" = inr prereq_data
    /\ _extract_prerequisites prereq_data = inr (l_prereq l).
Proof.
  unfold course_locals.
  intros (? & _ & E)%res_bind_inr. apply res_bind_inr in E as (? & _ & E).
  apply res_bind_inr in E as (pj & Hp & E).
  apply res_bind_inr in E as (raw & ->%as_str_inr & E).
  apply res_bind_inr in E as (? & _ & E).
  apply res_bind_inr in E as (pre & (pd & Hpd & Hpre)%res_bind_inr & E).
  apply res_bind_inr in E as (? & _ & E).
  apply res_bind_inr in E as (? & _ & E).
  apply res_bind_inr in E as (? & _ & E).
  apply res_bind_inr in E as (ex & (ed & Hed & Hex)%res_bind_inr & E).
  inversion E; subst; simpl.
  by exists raw, ed, pd.
Qed.

End Course.
End CourseFacts.

Module PointsSpec.
Import PyStr Py Fetcher PyFacts CourseFacts.

(** C3. The normalization of [points] in [get_course_data] turns 3.00 into 3,
    3.50 into 3.5 and 0.00 into 0; the [points] of every record that
    [get_course_data] returns is the upstream [Points] text normalized so. *)
Theorem points_normalization `{PyLib} :
  format_points "3.00" = "3"
  /\ format_points "3.50" = "3.5"
  /\ format_points "0.00" = "0"
  /\ forall f year semester cn w w' c,
       get_course_data f year semester cn w = (w', inr c) ->
       exists course_data raw_points,
         getitem course_data "Points" = inr (JStr raw_points)
         /\ points c = format_points raw_points.
Proof.
  split; [by vm_compute|]. split; [by vm_compute|]. split; [by vm_compute|].
  intros f year semester cn w w' c
    (w1 & raw_data & results & course_data & locals & sched
       & _ & _ & _ & _ & Hloc & _ & Hinfo)%get_course_data_inv.
  apply course_info_inv in Hinfo as (_ & Hp & _).
  apply course_locals_inv in Hloc as (raw & _ & _ & Hraw & Hfmt & _).
  exists course_data, raw. by rewrite Hp, Hfmt.
Qed.

End PointsSpec.

(** ** The parser of schedule texts *)

Module ScheduleTextSpec.
Import PyStr Re Py Fetcher PyStrFacts ReFacts.











End ScheduleTextSpec.

(** ** The request layer and its cache *)

Module RequestFacts.
Import PyStr Py Fetcher PyFacts.

Section Request.
Context `{PyLib}.

(** A live fetch posts one request, whatever comes of it. *)
Lemma fetch_live_posted f q a w :
  posted (fetch_live f q a w).1 = q :: posted w.
Proof.
  unfold fetch_live.
  destruct (server w _ q) as [e|status text]; [done|].
  destruct (negb (status =? 202)); [done|].
  destruct (split _ _) as [|? [|? [|chunk [|? ?]]]]; try done.
  destruct (json_loads _) as [e|result]; [done|].
  destruct (negb a && is_empty_results result); [done|].
  by destruct (cache_dir f).
Qed.

(** A live fetch that returns has stored its result when a cache directory
    is configured, and has left the files alone otherwise. *)
Lemma fetch_live_inr f q a w w1 r :
  fetch_live f q a w = (w1, inr r) ->
  posted w1 = q :: posted w
  /\ cache_files w1
     = match cache_dir f with
       | Some dir => <[_get_cache_file dir q := r]> (cache_files w)
       | None => cache_files w
       end.
Proof.
  unfold fetch_live.
  destruct (server w _ q) as [e|status text]; [done|].
  destruct (negb (status =? 202)); [done|].
  destruct (split _ _) as [|? [|? [|chunk [|? ?]]]]; try done.
  destruct (json_loads _) as [e|result]; [done|].
  destruct (negb a && is_empty_results result); [done|].
  destruct (cache_dir f); intros [= <- <-]; done.
Qed.

Lemma send_request_hit f dir q a w stored :
  cache_dir f = Some dir ->
  cache_files w !! _get_cache_file dir q = Some stored ->
  _send_request f q a w = (w, inr stored).
Proof. intros Hd Hc. unfold _send_request. by rewrite Hd, Hc. Qed.

Lemma send_request_miss f dir q a w :
  cache_dir f = Some dir ->
  cache_files w !! _get_cache_file dir q = None ->
  _send_request f q a w = fetch_live f q a w.
Proof. intros Hd Hc. unfold _send_request. by rewrite Hd, Hc. Qed.


(** Whatever [_send_request] does, the server stays what it is. *)
Lemma send_request_posted_suffix f q a w :
  posted (_send_request f q a w).1 = posted w
  \/ posted (_send_request f q a w).1 = q :: posted w.
Proof.
  unfold _send_request.
  destruct (cache_dir f) as [dir|]; [|right; apply fetch_live_posted].
  destruct (cache_files w !! _) as [stored|]; [by left|].
  right; apply fetch_live_posted.
Qed.

End Request.
End RequestFacts.

Module CacheSpec.
Import PyStr Py Fetcher PyFacts RequestFacts.

(** The requests posted by a computation that takes [w] to [w']. *)
Definition requests_between (w w' : World) : nat :=
  (length (posted w') - length (posted w))%nat.


#[local] Existing Instance Demo.lib.

(** A fetcher with a cache directory, and a server that answers every
    request with the building payload. *)
Definition cached_fetcher : TechnionCourseFetcher := mkFetcher (Some ".cache") false.




Example failed_call_is_repeated :
  let w := Demo.world (fun _ _ => PostReturns 500 "") in
  let first := _send_request cached_fetcher "q" false w in
  let second := _send_request cached_fetcher "q" false first.1 in
  first.2 = inl (RuntimeError "Bad status code")
  /\ requests_between w second.1 = 2%nat.
Proof. vm_compute. done. Qed.

End CacheSpec.

(** ** Building names *)

Module BuildingSpec.
Import PyStr Re Py Fetcher PyStrFacts ReFacts PyFacts RequestFacts.

(** Runs of whitespace collapsed to single spaces: a whitespace character
    becomes one space when it opens a run and nothing inside a run. *)
Fixpoint collapse_go (in_run : bool) (l : list ascii) : list ascii :=
  match l with
  | [] => []
  | c :: l' =>
      if is_space c
      then if in_run then collapse_go true l' else " "%char :: collapse_go true l'
      else c :: collapse_go false l'
  end.

Definition collapse_whitespace (s : string) : string :=
  str (collapse_go false (chars s)).

(** The rewrite of the first entry of the table whose key is a prefix. *)
Definition first_rewrite (mapping : list (string * string)) (building : string)
    : string :=
  match list_find (fun kv => startswith kv.1 building = true) mapping with
  | Some (_, (old, new)) => new ++ slice_from (String.length old) building
  | None => building
  end.

Lemma apply_mapping_first mapping building :
  apply_mapping mapping building = first_rewrite mapping building.
Proof.
  unfold first_rewrite.
  induction mapping as [|[old new] mapping IH]; simpl; [done|].
  destruct (decide (startswith old building = true)) as [Hd|Hd]; simpl.
  - by rewrite Hd.
  - apply not_true_is_false in Hd. rewrite Hd, IH.
    by destruct (list_find _ mapping) as [[i [o n]]|].
Qed.

Lemma skip_run_length c pv s : (length (skip_run c pv s).2 <= length s)%nat.
Proof.
  revert pv. induction s as [|x s IH]; intros pv; simpl; [done|].
  destruct (c x); simpl; [|done]. specialize (IH (Some x)). lia.
Qed.

Lemma collapse_go_skip pv s :
  collapse_go true s = collapse_go false (skip_run is_space pv s).2.
Proof.
  revert pv. induction s as [|x s IH]; intros pv; simpl; [done|].
  destruct (is_space x) eqn:E; simpl; [apply IH | by rewrite E].
Qed.

Lemma match_at_plus_class c pv x s :
  c x = true ->
  match_at (Plus (Chr c)) (Pos pv (x :: s) [])
  = Some (Mtch (consumed (x :: s) (skip_run c (Some x) s).2)
               (Pos (skip_run c (Some x) s).1 (skip_run c (Some x) s).2 [])).
Proof.
  intros Hc. unfold match_at, Plus. simpl. rewrite Hc.
  by apply star_class_greedy.
Qed.

Lemma match_at_plus_class_none c pv s :
  match s with x :: _ => c x = false | [] => True end ->
  match_at (Plus (Chr c)) (Pos pv s []) = None.
Proof.
  unfold match_at, Plus. simpl. destruct s as [|x s]; [done|]. by intros ->.
Qed.

(** The substitution of a space for [\s+] collapses the whitespace. *)
Lemma sub_space_collapse fuel : forall pv s,
  (length s < fuel)%nat ->
  sub_go (Plus space) [TLit " "] fuel pv s = collapse_go false s.
Proof.
  induction fuel as [|fuel IH]; intros pv s Hf; [lia|].
  rewrite sub_go_S. unfold space in *. destruct s as [|x s].
  - by rewrite match_at_plus_class_none.
  - simpl in Hf. destruct (is_space x) eqn:E.
    + rewrite match_at_plus_class by done. cbn [m_end rest prev].
      pose proof (skip_run_length is_space (Some x) s) as Hl.
      destruct (_ <? _)%nat eqn:Hlt; [|apply Nat.ltb_ge in Hlt; simpl in Hlt; lia].
      rewrite IH by lia. cbn [collapse_go]. rewrite E.
      by rewrite (collapse_go_skip (Some x)).
    + rewrite match_at_plus_class_none by done.
      cbn [collapse_go]. rewrite E. rewrite IH by lia. done.
Qed.

Lemma re_sub_space_collapse s :
  re_sub (Plus space) [TLit " "] s = collapse_whitespace s.
Proof.
  unfold re_sub, collapse_whitespace. f_equal.
  apply sub_space_collapse. rewrite length_chars. lia.
Qed.

(** The body of [get_building_name] never raises, and what it returns. *)
Lemma get_building_name_body_result `{PyLib} f year semester room_id w :
  exists w' v,
    get_building_name_body f year semester room_id w = (w', inr v)
    /\ (room_id = "" -> v = "")
    /\ (room_id ≠ "" ->
        match _send_request f (building_query year semester room_id) false w with
        | (_, inl _) => v = ""
        | (_, inr raw_data) =>
            match d_field raw_data "Building" with
            | inr (JStr building) =>
                v = if String.eqb building "" then ""
                    else first_rewrite building_mapping
                           (collapse_whitespace (strip building))
            | _ => v = ""
            end
        end).
Proof.
  unfold get_building_name_body.
  destruct (String.eqb_spec room_id "") as [->|Hne].
  { eexists _, _. split; [done|]. split; done. }
  unfold mbind at 1, M_bind, try_except.
  unfold mbind at 1, M_bind.
  destruct (_send_request f _ false w) as [w1 [e|raw_data]];
    cbn -[apply_mapping re_sub strip d_field].
  { eexists _, _. split; [done|]. split; done. }
  unfold mbind at 1, M_bind, lift.
  destruct (d_field raw_data "Building") as [e|building];
    cbn -[apply_mapping re_sub strip].
  { eexists _, _. split; [done|]. split; done. }
  destruct building as [|b|z|building|l|kvs]; cbn -[apply_mapping re_sub strip];
    try (eexists _, _; split; [done|]; split; done).
  - destruct b; cbn; eexists _, _; (split; [done|]; split; done).
  - destruct (z =? 0); cbn; eexists _, _; (split; [done|]; split; done).
  - destruct (String.eqb building ""); cbn -[apply_mapping re_sub strip].
    { eexists _, _. split; [done|]. split; done. }
    eexists _, _. split; [done|]. split; [done|]. intros _.
    by rewrite apply_mapping_first, re_sub_space_collapse.
  - destruct l; cbn; eexists _, _; (split; [done|]; split; done).
  - destruct kvs; cbn; eexists _, _; (split; [done|]; split; done).
Qed.


#[local] Existing Instance Demo.lib.


(** The same request failing, and one answering with no building. *)
Example get_building_name_failing :
  (get_building_name (mkFetcher None false) 2024 200 "R1"
     (Demo.world (fun _ _ => PostReturns 500 ""))).2 = inr ""
  /\ (get_building_name (mkFetcher None false) 2024 200 "R1"
        (Demo.world (fun _ _ => PostRaises (OtherError "ConnectionError")))).2
     = inr ""
  /\ (get_building_name (mkFetcher None false) 2024 200 "R1"
        (Demo.world (fun _ _ => PostReturns 202 (Demo.batch_response "none")))).2
     = inr "".
Proof. vm_compute. done. Qed.

End BuildingSpec.

(** ** The loop over the courses of a semester *)

Module FetchLoopSpec.
Import PyStr Py Fetcher PyFacts.

Section Loop.
Context `{PyLib}.
Variables (f : TechnionCourseFetcher) (year semester : Z).

(** The attempts that a run over the identifiers consists of: one call of
    [get_course_data] for each identifier, in order, each in the world that
    the one before it left, whatever the one before it came to. *)
Fixpoint attempts (ids : list json) (w : World) : list (json * res CourseInfo) :=
  match ids with
  | [] => []
  | id :: ids' =>
      let r := get_course_data f year semester id w in
      (id, r.2) :: attempts ids' r.1
  end.

Fixpoint world_after (ids : list json) (w : World) : World :=
  match ids with
  | [] => w
  | id :: ids' => world_after ids' (get_course_data f year semester id w).1
  end.

(** The records of the attempts that returned, and the identifiers of those
    that raised, both in the order of the attempts. *)
Definition built (tries : list (json * res CourseInfo)) : list CourseInfo :=
  omap (fun t => match t.2 with inr c => Some c | inl _ => None end) tries.

Definition failures (tries : list (json * res CourseInfo)) : list json :=
  omap (fun t => match t.2 with inl _ => Some t.1 | inr _ => None end) tries.

Lemma attempts_ids ids w : (attempts ids w).*1 = ids.
Proof.
  revert w. induction ids as [|id ids IH]; intros w; csimpl; [done|].
  by rewrite IH.
Qed.

Lemma built_inr id c tries : built ((id, inr c) :: tries) = c :: built tries.
Proof. reflexivity. Qed.
Lemma built_inl id e tries : built ((id, inl e) :: tries) = built tries.
Proof. reflexivity. Qed.
Lemma failures_inr id c tries : failures ((id, inr c) :: tries) = failures tries.
Proof. reflexivity. Qed.
Lemma failures_inl id e tries :
  failures ((id, inl e) :: tries) = id :: failures tries.
Proof. reflexivity. Qed.

(** The loop makes exactly these attempts and files each outcome. *)
Lemma for_fetch_course ids : forall w courses failed,
  for_M ids (fetch_course f year semester) (courses, failed) w
  = (world_after ids w,
     inr ((courses ++ built (attempts ids w))%list,
          (failed ++ failures (attempts ids w))%list)).
Proof.
  induction ids as [|id ids IH]; intros w courses failed.
  - simpl. by rewrite !app_nil_r.
  - cbn [for_M attempts world_after].
    unfold mbind at 1, M_bind. unfold fetch_course at 1, try_except.
    unfold mbind at 1, M_bind.
    destruct (get_course_data f year semester id w) as [w1 [e|c]];
      cbn [any_exception mret M_ret fst snd]; rewrite IH.
    + by rewrite built_inl, failures_inl, <- !app_assoc.
    + by rewrite built_inr, failures_inr, <- !app_assoc.
Qed.

Lemma fetch_loop_attempts ids w :
  fetch_loop f year semester ids w
  = (world_after ids w, inr (built (attempts ids w), failures (attempts ids w))).
Proof. unfold fetch_loop. by rewrite for_fetch_course. Qed.

Lemma all_built (tries : list (json * res CourseInfo)) :
  (forall j id r, tries !! j = Some (id, r) -> exists c, r = inr c) ->
  failures tries = [] /\ length (built tries) = length tries.
Proof.
  induction tries as [|[id r] tries IH]; intros Hall; [done|].
  destruct (Hall O id r eq_refl) as [c ->].
  destruct IH as [IH1 IH2]; [intros j; apply (Hall (S j))|].
  rewrite failures_inr, built_inr. cbn [length]. by rewrite IH1, IH2.
Qed.

Lemma one_failure (tries : list (json * res CourseInfo)) : forall k id_k e,
  tries !! k = Some (id_k, inl e) ->
  (forall j id r, j ≠ k -> tries !! j = Some (id, r) -> exists c, r = inr c) ->
  failures tries = [id_k] /\ length (built tries) = (length tries - 1)%nat.
Proof.
  induction tries as [|[id r] tries IH]; intros k id_k e Hk Hothers; [done|].
  destruct k as [|k].
  - injection Hk as -> ->.
    destruct (all_built tries) as [E1 E2].
    { intros j id r. apply (Hothers (S j)). done. }
    rewrite failures_inl, built_inl. cbn [length].
    rewrite E1, E2. split; [done | lia].
  - destruct (Hothers O id r) as [c ->]; [done | done |].
    destruct (IH k id_k e Hk) as [E1 E2].
    { intros j id' r' Hj. apply (Hothers (S j)). lia. }
    rewrite failures_inr, built_inr. cbn [length].
    rewrite E1, E2. split; [done|].
    apply lookup_lt_Some in Hk. cbn [length] in Hk. unfold res in *. lia.
Qed.

Lemma built_elem (tries : list (json * res CourseInfo)) j id c :
  tries !! j = Some (id, inr c) -> c ∈ built tries.
Proof.
  intros Hj. apply list_elem_of_omap. exists (id, inr c).
  split; [|done]. apply list_elem_of_lookup. by exists j.
Qed.

(** The writers of the model do not raise. *)
Lemma write_batches_returns doc courses w :
  exists w', write_batches doc courses w = (w', inr tt).
Proof.
  unfold write_batches.
  assert (Hloop : forall cs st w, exists w' st',
            for_M cs (batch_step doc) st w = (w', inr st')).
  { induction cs as [|c cs IH]; intros [i b] w0; [by eexists _, _|].
    cbn [for_M]. unfold mbind at 1, M_bind. unfold batch_step at 1.
    destruct ((i + 1) mod 500 =? 0)%nat; cbn; apply IH. }
  destruct (Hloop courses (O, []) w) as (w1 & [i b] & E).
  unfold mbind, M_bind. rewrite E.
  destruct (negb _); by eexists.
Qed.

End Loop.

(** C1. When the list of the identifiers of a term was fetched and, of the
    calls of [get_course_data] that the loop makes for them, the k-th raises
    and the others return: [fetch_semester_courses] returns the records of
    the others in the order of the identifiers, one less than there are
    identifiers; the loop has filed the k-th identifier as its only failure;
    and it has made an attempt for every identifier, the ones after the k-th
    included, so that the record of each attempt that returned is in the
    result. *)
Theorem failure_isolation `{PyLib} (f : TechnionCourseFetcher)
    (year semester : Z) (output_dir : option string) (to_firestore : bool)
    (w w0 : World) (ids : list json) (k : nat) (id_k : json) (e : exn) :
  get_course_numbers f year semester w = (w0, inr ids) ->
  let tries := attempts f year semester ids w0 in
  tries !! k = Some (id_k, inl e) ->
  (forall j id r, j ≠ k -> tries !! j = Some (id, r) -> exists c, r = inr c) ->
  exists w' courses,
    fetch_semester_courses f year semester output_dir to_firestore w
      = (w', inr courses)
    /\ (fetch_loop f year semester ids w0).2 = inr (courses, [id_k])
    /\ courses = built tries
    /\ length courses = (length ids - 1)%nat
    /\ tries.*1 = ids
    /\ (forall j id c, tries !! j = Some (id, inr c) -> c ∈ courses).
Proof.
  intros Hnums tries Hk Hothers.
  destruct (one_failure tries k id_k e Hk Hothers) as [Hfail Hlen].
  assert (Hloop : fetch_loop f year semester ids w0
                  = (world_after f year semester ids w0,
                     inr (built tries, [id_k]))).
  { rewrite fetch_loop_attempts. by fold tries; rewrite Hfail. }
  assert (Hids : tries.*1 = ids) by apply attempts_ids.
  assert (Hsaves : forall w1, exists w2,
    ((_ ← match output_dir with
          | Some dir =>
              save_to_json (built tries)
                (path_join dir (collection_name year semester ++ ".json"))
          | None => mret tt
          end;
      _ ← (if to_firestore
           then save_to_firestore f (built tries) year semester else mret tt);
      mret (built tries)) : M (list CourseInfo)) w1 = (w2, inr (built tries))).
  { intros w1. unfold mbind, M_bind.
    destruct output_dir as [dir|]; cbn [save_to_json modify mret M_ret];
      (destruct to_firestore; [|by eexists]);
      unfold save_to_firestore; (destruct (negb (db f)); [by eexists|]).
    - destruct (write_batches_returns
                  (fun course =>
                     ([collection_name year semester; course_number course],
                      firestore_doc course year semester))
                  (built tries)
                  (set_json_files
                     <[path_join dir (collection_name year semester ++ ".json")
                       := JArr (course_dict <$> built tries)]>
                     w1)) as [w2 ->].
      by eexists.
    - destruct (write_batches_returns
                  (fun course =>
                     ([collection_name year semester; course_number course],
                      firestore_doc course year semester))
                  (built tries) w1) as [w2 ->].
      by eexists. }
  destruct (Hsaves (world_after f year semester ids w0)) as [w2 Hw2].
  exists w2, (built tries).
  split.
  { unfold fetch_semester_courses.
    unfold mbind at 1, M_bind. rewrite Hnums.
    unfold mbind at 1, M_bind. rewrite Hloop. exact Hw2. }
  split; [by rewrite Hloop|].
  split; [done|].
  split; [by rewrite Hlen; unfold tries; rewrite <- (attempts_ids f year semester ids w0) at 2; rewrite length_fmap|].
  split; [done|].
  intros j id c Hj. by eapply built_elem.
Qed.

#[local] Existing Instance Demo.lib.

(** A term of three courses of which the second has two upstream records:
    the first and the third are returned. *)
Lemma failure_isolation_witness :
  exists w' courses,
    fetch_semester_courses (mkFetcher None false) 2024 200 None false
      (Demo.world (Demo.semester_server 500)) = (w', inr courses)
    /\ course_number <$> courses = ["1"; "3"].
Proof.
  set (f := mkFetcher None false).
  set (w := Demo.world (Demo.semester_server 500)).
  assert (Hnums : get_course_numbers f 2024 200 w
                  = ((get_course_numbers f 2024 200 w).1,
                     inr [JStr "SM1"; JStr "SM2"; JStr "SM3"]))
    by (vm_compute; reflexivity).
  destruct (failure_isolation f 2024 200 None false w _ _ 1 (JStr "SM2")
              (RuntimeError "Expected 1 result") Hnums)
    as (w' & courses & E & _ & Hc & _).
  - vm_compute. reflexivity.
  - intros j id r Hj Hl.
    destruct j as [|[|[|j]]]; [| done | |];
      vm_compute in Hl; try discriminate Hl;
      injection Hl as _ <-; by eexists.
  - exists w', courses. split; [exact E|].
    rewrite Hc. vm_compute. reflexivity.
Defined.

End FetchLoopSpec.

(** ** The schedule of a course when its query fails *)

Module ScheduleFailureSpec.
Import PyStr Py Fetcher SmartFetcher PyFacts CourseFacts.

Section Failure.
Context `{PyLib}.

Lemma get_course_schedule_raised f year semester cn w w1 msg :
  _send_request f (schedule_query year semester cn) true w
    = (w1, inl (RuntimeError msg)) ->
  get_course_schedule f year semester cn w = (w1, inr []).
Proof.
  intros E. unfold get_course_schedule.
  unfold mbind at 1, M_bind, try_except.
  unfold mbind at 1, M_bind. by rewrite E.
Qed.

Lemma get_course_schedule_empty f year semester cn w w1 raw_data results :
  _send_request f (schedule_query year semester cn) true w = (w1, inr raw_data) ->
  d_field raw_data "results" = inr results ->
  truthy results = false ->
  get_course_schedule f year semester cn w = (w1, inr []).
Proof.
  intros E Hr Ht. unfold get_course_schedule.
  unfold mbind at 1, M_bind, try_except.
  unfold mbind at 1, M_bind. rewrite E. cbn [mret M_ret].
  unfold mbind at 1, M_bind, lift. by rewrite Hr, Ht.
Qed.

(** The query of the schedule comes to nothing: it raises a [RuntimeError],
    or it returns an empty result set. *)
Definition schedule_query_fails (f : TechnionCourseFetcher) (year semester : Z)
    (cn : string) (w w1 : World) : Prop :=
  (exists msg,
     _send_request f (schedule_query year semester cn) true w
       = (w1, inl (RuntimeError msg)))
  \/ (exists raw_data results,
        _send_request f (schedule_query year semester cn) true w
          = (w1, inr raw_data)
        /\ d_field raw_data "results" = inr results
        /\ truthy results = false).

End Failure.

(** C10. When the query of the schedule raises a [RuntimeError] or returns
    an empty result set, [get_course_schedule] returns the empty list.
    [get_course_data] then goes on to build the record from the fields of the
    course with that empty schedule: it returns what the constructor makes
    of them, a record with an empty schedule, for which the writer takes the
    schedule of the snapshot when the snapshot has the course. *)
Theorem schedule_failure_gives_empty `{PyLib} (f : TechnionCourseFetcher)
    (year semester : Z) (cn : json) (w0 w w1 : World)
    (raw_data results course_data : json) (locals : CourseLocals) :
  schedule_query_fails f year semester (clean_course_number locals) w w1 ->
  get_course_schedule f year semester (clean_course_number locals) w
    = (w1, inr [])
  /\ (_send_request f (course_query year semester cn) false w0
        = (w, inr raw_data) ->
      d_field raw_data "results" = inr results ->
      py_len results = inr 1%nat ->
      index0 results = inr course_data ->
      course_locals course_data = inr locals ->
      get_course_data f year semester cn w0
        = (w1, course_info course_data locals [])
      /\ forall c, course_info course_data locals [] = inr c ->
           schedule c = []
           /\ forall existing_schedules existing,
                existing_schedules !! course_number c = Some existing ->
                stored_schedule existing_schedules c = existing).
Proof.
  intros Hfail.
  assert (Hs : get_course_schedule f year semester (clean_course_number locals) w
               = (w1, inr [])).
  { destruct Hfail as [[msg E]|(rd & rs & E & Hr & Ht)].
    - by eapply get_course_schedule_raised.
    - by eapply get_course_schedule_empty. }
  split; [exact Hs|].
  intros Hreq Hres Hlen Hidx Hloc. split.
  - unfold get_course_data.
    unfold mbind at 1, M_bind. rewrite Hreq.
    unfold mbind at 1, M_bind, lift at 1. rewrite Hres.
    unfold mbind at 1, M_bind, lift at 1. rewrite Hlen. cbn [Nat.eqb negb].
    unfold mbind at 1, M_bind, lift at 1. rewrite Hidx.
    unfold mbind at 1, M_bind, lift at 1. rewrite Hloc.
    unfold mbind at 1, M_bind. rewrite Hs. reflexivity.
  - intros c (_ & _ & _ & Hsched & _)%course_info_inv.
    split; [done|].
    intros existing_schedules existing Hex.
    unfold stored_schedule. by rewrite Hsched, Hex.
Qed.

#[local] Existing Instance Demo.lib.

(** A course whose schedule query is answered with status 500. *)
Lemma schedule_failure_gives_empty_witness :
  exists w1 c,
    get_course_data (mkFetcher None false) 2024 200 (JStr "SM1")
      (Demo.world (Demo.semester_server 500)) = (w1, inr c)
    /\ schedule c = [] /\ course_number c = "1".
Proof.
  set (f := mkFetcher None false).
  set (w0 := Demo.world (Demo.semester_server 500)).
  set (q := course_query 2024 200 (JStr "SM1")).
  set (w := (_send_request f q false w0).1).
  set (course_data := Demo.course_record "SM1").
  assert (Hloc : exists locals, course_locals course_data = inr locals
                                /\ clean_course_number locals = "1").
  { eexists. split; vm_compute; reflexivity. }
  destruct Hloc as (locals & Hloc & Hcn).
  set (w1 := (_send_request f (schedule_query 2024 200 "1") true w).1).
  destruct (schedule_failure_gives_empty f 2024 200 (JStr "SM1") w0 w w1
              (Demo.results [course_data]) (JArr [course_data]) course_data
              locals) as [_ Hdata].
  { left. exists "Bad status code". rewrite Hcn. vm_compute. reflexivity. }
  destruct Hdata as [E Hc];
    [vm_compute; reflexivity | reflexivity | reflexivity | reflexivity
    | exact Hloc |].
  assert (Hinfo : exists c, course_info course_data locals [] = inr c
                            /\ course_number c = "1").
  { unfold course_info. rewrite Hcn. cbn. eexists. split; reflexivity. }
  destruct Hinfo as (c & Hinfo & Hnum).
  exists w1, c. rewrite E, Hinfo.
  split; [done|]. split; [|done]. by apply Hc.
Defined.

End ScheduleFailureSpec.

(** ** Writing the courses, with the schedules of the snapshot *)

Module WriterFacts.
Import PyStr Py Fetcher PyFacts.

Lemma apply_batch_app (b1 b2 : batch) docs :
  apply_batch (b1 ++ b2)%list docs = apply_batch b2 (apply_batch b1 docs).
Proof. apply fold_left_app. Qed.

Lemma apply_batch_notin (b : batch) docs path :
  path ∉ b.*1 -> apply_batch b docs !! path = docs !! path.
Proof.
  revert docs. induction b as [|[p d] b IH]; intros docs Hn; [done|].
  csimpl in Hn. apply not_elem_of_cons in Hn as [Hne Hn].
  cbn [apply_batch fold_left]. fold (apply_batch b (<[p:=d]> docs)).
  rewrite IH by done. by rewrite lookup_insert_ne.
Qed.

Lemma apply_batch_nodup (b : batch) docs path data :
  NoDup b.*1 -> (path, data) ∈ b -> apply_batch b docs !! path = Some data.
Proof.
  revert docs. induction b as [|[p d] b IH]; intros docs Hnd Hin.
  - by apply elem_of_nil in Hin.
  - csimpl in Hnd. apply NoDup_cons in Hnd as [Hp Hnd].
    cbn [apply_batch fold_left]. fold (apply_batch b (<[p:=d]> docs)).
    apply elem_of_cons in Hin as [[= -> ->]|Hin].
    + rewrite apply_batch_notin by done. apply lookup_insert_eq.
    + by apply IH.
Qed.

(** The loop of the writers, with its pending batch: the batch holds the
    documents set since the last commit, fewer than 500. *)
Lemma for_batch_step doc cs : forall i b w,
  length b = (i mod 500)%nat ->
  exists w' b',
    for_M cs (batch_step doc) (i, b) w = (w', inr ((i + length cs)%nat, b'))
    /\ length b' = ((i + length cs) mod 500)%nat
    /\ apply_batch b' (documents w')
       = apply_batch (b ++ (doc <$> cs))%list (documents w)
    /\ json_files w' = json_files w /\ posted w' = posted w
    /\ cache_files w' = cache_files w.
Proof.
  induction cs as [|c cs IH]; intros i b w Hb.
  - exists w, b. cbn [for_M length fmap list_fmap].
    rewrite Nat.add_0_r, app_nil_r. done.
  - cbn [for_M]. unfold mbind at 1, M_bind. unfold batch_step at 1.
    destruct ((i + 1) mod 500 =? 0)%nat eqn:Hm.
    + apply Nat.eqb_eq in Hm.
      change ((commit (b ++ [doc c])%list ≫= (fun _ => mret (S i, []))) w)
        with (set_documents (apply_batch (b ++ [doc c])%list) w,
              (inr (S i, []) : res (nat * batch))).
      destruct (IH (S i) [] (set_documents (apply_batch (b ++ [doc c])%list) w))
        as (w' & b' & E & Hl & Hd & Hj & Hp & Hc).
      { cbn [length]. replace (S i) with (i + 1)%nat by lia. by rewrite Hm. }
      exists w', b'. rewrite E. cbn [length].
      replace (i + S (length cs))%nat with (S i + length cs)%nat by lia.
      split; [done|]. split; [done|]. split; [|done].
      rewrite Hd. cbn [documents set_documents app].
      rewrite <- apply_batch_app. by rewrite fmap_cons, <- app_assoc.
    + apply Nat.eqb_neq in Hm. cbn [mret M_ret].
      destruct (IH (S i) (b ++ [doc c])%list w)
        as (w' & b' & E & Hl & Hd & Hj & Hp & Hc).
      { rewrite length_app. cbn [length]. rewrite Hb.
        replace (S i) with (i + 1)%nat by lia.
        assert (Hu : (i mod 500 < 500)%nat) by (apply Nat.mod_upper_bound; lia).
        rewrite (Nat.Div0.add_mod i 1 500) in Hm |- *.
        rewrite (Nat.mod_small 1 500) in Hm |- * by lia.
        generalize dependent (i mod 500)%nat. intros m Hb Hm Hu.
        destruct (decide (m + 1 = 500)%nat) as [E5|E5].
        - rewrite E5, Nat.Div0.mod_same in Hm. done.
        - rewrite Nat.mod_small by lia. done. }
      exists w', b'. rewrite E. cbn [length].
      replace (i + S (length cs))%nat with (S i + length cs)%nat by lia.
      split; [done|]. split; [done|]. split; [|done].
      rewrite Hd. by rewrite fmap_cons, <- app_assoc.
Qed.

(** The writers set the document of every course. *)
Lemma write_batches_documents doc courses w :
  exists w',
    write_batches doc courses w = (w', inr tt)
    /\ documents w' = apply_batch (doc <$> courses) (documents w)
    /\ json_files w' = json_files w /\ posted w' = posted w
    /\ cache_files w' = cache_files w.
Proof.
  unfold write_batches.
  destruct (for_batch_step doc courses O [] w eq_refl)
    as (w' & b' & E & Hl & Hd & Hj & Hp & Hc).
  unfold mbind, M_bind. rewrite E. cbn [Nat.add] in Hl.
  rewrite app_nil_l in Hd.
  destruct (length courses mod 500 =? 0)%nat eqn:Hm; cbn [negb].
  - apply Nat.eqb_eq in Hm. rewrite Hm in Hl.
    destruct b'; [|done]. exists w'. by rewrite <- Hd.
  - eexists. split; [reflexivity|].
    cbn [documents set_documents json_files posted cache_files].
    by rewrite Hd.
Qed.

End WriterFacts.

Module ReconcileSpec.
Import PyStr Py Fetcher SmartFetcher PyFacts WriterFacts.

Section Reconcile.
Context `{PyLib}.

Lemma as_list_of_dicts_id schedule : as_list_of_dicts schedule = schedule.
Proof.
  unfold as_list_of_dicts. destruct schedule as [|first rest]; [done|].
  destruct (negb (is_dict first)); [|done].
  unfold item_vars. apply list_fmap_id.
Qed.

(** The file that the writer reads the snapshot from, and the snapshot. *)
Definition data_file (year semester : Z) (output_dir : option string) : string :=
  path_join (default "./data" output_dir) (collection_name year semester ++ ".json").

Definition snapshot (year semester : Z) (output_dir : option string) (w : World)
    : gmap string json :=
  load_existing_schedules (json_files w !! data_file year semester output_dir).

(** The path of the document of a course. *)
Definition doc_path (university_id : string) (year semester : Z) (id : string)
    : list string :=
  [university_id; "data"; collection_name year semester; id].


(** What the writer does to the documents. *)
Lemma save_university_documents f courses university_id year semester
    output_dir w sn :
  db f = true ->
  semester_name_of semester = inr sn ->
  exists w',
    save_to_firestore_university_structure f courses university_id year
      semester output_dir w = (w', inr tt)
    /\ exists meta,
         documents w'
         = apply_batch
             ((fun course =>
                 (doc_path university_id year semester (course_number course),
                  course_data (snapshot year semester output_dir w)
                    university_id year semester sn course)) <$> courses)
             (<[[university_id; "metadata"] := meta]> (documents w)).
Proof.
  intros Hdb Hsn. unfold save_to_firestore_university_structure.
  rewrite Hdb. cbn [negb].
  unfold mbind at 1, M_bind.
  unfold mbind at 1, M_bind, lift at 1. rewrite Hsn.
  unfold mbind at 1, M_bind, set_merge, modify.
  match goal with
  | |- context [write_batches ?d ?c ?w0] =>
      destruct (write_batches_documents d c w0) as (w' & E & Hd & _)
  end.
  exists w'. split; [exact E|].
  eexists. rewrite Hd. reflexivity.
Qed.

End Reconcile.


#[local] Existing Instance Demo.lib.



End ReconcileSpec.

(** ** The exams of a course *)

Module ExamsSpec.
Import PyStr Re Py Fetcher PyFacts CourseFacts.

(** The four labels of the exams. *)
Definition exam_labels : list string :=
  ["מועד א"; "מועד ב"; "בוחן מועד א"; "בוחן מועד ב"].

(** The time that a raw value spells in the form PT..H..M..S, if it does. *)
Definition parsed_time (raw : json) : option string :=
  match raw with
  | JStr s => hh_mm <$> re_match pt_re s
  | _ => None
  end.

(** The suffix for the two parsed times: both present, and not both
    midnight. *)
Definition time_suffix (time_begin time_end : option string) : string :=
  match time_begin, time_end with
  | Some b, Some e =>
      if String.eqb b "00:00" && String.eqb e "00:00" then ""
      else " " ++ b ++ " - " ++ e
  | _, _ => ""
  end.

(** An entry of the mapping and the exam it was made from: the exam has one
    of the four category codes and a date that is not empty, and the entry
    is the label of the code with the formatted date and the suffix of the
    times. *)
Definition made_from (label value : string) (exam : json) : Prop :=
  exists code date_raw days time_begin_raw time_end_raw,
    dict_get exam "CategoryCode" JNull = inr (JStr code)
    /\ dict_lookup code exam_mapping = Some label
    /\ dict_get exam "ExamDate" JNull = inr (JStr date_raw)
    /\ date_raw ≠ ""
    /\ _parse_sap_date date_raw = inr days
    /\ dict_get exam "ExamBegTime" (JStr "") = inr time_begin_raw
    /\ dict_get exam "ExamEndTime" (JStr "") = inr time_end_raw
    /\ value = strftime_dmY days
                 ++ time_suffix (parsed_time time_begin_raw)
                      (parsed_time time_end_raw).

Lemma dict_lookup_set {V} k k' (v : V) d :
  dict_lookup k (dict_set k' v d)
  = if String.eqb k' k then Some v else dict_lookup k d.
Proof.
  induction d as [|[k0 v0] d IH]; simpl.
  - done.
  - destruct (String.eqb_spec k0 k') as [->|Hne]; simpl.
    + by destruct (String.eqb k' k).
    + rewrite IH. destruct (String.eqb_spec k0 k) as [->|Hne'];
        destruct (String.eqb_spec k' k) as [->|Hne'']; done.
Qed.

Lemma truthy_str_false s : truthy (JStr s) = false -> s = "".
Proof. simpl. by destruct (String.eqb_spec s ""). Qed.

Lemma parsed_time_falsy j : truthy j = false -> parsed_time j = None.
Proof.
  destruct j as [| | |s| |]; try done.
  intros ->%truthy_str_false. by vm_compute.
Qed.

(** The suffix that the code computes is the suffix of the parsed times. *)
Lemma exam_time_str_suffix b e s :
  exam_time_str b e = inr s -> s = time_suffix (parsed_time b) (parsed_time e).
Proof.
  unfold exam_time_str.
  destruct (truthy b) eqn:Hb; cbn [andb].
  - destruct (truthy e) eqn:He.
    + intros (bs & ->%as_str_inr & E)%res_bind_inr.
      apply res_bind_inr in E as (es & ->%as_str_inr & E).
      cbn [parsed_time].
      destruct (re_match pt_re bs) as [bm|], (re_match pt_re es) as [em|];
        cbn [fmap option_fmap option_map time_suffix]; try by injection E as <-.
      destruct (String.eqb (hh_mm bm) "00:00"), (String.eqb (hh_mm em) "00:00");
        cbn [negb orb andb] in *; by injection E as <-.
    + intros [= <-]. rewrite (parsed_time_falsy e He).
      by destruct (parsed_time b).
  - intros [= <-]. by rewrite (parsed_time_falsy b Hb).
Qed.


Lemma exam_label_in code label :
  dict_lookup code exam_mapping = Some label -> label ∈ exam_labels.
Proof.
  unfold exam_mapping, exam_labels. cbn [dict_lookup].
  repeat (destruct (String.eqb _ code); [intros [= <-]; set_solver|]).
  done.
Qed.

(** One turn of the loop leaves the mapping as it is, or sets one entry
    made from the exam. *)
Lemma exam_item_inv exam exams exams' :
  exam_item exam exams = inr exams' ->
  exams' = exams
  \/ exists label value,
       made_from label value exam /\ exams' = dict_set label value exams.
Proof.
  unfold exam_item.
  intros (category & Hcat & E)%res_bind_inr.
  apply res_bind_inr in E as ([label|] & Hlabel & E); [|left; by inversion E].
  apply res_bind_inr in E as (date_raw & Hdate & E).
  destruct (truthy date_raw) eqn:Ht; simpl in E; [|left; by inversion E].
  apply res_bind_inr in E as (ds & ->%as_str_inr & E).
  apply res_bind_inr in E as (days & Hdays & E).
  apply res_bind_inr in E as (b & Hb & E).
  apply res_bind_inr in E as (e & He & E).
  apply res_bind_inr in E as (suffix & Hs%exam_time_str_suffix & E).
  inversion E; subst. right. eexists _, _. split; [|done].
  destruct category as [| | |code| |]; try done.
  simpl in Hlabel. injection Hlabel as Hlabel.
  exists code, ds, days, b, e. repeat split; try done.
  intros ->. done.
Qed.



#[local] Existing Instance Demo.lib.



End ExamsSpec.

(** ** Prerequisites *)

Module PrereqSpec.
Import PyStr Re Py Fetcher PyStrFacts ReFacts PyFacts CourseFacts.































Example conjunction_loses_parentheses :
  _extract_prerequisites
    (JArr [JObj [("Bracket", JStr "("); ("ModuleId", JStr "00440105");
                 ("Operator", JStr "AND")];
           JObj [("Bracket", JStr ""); ("ModuleId", JStr "00440140");
                 ("Operator", JStr "")];
           JObj [("Bracket", JStr ")"); ("ModuleId", JStr "00000000");
                 ("Operator", JStr "")]])
  = inr "00440105 ו-00440140".
Proof. vm_compute. reflexivity. Qed.

(** Where the clean-up finds nothing to remove, the brackets stay. *)
Example nested_keeps_parentheses :
  _extract_prerequisites
    (JArr [JObj [("Bracket", JStr "("); ("ModuleId", JStr "00440105");
                 ("Operator", JStr "AND")];
           JObj [("Bracket", JStr ""); ("ModuleId", JStr "00440140");
                 ("Operator", JStr "")];
           JObj [("Bracket", JStr ")"); ("ModuleId", JStr "00000000");
                 ("Operator", JStr "OR")];
           JObj [("Bracket", JStr ""); ("ModuleId", JStr "00440148");
                 ("Operator", JStr "")]])
  = inr "(00440105 ו-00440140) או 00440148".
Proof. vm_compute. reflexivity. Qed.

End PrereqSpec.

(** * Further properties of the code *)

(** ** The request layer *)

Module RequestSpec.
Import PyStr Py Fetcher SmartFetcher PyFacts RequestFacts.

(** The override of [_send_request] in [NoCacheTechnionCourseFetcher] does
    what the base method does for a fetcher without a cache directory, and
    leaves the files of the cache alone. *)
Theorem no_cache_override `{PyLib} (has_db : bool) (q : string) (a : bool)
    (w : World) :
  NoCache_send_request q a w
    = _send_request (NoCacheTechnionCourseFetcher has_db) q a w
  /\ cache_files (NoCache_send_request q a w).1 = cache_files w.
Proof.
  unfold _send_request, NoCacheTechnionCourseFetcher, fetch_live,
    NoCache_send_request. cbn [cache_dir].
  destruct (server w _ q) as [e|status text]; [done|].
  destruct (negb (status =? 202)); [done|].
  destruct (split _ _) as [|? [|? [|chunk [|? ?]]]]; try done.
  destruct (json_loads _) as [e|result]; [done|].
  by destruct (negb a && is_empty_results result).
Qed.

(** [_send_request] only adds to the cache: every file keeps its content, a
    call that raises writes nothing, and no call touches the memo table, the
    course files or the documents. *)
Theorem send_request_keeps_cache `{PyLib} (f : TechnionCourseFetcher)
    (q : string) (a : bool) (w : World) :
  let w' := (_send_request f q a w).1 in
  cache_files w ⊆ cache_files w'
  /\ (forall e, (_send_request f q a w).2 = inl e -> cache_files w' = cache_files w)
  /\ building_memo w' = building_memo w
  /\ json_files w' = json_files w
  /\ documents w' = documents w.
Proof.
  unfold _send_request.
  assert (Hlive : forall miss : match cache_dir f with
                                | Some dir => cache_files w !! _get_cache_file dir q = None
                                | None => True
                                end,
    let w' := (fetch_live f q a w).1 in
    cache_files w ⊆ cache_files w'
    /\ (forall e, (fetch_live f q a w).2 = inl e -> cache_files w' = cache_files w)
    /\ building_memo w' = building_memo w
    /\ json_files w' = json_files w
    /\ documents w' = documents w).
  { intros miss. unfold fetch_live.
    destruct (server w _ q) as [e|status text]; [done|].
    destruct (negb (status =? 202)); [done|].
    destruct (split _ _) as [|? [|? [|chunk [|? ?]]]]; try done.
    destruct (json_loads _) as [e|result]; [done|].
    destruct (negb a && is_empty_results result); [done|].
    destruct (cache_dir f) as [dir|]; [|done].
    cbn. split; [by apply insert_subseteq|]. done. }
  destruct (cache_dir f) as [dir|]; [|by apply Hlive].
  destruct (cache_files w !! _get_cache_file dir q) eqn:E; [done|].
  by apply Hlive.
Qed.

(** An exception of [_send_request] is a [RuntimeError], unless it is the
    one that [session.post] or [json.loads] raised. *)
Theorem send_request_exceptions `{PyLib} (f : TechnionCourseFetcher)
    (q : string) (a : bool) (w w' : World) (e : exn) :
  _send_request f q a w = (w', inl e) ->
  is_RuntimeError e = true
  \/ server w (length (posted w)) q = PostRaises e
  \/ exists text, json_loads text = inl e.
Proof.
  unfold _send_request.
  assert (Hlive : fetch_live f q a w = (w', inl e) ->
    is_RuntimeError e = true
    \/ server w (length (posted w)) q = PostRaises e
    \/ exists text, json_loads text = inl e).
  { unfold fetch_live.
    destruct (server w _ q) as [e0|status text]; [intros [= _ ->]; auto|].
    destruct (negb (status =? 202)); [intros [= _ <-]; auto|].
    destruct (split _ _) as [|? [|? [|chunk [|? ?]]]];
      try (intros [= _ <-]; auto).
    destruct (json_loads _) as [e0|result] eqn:Ej;
      [intros [= _ <-]; right; right; by eexists|].
    destruct (negb a && is_empty_results result); [intros [= _ <-]; auto|].
    by destruct (cache_dir f). }
  destruct (cache_dir f) as [dir|]; [|done].
  by destruct (cache_files w !! _).
Qed.

Lemma send_request_exceptions_witness :
  is_RuntimeError (RuntimeError "Bad status code") = true
  \/ PostReturns 500 "" = PostRaises (RuntimeError "Bad status code")
  \/ exists text, json_loads (PyLib := Demo.lib) text
                  = inl (RuntimeError "Bad status code").
Proof.
  apply (send_request_exceptions (H := Demo.lib) (mkFetcher None false) "q"
           false (Demo.world (fun _ _ => PostReturns 500 ""))
           (_send_request (H := Demo.lib) (mkFetcher None false) "q" false
              (Demo.world (fun _ _ => PostReturns 500 ""))).1).
  vm_compute. reflexivity.
Defined.

(** The test for an empty result is made on live responses only.  When a
    call that allows an empty result has fetched and stored one, a later call
    that does not allow it returns the stored empty result, where the same
    call in place of the first would have raised. *)
Theorem cached_empty_result_is_returned `{PyLib} (f : TechnionCourseFetcher)
    (dir q : string) (w w1 : World) (r : json) :
  cache_dir f = Some dir ->
  cache_files w !! _get_cache_file dir q = None ->
  _send_request f q true w = (w1, inr r) ->
  is_empty_results r = true ->
  _send_request f q false w1 = (w1, inr r)
  /\ (_send_request f q false w).2 = inl (RuntimeError "Empty response").
Proof.
  intros Hd Hc E Hr. split.
  - rewrite (send_request_miss f dir) in E by done.
    apply fetch_live_inr in E as [_ Hf]. rewrite Hd in Hf.
    apply (send_request_hit f dir); [done|]. rewrite Hf. apply lookup_insert_eq.
  - rewrite (send_request_miss f dir) in E |- * by done.
    unfold fetch_live in *.
    destruct (server w _ q) as [e|status text]; [done|].
    destruct (negb (status =? 202)); [done|].
    destruct (split _ _) as [|? [|? [|chunk [|? ?]]]]; try done.
    destruct (json_loads _) as [e|result]; [done|].
    cbn [negb andb] in E. rewrite Hd in E. injection E as _ ->.
    cbn [negb andb]. by rewrite Hr.
Qed.

Lemma cached_empty_result_is_returned_witness :
  exists w1,
    _send_request (H := Demo.lib) (mkFetcher (Some ".cache") false) "q" false w1
      = (w1, inr (Demo.results []))
    /\ (_send_request (H := Demo.lib) (mkFetcher (Some ".cache") false) "q" false
          (Demo.world (fun _ _ => PostReturns 202 (Demo.batch_response "empty")))).2
       = inl (RuntimeError "Empty response").
Proof.
  eexists.
  apply (cached_empty_result_is_returned (H := Demo.lib)
           (mkFetcher (Some ".cache") false) ".cache" "q"
           (Demo.world (fun _ _ => PostReturns 202 (Demo.batch_response "empty"))));
    vm_compute; reflexivity.
Defined.

End RequestSpec.

(** ** The loop over the courses, in general *)

Module FetchSpec.
Import PyStr Py Fetcher PyFacts FetchLoopSpec.

Lemma built_failures_length (tries : list (json * res CourseInfo)) :
  (length (built tries) + length (failures tries))%nat = length tries.
Proof.
  induction tries as [|[id [e|c]] tries IH]; [done| |].
  - rewrite built_inl, failures_inl. cbn [length]. lia.
  - rewrite built_inr, failures_inr. cbn [length]. lia.
Qed.

Lemma failures_sublist (tries : list (json * res CourseInfo)) :
  failures tries `sublist_of` tries.*1.
Proof.
  induction tries as [|[id [e|c]] tries IH]; [done| |].
  - rewrite failures_inl, fmap_cons. by apply sublist_skip.
  - rewrite failures_inr, fmap_cons. by apply sublist_cons.
Qed.

(** The loop of [fetch_semester_courses] never raises, whatever the calls of
    [get_course_data] do: every identifier ends in exactly one of the two
    lists, and the failed identifiers keep the order of the input. *)
Theorem fetch_loop_partition `{PyLib} (f : TechnionCourseFetcher)
    (year semester : Z) (ids : list json) (w : World) :
  exists w' courses failed,
    fetch_loop f year semester ids w = (w', inr (courses, failed))
    /\ (length courses + length failed)%nat = length ids
    /\ failed `sublist_of` ids.
Proof.
  rewrite fetch_loop_attempts. eexists _, _, _. split; [done|].
  split.
  - rewrite built_failures_length.
    rewrite <- (attempts_ids f year semester ids w) at 2.
    by rewrite length_fmap.
  - rewrite <- (attempts_ids f year semester ids w) at 2.
    apply failures_sublist.
Qed.

(** [get_course_data] raises a [RuntimeError] when the query of the course
    returns a list of other than one record, and then asks for nothing more:
    the world is the one that the query of the course left. *)
Theorem get_course_data_cardinality `{PyLib} (f : TechnionCourseFetcher)
    (year semester : Z) (cn : json) (w w1 : World) (raw_data : json)
    (records : list json) :
  _send_request f (course_query year semester cn) false w = (w1, inr raw_data) ->
  d_field raw_data "results" = inr (JArr records) ->
  length records ≠ 1%nat ->
  get_course_data f year semester cn w
    = (w1, inl (RuntimeError "Expected 1 result")).
Proof.
  intros Hreq Hres Hlen. unfold get_course_data.
  unfold mbind at 1, M_bind. rewrite Hreq.
  unfold mbind at 1, M_bind, lift at 1. rewrite Hres.
  unfold mbind at 1, M_bind, lift at 1. cbn [py_len mret res_ret].
  destruct (length records =? 1)%nat eqn:E; [by apply Nat.eqb_eq in E|].
  done.
Qed.

Lemma get_course_data_cardinality_witness :
  exists w1,
    get_course_data (H := Demo.lib) (mkFetcher None false) 2024 200 (JStr "SM2")
      (Demo.world (Demo.semester_server 500))
    = (w1, inl (RuntimeError "Expected 1 result")).
Proof.
  eexists.
  apply (get_course_data_cardinality (H := Demo.lib) (mkFetcher None false)
           2024 200 (JStr "SM2") (Demo.world (Demo.semester_server 500)) _
           (Demo.results [Demo.course_record "SM2"; Demo.course_record "SM2"])
           [Demo.course_record "SM2"; Demo.course_record "SM2"]).
  - vm_compute. reflexivity.
  - reflexivity.
  - discriminate.
Defined.

End FetchSpec.

(** ** The writers *)

Module WriterSpec.
Import PyStr Py Fetcher SmartFetcher PyFacts WriterFacts.

(** [save_to_firestore] does nothing without a store.  With a store it
    commits the document of every course, however many there are (a last
    batch of fewer than 500, or exactly 500, included): of courses with
    distinct numbers each has its document, and the documents of other
    numbers stay as they are. *)
Theorem save_to_firestore_commits_all (f : TechnionCourseFetcher)
    (courses : list CourseInfo) (year semester : Z) (w : World) :
  (db f = false -> save_to_firestore f courses year semester w = (w, inr tt))
  /\ (db f = true ->
      exists w',
        save_to_firestore f courses year semester w = (w', inr tt)
        /\ (NoDup (course_number <$> courses) ->
            forall course, course ∈ courses ->
              documents w' !! [collection_name year semester; course_number course]
              = Some (firestore_doc course year semester))
        /\ (forall id, id ∉ course_number <$> courses ->
              documents w' !! [collection_name year semester; id]
              = documents w !! [collection_name year semester; id])).
Proof.
  unfold save_to_firestore. split; [by intros ->|]. intros ->. cbn [negb].
  match goal with
  | |- context [write_batches ?d ?c ?w0] =>
      destruct (write_batches_documents d c w0) as (w' & E & Hd & _)
  end.
  exists w'. split; [exact E|].
  assert (Hpaths :
    ((fun course =>
        ([collection_name year semester; course_number course],
         firestore_doc course year semester)) <$> courses).*1
    = (fun id => [collection_name year semester; id])
        <$> (course_number <$> courses)).
  { rewrite <- !list_fmap_compose. done. }
  split.
  - intros Hnd course Hin. rewrite Hd. apply apply_batch_nodup.
    + rewrite Hpaths. apply NoDup_fmap_2; [|done]. by intros a b [=].
    + apply (list_elem_of_fmap_2
        (fun course => ([collection_name year semester; course_number course],
                        firestore_doc course year semester))). done.
  - intros id Hid. rewrite Hd. apply apply_batch_notin. rewrite Hpaths.
    intros (id' & [= ->] & Hin)%list_elem_of_fmap. done.
Qed.

(** Five hundred courses, and one more: all have their document. *)
Lemma save_to_firestore_commits_all_witness :
  let courses := (fun n => Demo.course (str_of_Z (Z.of_nat n)) []) <$> seq 0 501 in
  exists w',
    save_to_firestore (mkFetcher None true) courses 2024 200
      (Demo.world (fun _ _ => PostReturns 500 "")) = (w', inr tt)
    /\ documents w' !! [collection_name 2024 200; "499"]
       = Some (firestore_doc (Demo.course "499" []) 2024 200)
    /\ documents w' !! [collection_name 2024 200; "500"]
       = Some (firestore_doc (Demo.course "500" []) 2024 200).
Proof.
  intros courses.
  destruct (proj2 (save_to_firestore_commits_all
                     (mkFetcher None true) courses 2024 200
                     (Demo.world (fun _ _ => PostReturns 500 ""))) eq_refl)
    as (w' & E & Hdocs & _).
  assert (Hnd : NoDup (course_number <$> courses)).
  { apply (bool_decide_unpack _). vm_compute. exact I. }
  exists w'. split; [exact E|]. split.
  - apply (Hdocs Hnd (Demo.course "499" [])).
    apply list_elem_of_fmap. exists 499%nat.
    split; [vm_compute; reflexivity | apply list_elem_of_In, in_seq; lia].
  - apply (Hdocs Hnd (Demo.course "500" [])).
    apply list_elem_of_fmap. exists 500%nat.
    split; [vm_compute; reflexivity | apply list_elem_of_In, in_seq; lia].
Defined.

(** [save_to_firestore_university_structure] does nothing without a store;
    with a store and a semester code other than 200, 201 and 202 it raises
    [KeyError] before it has written anything. *)
Theorem university_writer_refuses (f : TechnionCourseFetcher)
    (courses : list CourseInfo) (university_id : string) (year semester : Z)
    (output_dir : option string) (w : World) :
  (db f = false ->
   save_to_firestore_university_structure f courses university_id year
     semester output_dir w = (w, inr tt))
  /\ (db f = true -> semester ∉ [200; 201; 202] ->
      save_to_firestore_university_structure f courses university_id year
        semester output_dir w = (w, inl (KeyError (str_of_Z semester)))).
Proof.
  unfold save_to_firestore_university_structure.
  split; [by intros ->|]. intros -> Hs. cbn [negb].
  unfold mbind at 1, M_bind. unfold mbind at 1, M_bind, lift at 1.
  unfold semester_name_of, semester_names. cbn [list_find fst].
  rewrite !not_elem_of_cons in Hs. destruct Hs as (H0 & H1 & H2 & _).
  rewrite !decide_False by congruence. done.
Qed.

Lemma university_writer_refuses_witness :
  save_to_firestore_university_structure (mkFetcher None true)
    [Demo.course "1" []] "Technion" 2024 203 None
    (Demo.world (fun _ _ => PostReturns 500 ""))
  = (Demo.world (fun _ _ => PostReturns 500 ""), inl (KeyError "203")).
Proof.
  apply (proj2 (university_writer_refuses (mkFetcher None true)
                  [Demo.course "1" []] "Technion" 2024 203 None
                  (Demo.world (fun _ _ => PostReturns 500 ""))));
    [reflexivity|].
  apply (bool_decide_unpack _). vm_compute. exact I.
Defined.

End WriterSpec.

(** ** Computations that only ask the service *)

Module ReadOnlyFacts.
Import PyStr Re Py Fetcher PyFacts.

(** A world that a computation may leave behind when it only asks the
    service: the same service, course files and documents; the requests of
    before with some more on top; cache files and memo entries kept, with
    some more beside them. *)
Definition extends (w w' : World) : Prop :=
  server w' = server w
  /\ (exists l, posted w' = (l ++ posted w)%list)
  /\ cache_files w ⊆ cache_files w'
  /\ building_memo w ⊆ building_memo w'
  /\ json_files w' = json_files w
  /\ documents w' = documents w.

Definition reads_only {A : Type} (m : M A) : Prop :=
  forall w, extends w (m w).1.

Lemma extends_refl w : extends w w.
Proof. repeat split; try done. by exists []. Qed.

Lemma extends_trans w1 w2 w3 : extends w1 w2 -> extends w2 w3 -> extends w1 w3.
Proof.
  intros (Hs & [l Hp] & Hc & Hm & Hj & Hd) (Hs' & [l' Hp'] & Hc' & Hm' & Hj' & Hd').
  repeat split.
  - by rewrite Hs', Hs.
  - exists (l' ++ l)%list. by rewrite Hp', Hp, app_assoc.
  - by etrans.
  - by etrans.
  - by rewrite Hj', Hj.
  - by rewrite Hd', Hd.
Qed.

Lemma reads_only_ret {A} (x : A) : reads_only (mret x).
Proof. intros w. apply extends_refl. Qed.

Lemma reads_only_lift {A} (r : res A) : reads_only (lift r).
Proof. intros w. apply extends_refl. Qed.

Lemma reads_only_bind {A B} (m : M A) (k : A -> M B) :
  reads_only m -> (forall x, reads_only (k x)) -> reads_only (m ≫= k).
Proof.
  intros Hm Hk w. unfold mbind, M_bind. specialize (Hm w).
  destruct (m w) as [w1 [e|x]]; [done|].
  eapply extends_trans; [exact Hm | apply Hk].
Qed.

Lemma reads_only_try {A} (m : M A) handles (h : exn -> M A) :
  reads_only m -> (forall e, reads_only (h e)) -> reads_only (try_except m handles h).
Proof.
  intros Hm Hh w. unfold try_except. specialize (Hm w).
  destruct (m w) as [w1 [e|x]]; [|done].
  destruct (handles e); [|done].
  eapply extends_trans; [exact Hm | apply Hh].
Qed.

Lemma reads_only_for_M {A S} (l : list A) (body : A -> S -> M S) :
  (forall x s, reads_only (body x s)) -> forall s, reads_only (for_M l body s).
Proof.
  intros Hb. induction l as [|x l IH]; intros s; cbn [for_M].
  - apply reads_only_ret.
  - apply reads_only_bind; [apply Hb | apply IH].
Qed.

Ltac reads_only_step :=
  first
    [ apply reads_only_ret
    | apply reads_only_lift
    | apply reads_only_bind; [|intros ?]
    | apply reads_only_try; [|intros ?]
    | apply reads_only_for_M; intros ? ?
    | match goal with
      | |- reads_only (match ?x with _ => _ end) => destruct x
      end ].

Section Reads.
Context `{PyLib}.

Lemma reads_only_send_request f q a : reads_only (_send_request f q a).
Proof.
  intros w. unfold _send_request.
  assert (Hlive : forall miss : match cache_dir f with
                                | Some dir => cache_files w !! _get_cache_file dir q = None
                                | None => True
                                end,
    extends w (fetch_live f q a w).1).
  { intros miss. unfold fetch_live.
    assert (Hp : extends w (set_posted (cons q) w)).
    { repeat split; try done. by exists [q]. }
    destruct (server w _ q) as [e|status text]; [done|].
    destruct (negb (status =? 202)); [done|].
    destruct (split _ _) as [|? [|? [|chunk [|? ?]]]]; try done.
    destruct (json_loads _) as [e|result]; [done|].
    destruct (negb a && is_empty_results result); [done|].
    destruct (cache_dir f) as [dir|]; [|done].
    repeat split; try done; cbn.
    - by exists [q].
    - by apply insert_subseteq. }
  destruct (cache_dir f) as [dir|]; [|by apply Hlive].
  destruct (cache_files w !! _get_cache_file dir q) eqn:E;
    [apply extends_refl | by apply Hlive].
Qed.

Lemma reads_only_building_body f year semester room_id :
  reads_only (get_building_name_body f year semester room_id).
Proof.
  unfold get_building_name_body.
  repeat first [apply reads_only_send_request | reads_only_step].
Qed.

Lemma reads_only_building f year semester room_id :
  reads_only (get_building_name f year semester room_id).
Proof.
  intros w. unfold get_building_name.
  destruct (building_memo w !! _) eqn:Em; [apply extends_refl|].
  pose proof (reads_only_building_body f year semester room_id w) as Hb.
  destruct (get_building_name_body f year semester room_id w) as [w1 [e|v]];
    [done|].
  destruct Hb as (Hs & Hp & Hc & Hm & Hj & Hd).
  repeat split; try done. cbn. by apply insert_subseteq_r.
Qed.

Lemma reads_only_room_info f year semester id :
  reads_only (get_room_info f year semester id).
Proof.
  unfold get_room_info, room_info_result, room_info_room.
  repeat first [apply reads_only_send_request | apply reads_only_building
               | reads_only_step].
Qed.

Lemma reads_only_schedule f year semester cn :
  reads_only (get_course_schedule f year semester cn).
Proof.
  unfold get_course_schedule, schedule_group, schedule_item, item_room.
  repeat first [apply reads_only_send_request | apply reads_only_building
               | apply reads_only_room_info | reads_only_step].
Qed.

Lemma reads_only_course_data f year semester cn :
  reads_only (get_course_data f year semester cn).
Proof.
  unfold get_course_data, throw.
  repeat first [apply reads_only_send_request | apply reads_only_schedule
               | reads_only_step].
Qed.

Lemma reads_only_course_numbers f year semester :
  reads_only (get_course_numbers f year semester).
Proof.
  unfold get_course_numbers.
  repeat first [apply reads_only_send_request | reads_only_step].
Qed.

Lemma reads_only_fetch_loop f year semester ids :
  reads_only (fetch_loop f year semester ids).
Proof.
  unfold fetch_loop, fetch_course.
  repeat first [apply reads_only_course_data | reads_only_step].
Qed.

Lemma reads_only_semesters f : reads_only (get_semesters f).
Proof.
  unfold get_semesters.
  repeat first [apply reads_only_send_request | reads_only_step].
Qed.

End Reads.
End ReadOnlyFacts.

(** ** What fetching leaves alone *)

Module ReadOnlySpec.
Import PyStr Py Fetcher SmartFetcher PyFacts ReadOnlyFacts BuildingSpec.

(** The fetching methods only ask the service.  Whatever the service
    answers, and whether they return or raise, [get_course_data] (and with it
    [get_course_schedule], [get_room_info] and [get_building_name]),
    [get_semesters] and [fetch_semester_courses] without an output directory
    and without the store leave every course file and every document as it
    is, keep the cache files and the memo entries that were there, and add
    their requests on top of the earlier ones. *)
Theorem fetching_reads_only `{PyLib} (f : TechnionCourseFetcher)
    (year semester : Z) (course_number : json) (w : World) :
  extends w (get_course_data f year semester course_number w).1
  /\ extends w (get_semesters f w).1
  /\ extends w (fetch_semester_courses f year semester None false w).1.
Proof.
  split; [apply reads_only_course_data|]. split; [apply reads_only_semesters|].
  unfold fetch_semester_courses.
  apply reads_only_bind; [apply reads_only_course_numbers|]. intros ids.
  apply reads_only_bind; [apply reads_only_fetch_loop|]. intros [courses failed].
  repeat reads_only_step.
Qed.

(** [get_building_name] remembers what it returned, a failure included.
    Every call returns; after it, in any world that later fetching has led
    to, a call with the same arguments returns the same value and posts no
    request, whatever the service would answer by then: in particular the
    empty string of a request that failed stays the answer. *)
Theorem get_building_name_memo `{PyLib} (f : TechnionCourseFetcher)
    (year semester : Z) (room_id : string) (w : World) :
  exists w1 v,
    get_building_name f year semester room_id w = (w1, inr v)
    /\ (forall e,
          (_send_request f (building_query year semester room_id) false w).2
            = inl e ->
          building_memo w !! (year, semester, room_id) = None -> v = "")
    /\ forall w2, extends w1 w2 ->
         get_building_name f year semester room_id w2 = (w2, inr v).
Proof.
  unfold get_building_name at 1.
  destruct (building_memo w !! (year, semester, room_id)) as [kept|] eqn:Em.
  - exists w, kept. split; [done|]. split; [done|].
    intros w2 (_ & _ & _ & Hm & _). unfold get_building_name.
    by rewrite (lookup_weaken _ _ _ _ Em Hm).
  - destruct (get_building_name_body_result f year semester room_id w)
      as (w1 & v & E & H1 & H2).
    rewrite E. eexists _, v. split; [done|]. split.
    + intros e Hreq _. destruct (String.eqb_spec room_id "") as [->|Hne]; [by apply H1|].
      specialize (H2 Hne).
      destruct (_send_request f _ false w) as [? [?|?]]; [done | discriminate Hreq].
    + intros w2 (_ & _ & _ & Hm & _). unfold get_building_name.
      cbn [building_memo set_building_memo] in Hm.
      rewrite (lookup_weaken _ _ (year, semester, room_id) v
                 (lookup_insert_eq _ _ _) Hm). done.
Qed.

#[local] Existing Instance Demo.lib.

(** A service that refuses the first request and answers the later ones:
    the second call posts nothing and returns the empty string of the
    first. *)
Example failure_is_remembered :
  let srv := fun (n : nat) (_ : string) =>
    match n with
    | O => PostReturns 500 ""
    | S _ => PostReturns 202 (Demo.batch_response "building")
    end in
  let first := get_building_name (mkFetcher None false) 2024 200 "R1"
                 (Demo.world srv) in
  let second := get_building_name (mkFetcher None false) 2024 200 "R1" first.1 in
  first.2 = inr "" /\ second.2 = inr "" /\ length (posted second.1) = 1%nat
  /\ (get_building_name (mkFetcher None false) 2024 200 "R2" first.1).2
     = inr "טאוב 2".
Proof. vm_compute. done. Qed.

End ReadOnlySpec.

(** ** The course file, written and read back *)

Module SnapshotFacts.
Import PyStr Py Fetcher SmartFetcher PyFacts WriterFacts ExamsSpec ReconcileSpec
  FetchLoopSpec CourseFacts.

(** The key of the course number in the [general] dict. *)
Definition number_key : string := "מספר מקצוע".

Lemma dict_lookup_opt_field k k' v d :
  k' ≠ k -> dict_lookup k (opt_field k' v d) = dict_lookup k d.
Proof.
  intros Hne. unfold opt_field. destruct (negb _); [|done].
  rewrite dict_lookup_set. by destruct (String.eqb_spec k' k).
Qed.

Lemma dict_lookup_add_exams k exams d :
  k ∉ exams.*1 -> dict_lookup k (add_exams exams d) = dict_lookup k d.
Proof.
  unfold add_exams. revert d.
  induction exams as [|[t v] exams IH]; intros d Hk; [done|].
  csimpl in Hk. apply not_elem_of_cons in Hk as [Hne Hk].
  cbn [fold_left]. rewrite IH by done. by apply dict_lookup_opt_field.
Qed.

Lemma general_dict_number course :
  number_key ∉ (exams course).*1 ->
  dict_lookup number_key (general_dict course)
  = Some (JStr (course_number course)).
Proof.
  intros Hk. unfold general_dict. rewrite dict_lookup_add_exams by done.
  rewrite !dict_lookup_opt_field by done. reflexivity.
Qed.

(** The table that the items of a course file fill, one course after the
    other. *)
Definition table_step (t : gmap string json) (course : CourseInfo)
    : gmap string json :=
  if String.eqb (course_number course) "" then t
  else <[course_number course := JArr (schedule course)]> t.

Lemma existing_item_course_dict course t :
  number_key ∉ (exams course).*1 ->
  existing_item (course_dict course) t = inr (table_step t course).
Proof.
  intros Hk. unfold existing_item, course_dict.
  cbn [dict_get dict_lookup String.eqb Ascii.eqb Bool.eqb default from_option id
       mbind res_bind mret res_ret].
  fold number_key. rewrite (general_dict_number course Hk).
  cbn [default from_option id].
  unfold table_step. cbn [truthy].
  by destruct (String.eqb (course_number course) "").
Qed.

Lemma load_items_course_dicts courses : forall t,
  Forall (fun course => number_key ∉ (exams course).*1) courses ->
  load_items (course_dict <$> courses) t = fold_left table_step courses t.
Proof.
  induction courses as [|c courses IH]; intros t Hk; [done|].
  apply Forall_cons in Hk as [Hc Hk]. rewrite fmap_cons. cbn [load_items fold_left].
  rewrite (existing_item_course_dict c t Hc). by apply IH.
Qed.

Lemma table_notin courses : forall t c,
  c ∉ course_number <$> courses ->
  fold_left table_step courses t !! c = t !! c.
Proof.
  induction courses as [|x courses IH]; intros t c Hc; [done|].
  rewrite fmap_cons in Hc. apply not_elem_of_cons in Hc as [Hne Hc].
  cbn [fold_left]. rewrite IH by done. unfold table_step.
  destruct (String.eqb _ ""); [done|]. by rewrite lookup_insert_ne.
Qed.

Lemma table_empty_key courses : forall t,
  fold_left table_step courses t !! "" = t !! "".
Proof.
  induction courses as [|x courses IH]; intros t; [done|].
  cbn [fold_left]. rewrite IH. unfold table_step.
  destruct (String.eqb_spec (course_number x) ""); [done|].
  by rewrite lookup_insert_ne.
Qed.

Lemma table_nodup courses : forall t course,
  NoDup (course_number <$> courses) -> course ∈ courses ->
  course_number course ≠ "" ->
  fold_left table_step courses t !! course_number course
  = Some (JArr (schedule course)).
Proof.
  induction courses as [|x courses IH]; intros t course Hnd Hin Hne.
  - by apply elem_of_nil in Hin.
  - rewrite fmap_cons in Hnd. apply NoDup_cons in Hnd as [Hx Hnd].
    cbn [fold_left]. apply elem_of_cons in Hin as [->|Hin].
    + rewrite table_notin by done. unfold table_step.
      destruct (String.eqb_spec (course_number x) ""); [done|].
      apply lookup_insert_eq.
    + by apply IH.
Qed.

Lemma dict_set_keys {V} k (v : V) d : (dict_set k v d).*1 ⊆ k :: d.*1.
Proof.
  induction d as [|[k0 v0] d IH]; csimpl; [done|].
  destruct (String.eqb_spec k0 k) as [->|Hne]; csimpl; intros x Hx.
  - by apply elem_of_cons; right.
  - apply elem_of_cons in Hx as [->|Hx].
    + apply elem_of_cons; right. by apply elem_of_cons; left.
    + apply IH, elem_of_cons in Hx as [->|Hx]; [by apply elem_of_cons; left|].
      apply elem_of_cons; right. by apply elem_of_cons; right.
Qed.

Lemma for_exam_item_keys items : forall acc out,
  for_res items exam_item acc = inr out ->
  acc.*1 ⊆ exam_labels -> out.*1 ⊆ exam_labels.
Proof.
  induction items as [|x items IH]; intros acc out E Hacc.
  - by injection E as <-.
  - cbn [for_res] in E. apply res_bind_inr in E as (acc' & Hx & E).
    apply (IH acc' out E).
    apply exam_item_inv in Hx as [->|(l & v & Hmade & ->)]; [done|].
    destruct Hmade as (code & ? & ? & ? & ? & _ & Hl%exam_label_in & _).
    intros k [->|Hk]%dict_set_keys%elem_of_cons; [done | by apply Hacc].
Qed.

Section Pipeline.
Context `{PyLib}.

Lemma returned_exam_keys f year semester cn w w' c :
  get_course_data f year semester cn w = (w', inr c) ->
  number_key ∉ (exams c).*1.
Proof.
  intros (w1 & raw_data & results & course_data & locals & sched
            & _ & _ & _ & _ & Hloc & _ & Hinfo)%get_course_data_inv.
  apply course_info_inv in Hinfo as (_ & _ & Hex & _).
  apply course_locals_inv in Hloc as (raw & ed & pd & _ & _ & _ & Hce & _).
  unfold course_exams in Hce.
  apply res_bind_inr in Hce as (items & Hitems & Hfor).
  apply for_exam_item_keys in Hfor; [|by intros x Hx%elem_of_nil]. rewrite Hex.
  intros Hin. apply Hfor in Hin. revert Hin.
  apply (bool_decide_unpack _). vm_compute. exact I.
Qed.

Lemma built_returned f year semester ids : forall w c,
  c ∈ built (attempts f year semester ids w) ->
  exists id w0 w1, get_course_data f year semester id w0 = (w1, inr c).
Proof.
  induction ids as [|id ids IH]; intros w c Hc.
  - by apply elem_of_nil in Hc.
  - cbn [attempts] in Hc.
    destruct (get_course_data f year semester id w) as [w1 [e|c0]] eqn:E;
      cbn [fst snd] in Hc.
    + rewrite built_inl in Hc. by apply IH in Hc.
    + rewrite built_inr in Hc. apply elem_of_cons in Hc as [->|Hc].
      * by eexists _, _, _.
      * by apply IH in Hc.
Qed.

(** [fetch_semester_courses] with an output directory and without the
    store: the last thing it does is to write the file. *)
Lemma fetch_semester_courses_file f year semester dir w w1 courses :
  fetch_semester_courses f year semester (Some dir) false w = (w1, inr courses) ->
  Forall (fun course => number_key ∉ (exams course).*1) courses
  /\ exists w0,
       w1 = set_json_files
              <[path_join dir (collection_name year semester ++ ".json")
                  := JArr (course_dict <$> courses)]> w0.
Proof.
  unfold fetch_semester_courses.
  intros (wn & ids & _ & E)%M_bind_inr.
  apply M_bind_inr in E as (w0 & [cs failed] & Hloop & E).
  rewrite fetch_loop_attempts in Hloop. injection Hloop as <- <- _.
  apply M_bind_inr in E as (w2 & [] & Hsave & E).
  apply M_bind_inr in E as (w3 & [] & [= <-] & [= <- <-]).
  unfold save_to_json, modify in Hsave. injection Hsave as <-.
  split; [|by eexists].
  apply Forall_forall. intros c (id & wa & wb & Hc)%built_returned.
  by eapply returned_exam_keys.
Qed.

End Pipeline.

End SnapshotFacts.

(** ** The course file as the snapshot of the writer *)

Module SnapshotSpec.
Import PyStr Py Fetcher SmartFetcher PyFacts WriterFacts ReconcileSpec
  FetchLoopSpec ReadOnlyFacts SnapshotFacts.

(** The course file that [save_to_json] writes, read back by the writer of
    the university structure: the table has the schedule of every course
    with a course number that is not empty, be the schedule empty or not, and
    nothing under any other key. *)
Theorem saved_file_read_back (courses : list CourseInfo) (path : string)
    (w : World) :
  Forall (fun course => number_key ∉ (exams course).*1) courses ->
  let w' := (save_to_json courses path w).1 in
  let table := load_existing_schedules (json_files w' !! path) in
  (forall c, c ∉ course_number <$> courses -> table !! c = None)
  /\ table !! "" = None
  /\ (NoDup (course_number <$> courses) ->
      forall course, course ∈ courses -> course_number course ≠ "" ->
        table !! course_number course = Some (JArr (schedule course))).
Proof.
  intros Hk w' table.
  assert (E : table = fold_left table_step courses ∅).
  { unfold table, w', save_to_json, modify. cbn [fst json_files set_json_files].
    rewrite lookup_insert_eq. cbn [load_existing_schedules iter_items mret res_ret].
    by apply load_items_course_dicts. }
  rewrite E. split; [|split].
  - intros c Hc. by rewrite table_notin.
  - by rewrite table_empty_key.
  - intros Hnd course Hin Hne. by apply table_nodup.
Qed.


(** Two courses, the first without a schedule: both are in the table. *)
Lemma saved_file_read_back_witness :
  let courses := [Demo.course "1" []; Demo.course "3" [Demo.entry "רביעי"]] in
  let w' := (save_to_json courses "./data/courses_2024_200.json"
               (Demo.world (fun _ _ => PostReturns 500 ""))).1 in
  let table :=
    load_existing_schedules (json_files w' !! "./data/courses_2024_200.json") in
  table !! "1" = Some (JArr []) /\ table !! "2" = None.
Proof.
  intros courses w' table.
  assert (Hk : Forall (fun course => number_key ∉ (exams course).*1) courses).
  { repeat constructor; apply (bool_decide_unpack _); vm_compute; exact I. }
  destruct (saved_file_read_back courses "./data/courses_2024_200.json"
              (Demo.world (fun _ _ => PostReturns 500 "")) Hk)
    as (Hnone & _ & Hsome).
  split.
  - apply (Hsome ltac:(apply (bool_decide_unpack _); vm_compute; exact I)
             (Demo.course "1" [])); [apply elem_of_cons; by left | done].
  - apply Hnone. apply (bool_decide_unpack _). vm_compute. exact I.
Defined.

(** One semester of [main], with the default output directory: the course
    file that the writer reads as its snapshot is the one that the fetch has
    just written.  So, when the fetch returns courses, the semester counts as
    updated and every course gets the document that a writer without any
    snapshot gives it: the schedule stored is the one fetched, empty or
    not. *)
Theorem update_semester_stores_fetched `{PyLib} (f : TechnionCourseFetcher)
    (year semester : Z) (sn : string) (w w1 : World) (courses : list CourseInfo) :
  db f = true ->
  semester_name_of semester = inr sn ->
  fetch_semester_courses f year semester (Some "./data") false w
    = (w1, inr courses) ->
  courses ≠ [] ->
  exists w',
    update_semester f "./data" year semester w = (w', inr true)
    /\ (NoDup (course_number <$> courses) ->
        forall course, course ∈ courses ->
          stored_schedule (snapshot year semester None w1) course
            = JArr (schedule course)
          /\ documents w' !! doc_path "Technion" year semester (course_number course)
             = Some (course_data ∅ "Technion" year semester sn course)).
Proof.
  intros Hdb Hsn Hfetch Hne.
  destruct (save_university_documents f courses "Technion" year semester None
              w1 sn Hdb Hsn) as (w' & Hsave & meta & Hdocs).
  exists w'. split.
  { unfold update_semester. cbn [String.eqb].
    unfold mbind at 1, M_bind. rewrite Hfetch.
    destruct courses as [|c cs]; [done|].
    unfold mbind, M_bind. by rewrite Hsave. }
  intros Hnd.
  destruct (fetch_semester_courses_file f year semester "./data" w w1 courses
              Hfetch) as (Hkeys & w0 & ->).
  assert (Hstored : forall course, course ∈ courses ->
    stored_schedule (snapshot year semester None
      (set_json_files
         <[path_join "./data" (collection_name year semester ++ ".json")
             := JArr (course_dict <$> courses)]> w0)) course
    = JArr (schedule course)).
  { intros course Hin.
    unfold snapshot, data_file. cbn [default from_option id json_files set_json_files].
    rewrite lookup_insert_eq. cbn [load_existing_schedules iter_items mret res_ret].
    rewrite load_items_course_dicts by done.
    unfold stored_schedule. rewrite as_list_of_dicts_id.
    destruct (schedule course) as [|x l] eqn:Es; [|done].
    destruct (String.eqb_spec (course_number course) "") as [E0|E0].
    - by rewrite E0, table_empty_key.
    - by rewrite (table_nodup courses ∅ course Hnd Hin E0), Es. }
  intros course Hin. split; [by apply Hstored|].
  rewrite Hdocs. apply apply_batch_nodup.
  - rewrite <- list_fmap_compose.
    rewrite (list_fmap_compose course_number (doc_path "Technion" year semester)).
    apply NoDup_fmap_2; [|done]. by intros a b [=].
  - apply list_elem_of_fmap. exists course. split; [|done].
    f_equal. unfold course_data. rewrite (Hstored course Hin).
    unfold stored_schedule. rewrite as_list_of_dicts_id, lookup_empty.
    by destruct (schedule course).
Qed.


#[local] Existing Instance Demo.lib.

(** The record that the example service gives for a course. *)
Definition fetched_record (number : string) : CourseInfo :=
  mkCourseInfo number (JStr "Algebra") (JStr "") (JStr "Mathematics") (JStr "")
    "3.5" "Dr. A B" "00440102" "" "" (JStr "")
    [("מועד א", "08-01-2022 09:00 - 12:00"); ("מועד ב", "08-01-2022")] [].

(** A course file with a schedule for course 1 is there before the run; the
    service refuses the schedules; the document of course 1 gets the empty
    schedule. *)
Lemma update_semester_stores_fetched_witness :
  exists w' d,
    update_semester (mkFetcher None true) "./data" 2024 200
      (set_json_files
         <["./data/courses_2024_200.json" :=
             JArr [Demo.file_item "1" [Demo.entry "שני"]]]>
         (Demo.world (Demo.semester_server 500))) = (w', inr true)
    /\ documents w' !! doc_path "Technion" 2024 200 "1" = Some d
    /\ getitem d "schedule" = inr (JArr []).
Proof.
  set (w := set_json_files
         <["./data/courses_2024_200.json" :=
             JArr [Demo.file_item "1" [Demo.entry "שני"]]]>
         (Demo.world (Demo.semester_server 500))).
  assert (E : fetch_semester_courses (mkFetcher None true) 2024 200
                (Some "./data") false w
              = ((fetch_semester_courses (mkFetcher None true) 2024 200
                    (Some "./data") false w).1,
                 inr [fetched_record "1"; fetched_record "3"]))
    by (vm_compute; reflexivity).
  destruct (update_semester_stores_fetched (mkFetcher None true) 2024 200
              "חורף" w _ _ eq_refl eq_refl E ltac:(done))
    as (w' & Hrun & Hdocs).
  destruct (Hdocs ltac:(apply (bool_decide_unpack _); vm_compute; exact I)
              (fetched_record "1") ltac:(apply elem_of_cons; by left))
    as [_ Hdoc].
  exists w'. eexists. split; [exact Hrun|]. split; [exact Hdoc|].
  vm_compute. reflexivity.
Defined.

(** One semester of [main] that does not count as updated.  When the list
    of the course numbers cannot be fetched, the run of the semester raises
    and leaves the course files and the documents as they are.  When the list
    is fetched and no course can be built, the semester does not count and no
    document is written, but the course file of the semester now holds the
    empty list, whatever it held before. *)
Theorem update_semester_failures `{PyLib} (f : TechnionCourseFetcher)
    (year semester : Z) (w : World) :
  (forall w0 e,
     get_course_numbers f year semester w = (w0, inl e) ->
     update_semester f "./data" year semester w = (w0, inl e)
     /\ json_files w0 = json_files w /\ documents w0 = documents w)
  /\ (forall w1,
        fetch_semester_courses f year semester (Some "./data") false w
          = (w1, inr []) ->
        update_semester f "./data" year semester w = (w1, inr false)
        /\ documents w1 = documents w
        /\ json_files w1 !! data_file year semester None = Some (JArr [])
        /\ snapshot year semester None w1 = ∅).
Proof.
  split.
  - intros w0 e Hn.
    pose proof (reads_only_course_numbers f year semester w)
      as (_ & _ & _ & _ & Hj & Hd).
    rewrite Hn in Hj, Hd. cbn [fst] in Hj, Hd. split; [|done].
    unfold update_semester, fetch_semester_courses. cbn [String.eqb].
    unfold mbind, M_bind. by rewrite Hn.
  - intros w1 Hfetch.
    assert (Hfile : json_files w1 !! data_file year semester None = Some (JArr [])).
    { apply fetch_semester_courses_file in Hfetch as (_ & w0 & ->).
      unfold data_file.
      cbn [default from_option id json_files set_json_files fmap list_fmap].
      apply lookup_insert_eq. }
    split; [|split; [|split]].
    + unfold update_semester. cbn [String.eqb].
      unfold mbind, M_bind. by rewrite Hfetch.
    + revert Hfetch. unfold fetch_semester_courses.
      intros (wn & ids & Hn & E)%M_bind_inr.
      apply M_bind_inr in E as (w0 & [cs failed] & Hloop & E).
      apply M_bind_inr in E as (w2 & [] & Hsave & E).
      apply M_bind_inr in E as (w3 & [] & [= <-] & [= <- _]).
      unfold save_to_json, modify in Hsave. injection Hsave as <-.
      cbn [documents set_json_files].
      pose proof (reads_only_course_numbers f year semester w)
        as (_ & _ & _ & _ & _ & H1).
      pose proof (reads_only_fetch_loop f year semester ids wn)
        as (_ & _ & _ & _ & _ & H2).
      rewrite Hn in H1. rewrite Hloop in H2. cbn [fst] in H1, H2.
      by rewrite H2, H1.
    + exact Hfile.
    + unfold snapshot. by rewrite Hfile.
Qed.

(** A service that lists three courses and refuses every other query, and a
    course file with a schedule for course 1 from an earlier run. *)
Lemma update_semester_failures_witness :
  let srv := fun (_ : nat) (q : string) =>
    if Demo.contains "$skip" q then PostReturns 202 (Demo.batch_response "numbers")
    else PostReturns 500 "" in
  let w := set_json_files
             <["./data/courses_2024_200.json" :=
                 JArr [Demo.file_item "1" [Demo.entry "שני"]]]>
             (Demo.world srv) in
  snapshot 2024 200 None w !! "1" = Some (JArr [Demo.entry "שני"])
  /\ exists w1,
       update_semester (mkFetcher None true) "./data" 2024 200 w = (w1, inr false)
       /\ snapshot 2024 200 None w1 = ∅.
Proof.
  intros srv w. split; [vm_compute; reflexivity|].
  eexists.
  assert (E : fetch_semester_courses (mkFetcher None true) 2024 200
                (Some "./data") false w
              = ((fetch_semester_courses (mkFetcher None true) 2024 200
                    (Some "./data") false w).1, inr []))
    by (vm_compute; reflexivity).
  destruct (proj2 (update_semester_failures (mkFetcher None true) 2024 200 w) _ E)
    as (Hrun & _ & _ & Hsnap).
  split; [exact Hrun | exact Hsnap].
Defined.

(** An item of the course file that is not a dict ends the loading: the
    entries of the items before it are kept and the items after it are not
    read. *)
Theorem load_stops_at_malformed_item (before after : list json) (bad : json)
    (acc : gmap string json) :
  is_dict bad = false ->
  load_items (before ++ bad :: after) acc = load_items before acc
  /\ load_existing_schedules (Some (JArr (before ++ bad :: after)))
     = load_existing_schedules (Some (JArr before)).
Proof.
  intros Hbad.
  assert (Hload : forall acc,
    load_items (before ++ bad :: after) acc = load_items before acc).
  { induction before as [|x before IH]; intros acc0.
    - cbn [app load_items]. unfold existing_item.
      by destruct bad.
    - cbn [app load_items]. destruct (existing_item x acc0); [done | apply IH]. }
  split; [apply Hload|].
  cbn [load_existing_schedules iter_items mret res_ret]. apply Hload.
Qed.

Lemma load_stops_at_malformed_item_witness :
  load_existing_schedules
    (Some (JArr [Demo.file_item "1" []; JStr "x"; Demo.file_item "3" []])) !! "3"
  = None.
Proof.
  pose proof (proj2 (load_stops_at_malformed_item [Demo.file_item "1" []]
                       [Demo.file_item "3" []] (JStr "x") ∅ eq_refl)) as E.
  cbn [app] in E. rewrite E. vm_compute. reflexivity.
Defined.

End SnapshotSpec.

(** ** Semesters *)

Module SemesterSpec.
Import PyStr Re Py Fetcher SmartFetcher PyFacts SortFacts.

(** The semesters that [main] works on when none is forced, for every year
    and month of the clock: the current one is of the calendar year, January
    and February counting as the winter of their own year like October to
    December; it and the one after it have a code among 200, 201, 202, so the
    look-up of their names does not raise; and three steps of
    [get_next_semester] from a semester of such a code lead to the same
    semester of the year after. *)
Theorem computed_semesters_are_named (year month : Z) :
  exists s sn sn',
    get_current_semester year month = (year, s)
    /\ (s = 200 <-> month <= 2 \/ 10 <= month)
    /\ semester_name_of s = inr sn
    /\ semester_name_of (get_next_semester year s).2 = inr sn'
    /\ (get_next_semester year s).1 = (if s =? 202 then year + 1 else year)
    /\ (let '(y1, s1) := get_next_semester year s in
        let '(y2, s2) := get_next_semester y1 s1 in
        get_next_semester y2 s2 = (year + 1, s)).
Proof.
  unfold get_current_semester.
  destruct (10 <=? month) eqn:E10; [|destruct (month <=? 2) eqn:E2];
    cbn [orb]; [| |destruct ((3 <=? month) && (month <=? 7)) eqn:E37];
    eexists _, _, _; (split; [reflexivity|]);
    (split; [lia|]); vm_compute; repeat split; try done.
  all: f_equal; lia.
Qed.

(** An item of the list of [get_semesters], with its key. *)
Definition is_semester (x : json) (k : Z * Z) : Prop :=
  exists start_date end_date,
    x = JObj [("year", JNum k.1);
              ("semester", JNum k.2);
              ("start_date", JStr start_date);
              ("end_date", JStr end_date);
              ("semester_code", JStr (str_of_Z k.1 ++ "-" ++ str_of_Z k.2))]
    /\ k.2 ∈ [200; 201; 202].

Lemma is_semester_key x k : is_semester x k -> semester_key x = inr k.
Proof. intros (sd & ed & -> & _). by destruct k. Qed.

Section Semesters.
Context `{PyLib}.

Lemma semester_item_inv result acc acc' :
  semester_item result acc = inr acc' ->
  acc' = acc \/ exists x k, is_semester x k /\ acc' = (acc ++ [x])%list.
Proof.
  unfold semester_item.
  intros (year & _ & E)%res_bind_inr.
  apply res_bind_inr in E as (semester & _ & E).
  case_bool_decide as Hs; cbn [negb] in E; [|left; by inversion E].
  apply res_bind_inr in E as (sd & _ & E).
  apply res_bind_inr in E as (ed & _ & E).
  injection E as <-. right. eexists _, (year, semester).
  split; [|done]. by exists sd, ed.
Qed.

Lemma for_semester_item items : forall acc out,
  for_res items semester_item acc = inr out ->
  Forall (fun x => exists k, is_semester x k) acc ->
  Forall (fun x => exists k, is_semester x k) out
  /\ (length out <= length acc + length items)%nat.
Proof.
  induction items as [|r items IH]; intros acc out E Hacc.
  - injection E as <-. split; [done | cbn [length]; lia].
  - cbn [for_res] in E. apply res_bind_inr in E as (acc' & Hr & E).
    apply semester_item_inv in Hr as [->|(x & k & Hx & ->)].
    + destruct (IH acc out E Hacc) as [H1 H2]. split; [done | cbn [length]; lia].
    + destruct (IH _ out E) as [H1 H2].
      { apply Forall_app. split; [done|]. repeat constructor. by exists k. }
      split; [done|]. rewrite length_app in H2. cbn [length] in *. lia.
Qed.

Lemma with_semester_keys l :
  Forall (fun x => exists k, is_semester x k) l ->
  exists kl, with_keys semester_key l = inr kl /\ kl.*2 = l
             /\ Forall (fun y : Z * Z * json => is_semester y.2 y.1) kl.
Proof.
  induction 1 as [|x l [k Hx] _ (kl & E & El & Hkl)].
  - by exists [].
  - cbn [with_keys]. rewrite (is_semester_key x k Hx), E.
    exists ((k, x) :: kl). csimpl. split; [done|]. split; [by f_equal|].
    by constructor.
Qed.

End Semesters.

Lemma pair_gt_asym a b : pair_lt b a = true -> pair_lt a b = false.
Proof. destruct a, b; unfold pair_lt; simpl; lia. Qed.

Lemma pair_gt_negtrans a b c :
  pair_lt a b = false -> pair_lt b c = false -> pair_lt a c = false.
Proof. destruct a, b, c; unfold pair_lt; simpl; lia. Qed.

(** [get_semesters] returns only semesters of the codes 200, 201 and 202,
    each with its five fields and at most one for each upstream record; they
    come in descending order of year and code: none is followed by one of a
    later year, or of the same year and a higher code. *)
Theorem get_semesters_sorted `{PyLib} (f : TechnionCourseFetcher)
    (w w' : World) (l : list json) :
  get_semesters f w = (w', inr l) ->
  exists keys,
    Forall2 is_semester l keys
    /\ StronglySorted (fun a b => pair_lt a b = false) keys
    /\ exists raw_data records,
         _send_request f semesters_query false w = (w', inr raw_data)
         /\ d_field raw_data "results" ≫= iter_items = inr records
         /\ (length l <= length records)%nat.
Proof.
  unfold get_semesters.
  intros (w1 & raw_data & Hreq & [-> E]%lift_inr)%M_bind_inr.
  apply res_bind_inr in E as (results & Hres & E).
  apply res_bind_inr in E as (items & Hitems & E).
  apply res_bind_inr in E as (semesters & Hfor & E).
  apply for_semester_item in Hfor as [Hsem Hlen]; [|done].
  unfold sorted_desc in E.
  destruct (with_semester_keys semesters Hsem) as (kl & Ek & El & Hkl).
  rewrite Ek in E. injection E as <-.
  set (s := sort_by (fun a b => pair_lt b a) kl).
  assert (Hperm : s ≡ₚ kl) by apply sort_by_perm.
  assert (Hs : Forall (fun y : Z * Z * json => is_semester y.2 y.1) s)
    by by rewrite Hperm.
  assert (Hsorted : StronglySorted (not_after (fun a b => pair_lt b a)) s).
  { apply sort_by_sorted; [intros a b; apply pair_gt_asym|].
    intros a b c H1 H2. by eapply pair_gt_negtrans. }
  exists s.*1. split; [|split].
  - clear -Hs. induction Hs as [|y s Hy _ IH]; csimpl; by constructor.
  - clear -Hsorted. induction Hsorted as [|y s _ IH Hy]; csimpl; constructor;
      [done|]. by apply Forall_fmap.
  - exists raw_data, items. split; [done|]. split; [by rewrite Hres|].
    rewrite length_fmap, Hperm, <- (length_fmap snd kl).
    change (snd <$> kl) with (kl.*2). rewrite El. cbn [length] in Hlen. lia.
Qed.

(** A service with four semesters, one of them of a code that is not
    kept. *)
Definition semester_record (year session : string) : json :=
  JObj [("PiqYear", JStr year); ("PiqSession", JStr session);
        ("Begda", JStr "/Date(1641600000000)/");
        ("Endda", JStr "/Date(1649376000000)/")].

Definition semesters_lib : PyLib := {|
  sha256_hexdigest := sha256_hexdigest (PyLib := Demo.lib);
  json_loads := fun s =>
    if String.eqb s "semesters"
    then inr (Demo.results [semester_record "2023" "201"; semester_record "2024" "200";
                            semester_record "2024" "203"; semester_record "2023" "202"])
    else inl (ValueError "Expecting value");
  urlencode := urlencode (PyLib := Demo.lib);
  quote := quote (PyLib := Demo.lib);
  repr_container := repr_container (PyLib := Demo.lib);
|}.

Lemma get_semesters_sorted_witness :
  exists w' l keys,
    get_semesters (H := semesters_lib) (mkFetcher None false)
      (Demo.world (fun _ _ => PostReturns 202 (Demo.batch_response "semesters")))
    = (w', inr l)
    /\ Forall2 is_semester l keys
    /\ StronglySorted (fun a b => pair_lt a b = false) keys
    /\ length l = 3%nat.
Proof.
  eassert (E : get_semesters (H := semesters_lib) (mkFetcher None false)
                 (Demo.world (fun _ _ => PostReturns 202 (Demo.batch_response "semesters")))
               = (_, inr _)) by (vm_compute; reflexivity).
  destruct (get_semesters_sorted (H := semesters_lib) _ _ _ _ E)
    as (keys & Hkeys & Hsorted & _).
  eexists _, _, keys. split; [exact E|]. split; [exact Hkeys|].
  split; [exact Hsorted | reflexivity].
Defined.

(** The same list, in full: 2024-200 first, then 2023-202 and 2023-201. *)
Example get_semesters_example :
  (fun x => (getitem x "semester_code", getitem x "start_date")) <$>
    default [] (match (get_semesters (H := semesters_lib) (mkFetcher None false)
                  (Demo.world (fun _ _ =>
                     PostReturns 202 (Demo.batch_response "semesters")))).2 with
                | inr l => Some l
                | inl _ => None
                end)
  = [(inr (JStr "2024-200"), inr (JStr "2022-01-08"));
     (inr (JStr "2023-202"), inr (JStr "2022-01-08"));
     (inr (JStr "2023-201"), inr (JStr "2022-01-08"))].
Proof. vm_compute. reflexivity. Qed.

End SemesterSpec.

(** ** The entries of a schedule *)

Module ScheduleShapeSpec.
Import PyStr Re Py Fetcher PyFacts PyStrFacts ReFacts CourseFacts ScheduleTextSpec.






Section Shape.
Context `{PyLib}.




End Shape.




End ScheduleShapeSpec.

(** ** The table of the rooms of an event *)

Module RoomInfoSpec.
Import PyStr Re Py Fetcher PyFacts PyStrFacts ReFacts ScheduleTextSpec
  ScheduleShapeSpec.




Section Rooms.
Context `{PyLib}.


End Rooms.


(** A service with one event in one room, on a Saturday. *)
Definition rooms_lib : PyLib := {|
  sha256_hexdigest := sha256_hexdigest (PyLib := Demo.lib);
  json_loads := fun s =>
    if String.eqb s "rooms"
    then inr (Demo.results
      [JObj [("Evdat", JStr "/Date(1641600000000)/");
             ("Beguz", JStr "PT10H30M00S"); ("Enduz", JStr "PT12H30M00S");
             ("Rooms", JObj [("results", JArr
                [JObj [("Otjid", JStr "R1"); ("Name", JStr "123-4567")]])])]])
    else json_loads (PyLib := Demo.lib) s;
  urlencode := urlencode (PyLib := Demo.lib);
  quote := quote (PyLib := Demo.lib);
  repr_container := repr_container (PyLib := Demo.lib);
|}.

Example get_room_info_example :
  let srv := fun (_ : nat) (q : string) =>
    if Demo.contains "EventScheduleSet" q
    then PostReturns 202 (Demo.batch_response "rooms")
    else PostReturns 202 (Demo.batch_response "building") in
  match (get_room_info (H := rooms_lib) (mkFetcher None false) 2024 200 (JStr "E1")
           (Demo.world srv)).2 with
  | inr table => map_to_list table = [((6, "10:30", "12:30"), ("טאוב 2", 4567))]
  | inl _ => False
  end.
Proof. vm_compute. reflexivity. Qed.

End RoomInfoSpec.

(** ** Course numbers *)

Module CourseNumberSpec.
Import PyStr Re Py Fetcher PyFacts PyStrFacts ReFacts.

Lemma six_digits_match a b c d e f :
  is_digit a = true -> is_digit b = true -> is_digit c = true ->
  is_digit d = true -> is_digit e = true -> is_digit f = true ->
  is_Some (re_match six_digits_re (str [a; b; c; d; e; f])).
Proof.
  intros Ha Hb Hc Hd He Hf.
  unfold re_match, match_at, six_digits_re, start.
  cbn -[is_digit]. rewrite Ha, Hb, Hc, Hd, He, Hf. by eexists.
Qed.

Lemma isdigit_str l : l ≠ [] -> forallb is_digit l = true -> isdigit (str l) = true.
Proof.
  intros Hl Hd. unfold isdigit. rewrite chars_str, Hd.
  by destruct l.
Qed.

(** The branch of [normalize_course] for a number of at most six digits,
    after it was padded to six. *)
Lemma normalize_six a b c d e f :
  is_digit a = true -> is_digit b = true -> is_digit c = true ->
  is_digit d = true -> is_digit e = true -> is_digit f = true ->
  let course := str [a; b; c; d; e; f] in
  let r := if bool_decide (is_Some (re_match old_9730_re course))
           then "970300" ++ slice_from 4 course
           else if bool_decide (is_Some (re_match six_digits_re course))
           then "0" ++ slice_to 3 course ++ "0" ++ slice_from 3 course
           else course in
  String.length r = 8%nat /\ isdigit r = true.
Proof.
  intros Ha Hb Hc Hd He Hf course r. subst r.
  destruct (bool_decide (is_Some (re_match old_9730_re course))).
  - change ("970300" ++ slice_from 4 course)
      with (str ["9"; "7"; "0"; "3"; "0"; "0"; e; f]%char).
    split; [done|]. apply isdigit_str; [done|].
    cbn -[is_digit]. by rewrite He, Hf.
  - rewrite (bool_decide_eq_true_2 _ (six_digits_match a b c d e f Ha Hb Hc Hd He Hf)).
    change ("0" ++ slice_to 3 course ++ "0" ++ slice_from 3 course)
      with (str ["0"%char; a; b; c; "0"%char; d; e; f]).
    split; [done|]. apply isdigit_str; [done|].
    cbn -[is_digit]. by rewrite Ha, Hb, Hc, Hd, He, Hf.
Qed.

Ltac digits_of H :=
  cbn [forallb] in H;
  repeat match type of H with
         | (is_digit _ && _) = true =>
             let H' := fresh "Hd" in apply andb_prop in H as [H' H]
         end.

Lemma normalize_course_digits (course : string) :
  isdigit course = true -> (String.length course <= 8)%nat ->
  String.length (normalize_course course) = 8%nat
  /\ isdigit (normalize_course course) = true.
Proof.
  intros [Hne Hd]%andb_prop Hl.
  rewrite <- (str_chars course) in Hne, Hl |- *.
  rewrite <- length_chars, chars_str in Hl.
  destruct (chars course) as [|a [|b [|c [|d [|e [|f [|g [|h [|? ?]]]]]]]]];
    cbn [length] in Hl; try lia; [done|..]; clear Hne Hl; digits_of Hd.
  - change (normalize_course (str [a])) with
      (let course := str ["0"; "0"; "0"; "0"; "0"; a]%char in
       if bool_decide (is_Some (re_match old_9730_re course))
       then "970300" ++ slice_from 4 course
       else if bool_decide (is_Some (re_match six_digits_re course))
       then "0" ++ slice_to 3 course ++ "0" ++ slice_from 3 course
       else course).
    by apply normalize_six.
  - change (normalize_course (str [a; b])) with
      (let course := str ["0"; "0"; "0"; "0"; a; b]%char in
       if bool_decide (is_Some (re_match old_9730_re course))
       then "970300" ++ slice_from 4 course
       else if bool_decide (is_Some (re_match six_digits_re course))
       then "0" ++ slice_to 3 course ++ "0" ++ slice_from 3 course
       else course).
    by apply normalize_six.
  - change (normalize_course (str [a; b; c])) with
      (let course := str ["0"; "0"; "0"; a; b; c]%char in
       if bool_decide (is_Some (re_match old_9730_re course))
       then "970300" ++ slice_from 4 course
       else if bool_decide (is_Some (re_match six_digits_re course))
       then "0" ++ slice_to 3 course ++ "0" ++ slice_from 3 course
       else course).
    by apply normalize_six.
  - change (normalize_course (str [a; b; c; d])) with
      (let course := str ["0"; "0"; a; b; c; d]%char in
       if bool_decide (is_Some (re_match old_9730_re course))
       then "970300" ++ slice_from 4 course
       else if bool_decide (is_Some (re_match six_digits_re course))
       then "0" ++ slice_to 3 course ++ "0" ++ slice_from 3 course
       else course).
    by apply normalize_six.
  - change (normalize_course (str [a; b; c; d; e])) with
      (let course := str ["0"%char; a; b; c; d; e] in
       if bool_decide (is_Some (re_match old_9730_re course))
       then "970300" ++ slice_from 4 course
       else if bool_decide (is_Some (re_match six_digits_re course))
       then "0" ++ slice_to 3 course ++ "0" ++ slice_from 3 course
       else course).
    by apply normalize_six.
  - change (normalize_course (str [a; b; c; d; e; f])) with
      (let course := str [a; b; c; d; e; f] in
       if bool_decide (is_Some (re_match old_9730_re course))
       then "970300" ++ slice_from 4 course
       else if bool_decide (is_Some (re_match six_digits_re course))
       then "0" ++ slice_to 3 course ++ "0" ++ slice_from 3 course
       else course).
    by apply normalize_six.
  - change (normalize_course (str [a; b; c; d; e; f; g]))
      with (str ["0"%char; a; b; c; d; e; f; g]).
    split; [done|]. apply isdigit_str; [done|].
    cbn -[is_digit]. by rewrite Hd0, Hd1, Hd2, Hd3, Hd4, Hd5, Hd6.
  - change (normalize_course (str [a; b; c; d; e; f; g; h]))
      with (str [a; b; c; d; e; f; g; h]).
    split; [done|]. apply isdigit_str; [done|].
    cbn -[is_digit]. by rewrite Hd0, Hd1, Hd2, Hd3, Hd4, Hd5, Hd6, Hd7.
Qed.

(** [normalize_course] brings every run of at most eight digits to eight
    digits, and leaves a number of eight digits as it is: what it returns
    is not changed by normalizing it again. *)
Theorem normalize_course_eight_digits (course : string) :
  isdigit course = true -> (String.length course <= 8)%nat ->
  String.length (normalize_course course) = 8%nat
  /\ isdigit (normalize_course course) = true
  /\ normalize_course (normalize_course course) = normalize_course course.
Proof.
  intros Hd Hl.
  destruct (normalize_course_digits course Hd Hl) as [H8 Hdig].
  split; [done|]. split; [done|].
  unfold normalize_course at 1, zfill. rewrite H8. cbn. apply str_chars.
Qed.

Lemma normalize_course_eight_digits_witness :
  String.length (normalize_course "44102") = 8%nat
  /\ isdigit (normalize_course "44102") = true
  /\ normalize_course (normalize_course "44102") = normalize_course "44102".
Proof.
  apply (normalize_course_eight_digits "44102"); [reflexivity | cbn; lia].
Defined.

(** The three shapes, on examples: a number of the old 9730 series, a
    number of six digits, and one of seven. *)
Example normalize_course_examples :
  normalize_course "973012" = "97030012"
  /\ normalize_course "234114" = "02340114"
  /\ normalize_course "44102" = "00440102"
  /\ normalize_course "2340114" = "02340114".
Proof. vm_compute. done. Qed.

End CourseNumberSpec.

(** ** The adjoining courses of a note *)

Module AdjoiningSpec.
Import PyStr Re Py Fetcher PyFacts PyStrFacts ReFacts CourseNumberSpec.






























(** The second form: numbers followed by names, up to the end of the
    sentence. *)
Example adjoining_courses_sentence :
  _extract_adjoining_courses
    (JStr "מקצוע צמוד: 234114 Algebra, 2340124 Calculus. More text")
  = inr ["02340114"; "02340124"].
Proof. vm_compute. reflexivity. Qed.

End AdjoiningSpec.

(** ** The normalization of points, in general *)

Module PointsFormatSpec.
Import PyStr Re Py Fetcher PyFacts PyStrFacts ReFacts.

(** The class of the pattern [[1-9]], the zero and the point. *)
Definition nonzero (c : ascii) : bool := in_range (code "1") (code "9") c.
Definition zero (c : ascii) : bool := Ascii.eqb "0" c.
Definition no_point (c : ascii) : bool := negb (Ascii.eqb "." c).

Lemma skip_run_app c pv l tl :
  forallb c l = true ->
  match tl with [] => True | y :: _ => c y = false end ->
  (skip_run c pv (l ++ tl)).2 = tl.
Proof.
  revert pv. induction l as [|x l IH]; intros pv Hl Htl; simpl.
  - destruct tl as [|y tl]; [done|]. simpl. by rewrite Htl.
  - simpl in Hl. apply andb_prop in Hl as [-> Hl]. by apply IH.
Qed.

(** The greedy star of a class before a continuation that accepts at the
    end of the run. *)
Lemma star_class_run {A} c (k : pos -> option A) l tl pv g :
  forallb c l = true ->
  match tl with [] => True | y :: _ => c y = false end ->
  (forall pv', is_Some (k (Pos pv' tl g))) ->
  exists pv', run (Star (Chr c)) (Pos pv (l ++ tl) g) k = k (Pos pv' tl g).
Proof.
  intros Hl Htl Hk.
  exists (skip_run c pv (l ++ tl)).1.
  destruct (Hk (skip_run c pv (l ++ tl)).1) as [x Hx]. rewrite Hx.
  cbn [run rest]. apply star_class_greedy; [done|].
  by rewrite skip_run_app.
Qed.

(** The star of a class before a continuation that refuses everywhere in
    the run and after it. *)
Lemma star_class_none {A} c (k : pos -> option A) g : forall fuel pv s,
  (forall pv' n, k (Pos pv' (drop n s) g) = None) ->
  star_loop (fun p k => run (Chr c) p k) k fuel (Pos pv s g) = None.
Proof.
  induction fuel as [|fuel IH]; intros pv s Hk.
  - cbn. apply (Hk pv O).
  - cbn [star_loop run rest grps]. destruct s as [|x s].
    + apply (Hk pv O).
    + destruct (c x).
      * unfold shorter. cbn [rest length].
        destruct (length s <? S (length s))%nat.
        -- rewrite IH; [apply (Hk pv O)|]. intros pv' n. apply (Hk pv' (S n)).
        -- apply (Hk pv O).
      * apply (Hk pv O).
Qed.

Definition point (c : ascii) : bool := Ascii.eqb "." c.

(** The two patterns, with their literals written as classes. *)
Definition re1 : regex :=
  Seq (Grp 1 (Seq (Chr point) (Plus (Chr nonzero)))) (Seq (Plus (Chr zero)) Eol).
Definition re2 : regex := Seq (Chr point) (Seq (Plus (Chr zero)) Eol).

Lemma match_at_re1 p : match_at points_re1 p = match_at re1 p.
Proof. reflexivity. Qed.

Lemma match_at_re2 p : match_at points_re2 p = match_at re2 p.
Proof. reflexivity. Qed.

Lemma run_Chr_cons {A} c x pv s g (k : pos -> option A) :
  c x = true -> run (Chr c) (Pos pv (x :: s) g) k = k (Pos (Some x) s g).
Proof. intros Hx. cbn [run rest grps]. by rewrite Hx. Qed.

Lemma run_Chr_fail {A} c x pv s g (k : pos -> option A) :
  c x = false -> run (Chr c) (Pos pv (x :: s) g) k = None.
Proof. intros Hx. cbn [run rest grps]. by rewrite Hx. Qed.

Lemma run_Plus_class {A} c (k : pos -> option A) x l tl pv g :
  c x = true -> forallb c l = true ->
  match tl with [] => True | y :: _ => c y = false end ->
  (forall pv', is_Some (k (Pos pv' tl g))) ->
  exists pv', run (Plus (Chr c)) (Pos pv (x :: l ++ tl) g) k = k (Pos pv' tl g).
Proof.
  intros Hx Hl Htl Hk. unfold Plus.
  change (run (Seq (Chr c) (Star (Chr c))) ?p k)
    with (run (Chr c) p (fun q => run (Star (Chr c)) q k)).
  rewrite run_Chr_cons by done. by apply star_class_run.
Qed.

(** A plus of a class fails where the text does not begin with the class,
    and where the continuation refuses all along. *)
Lemma run_Plus_class_none {A} c (k : pos -> option A) pv s g :
  (forall pv' n, k (Pos pv' (drop n s) g) = None) ->
  run (Plus (Chr c)) (Pos pv s g) k = None.
Proof.
  intros Hk. unfold Plus.
  change (run (Seq (Chr c) (Star (Chr c))) ?p k)
    with (run (Chr c) p (fun q => run (Star (Chr c)) q k)).
  destruct s as [|x s]; [done|].
  destruct (c x) eqn:Hx; [|by rewrite run_Chr_fail].
  rewrite run_Chr_cons by done. cbn [run rest].
  apply star_class_none. intros pv' n. apply (Hk pv' (S n)).
Qed.

Lemma zeros_eol {A} (k : pos -> option A) pv z zs g :
  zero z = true -> forallb zero zs = true ->
  (forall pv', is_Some (k (Pos pv' [] g))) ->
  exists pv', run (Seq (Plus (Chr zero)) Eol) (Pos pv (z :: zs) g) k
              = k (Pos pv' [] g).
Proof.
  intros Hz Hzs Hk.
  change (run (Seq (Plus (Chr zero)) Eol) ?p k)
    with (run (Plus (Chr zero)) p (fun q => run Eol q k)).
  rewrite <- (app_nil_r zs).
  apply (run_Plus_class zero (fun q => run Eol q k)); try done.
Qed.

Lemma nonzero_not_zero c : nonzero c = true -> zero c = false.
Proof. destruct c as [[] [] [] [] [] [] [] []]; done. Qed.

Lemma zero_not_nonzero c : zero c = true -> nonzero c = false.
Proof. destruct c as [[] [] [] [] [] [] [] []]; done. Qed.

Lemma nonzero_not_point c : nonzero c = true -> point c = false.
Proof. destruct c as [[] [] [] [] [] [] [] []]; done. Qed.

Lemma zero_not_point c : zero c = true -> point c = false.
Proof. destruct c as [[] [] [] [] [] [] [] []]; done. Qed.

(** The first pattern at a point that is followed by digits from 1 to 9 and
    then by zeros up to the end. *)
Lemma re1_match pv n ns z zs :
  nonzero n = true -> forallb nonzero ns = true ->
  zero z = true -> forallb zero zs = true ->
  exists m,
    match_at re1 (Pos pv ("."%char :: n :: ns ++ z :: zs) []) = Some m
    /\ rest (m_end m) = []
    /\ expand [TGrp 1] m = "."%char :: n :: ns.
Proof.
  intros Hn Hns Hz Hzs. unfold match_at, re1. cbn [rest].
  set (s := ("."%char :: n :: ns ++ z :: zs)%list).
  set (K := fun q : pos => Some (Mtch (consumed s (rest q)) q)).
  change (run (Seq (Grp 1 (Seq (Chr point) (Plus (Chr nonzero))))
                 (Seq (Plus (Chr zero)) Eol)) (Pos pv s []) K)
    with (run (Chr point) (Pos pv s [])
            (fun q0 => run (Plus (Chr nonzero)) q0
               (fun q => run (Seq (Plus (Chr zero)) Eol)
                  (Pos (prev q) (rest q) ((1%nat, consumed s (rest q)) :: grps q))
                  K))).
  unfold s at 1. rewrite run_Chr_cons by done.
  destruct (run_Plus_class nonzero
              (fun q => run (Seq (Plus (Chr zero)) Eol)
                 (Pos (prev q) (rest q) ((1%nat, consumed s (rest q)) :: grps q)) K)
              n ns (z :: zs) (Some "."%char) [] Hn Hns (zero_not_nonzero z Hz))
    as [pv1 E1].
  { intros pv'. cbn [prev rest grps].
    destruct (zeros_eol K pv' z zs [(1%nat, consumed s (z :: zs))] Hz Hzs)
      as [pv2 E2]; [by eexists|].
    rewrite E2. by eexists. }
  rewrite E1. cbn [prev rest grps].
  destruct (zeros_eol K pv1 z zs [(1%nat, consumed s (z :: zs))] Hz Hzs)
    as [pv2 E2]; [by eexists|].
  rewrite E2. eexists. split; [reflexivity|]. split; [done|].
  unfold expand, m_group. cbn [m_end grps group Nat.eqb flat_map].
  rewrite chars_str, app_nil_r. unfold s.
  change ("."%char :: n :: ns ++ z :: zs)%list
    with (("."%char :: n :: ns) ++ z :: zs)%list.
  apply consumed_app.
Qed.

(** Both patterns begin with the point: they match nowhere else. *)
Definition begins_with_point (r : regex) : Prop :=
  (forall pv x s, point x = false -> match_at r (Pos pv (x :: s) []) = None)
  /\ (forall pv, match_at r (Pos pv [] []) = None).

Lemma re1_begins : begins_with_point points_re1.
Proof.
  split; [intros pv x s Hx | intros pv]; rewrite match_at_re1; unfold match_at, re1.
  - change (run (Seq (Grp 1 (Seq (Chr point) ?a)) ?b) ?p ?k)
      with (run (Chr point) p
              (fun q0 => run a q0 (fun q => run b
                 (Pos (prev q) (rest q) ((1%nat, consumed (rest p) (rest q)) :: grps q))
                 k))).
    by apply run_Chr_fail.
  - reflexivity.
Qed.

Lemma re2_begins : begins_with_point points_re2.
Proof.
  split; [intros pv x s Hx | intros pv]; rewrite match_at_re2; unfold match_at, re2.
  - change (run (Seq (Chr point) ?b) ?p ?k)
      with (run (Chr point) p (fun q => run b q k)).
    by apply run_Chr_fail.
  - reflexivity.
Qed.

(** The scan of a substitution over text without a point copies it. *)
Lemma sub_go_prefix r t i : forall tl fuel pv,
  begins_with_point r -> forallb no_point i = true -> (length i <= fuel)%nat ->
  exists pv', sub_go r t fuel pv (i ++ tl) = (i ++ sub_go r t (fuel - length i) pv' tl)%list.
Proof.
  induction i as [|x i IH]; intros tl fuel pv Hr Hi Hfuel.
  - exists pv. cbn [app length]. by rewrite Nat.sub_0_r.
  - cbn [forallb] in Hi. apply andb_prop in Hi as [Hx Hi].
    apply negb_true_iff in Hx. cbn [length] in Hfuel.
    destruct fuel as [|fuel]; [lia|].
    cbn [app]. rewrite sub_go_S, (proj1 Hr pv x _ Hx).
    destruct (IH tl fuel (Some x) Hr Hi ltac:(lia)) as [pv' E].
    exists pv'. by rewrite E.
Qed.

Lemma sub_go_nil r t fuel pv :
  begins_with_point r -> sub_go r t fuel pv [] = [].
Proof.
  intros Hr. destruct fuel as [|fuel]; [done|].
  by rewrite sub_go_S, (proj2 Hr pv).
Qed.

Lemma sub_go_no_point r t i fuel pv :
  begins_with_point r -> forallb no_point i = true -> (length i <= fuel)%nat ->
  sub_go r t fuel pv i = i.
Proof.
  intros Hr Hi Hfuel.
  destruct (sub_go_prefix r t i [] fuel pv Hr Hi Hfuel) as [pv' E].
  rewrite app_nil_r in E. by rewrite E, sub_go_nil, app_nil_r.
Qed.

Lemma re_sub_no_point r t i :
  begins_with_point r -> forallb no_point i = true ->
  re_sub r t (str i) = str i.
Proof.
  intros Hr Hi. unfold re_sub. rewrite chars_str, <- length_chars, chars_str.
  by rewrite sub_go_no_point by (done || lia).
Qed.

(** A substitution whose pattern does not match at the point, the text
    after the point having no other point. *)
Lemma sub_go_point_fails r t i tl :
  begins_with_point r -> forallb no_point i = true -> forallb no_point tl = true ->
  (forall pv, match_at r (Pos pv ("."%char :: tl) []) = None) ->
  re_sub r t (str (i ++ "."%char :: tl)) = str (i ++ "."%char :: tl).
Proof.
  intros Hr Hi Htl Hnone. unfold re_sub. f_equal.
  rewrite chars_str, <- length_chars, chars_str.
  destruct (sub_go_prefix r t i ("."%char :: tl)
              (S (length (i ++ "."%char :: tl))) None Hr Hi) as [pv' E].
  { rewrite length_app. lia. }
  rewrite E. f_equal.
  rewrite length_app. cbn [length].
  replace (S (length i + S (length tl)) - length i)%nat with (S (S (length tl)))
    by lia.
  rewrite sub_go_S, Hnone. f_equal.
  apply sub_go_no_point; [done | done | lia].
Qed.

(** A substitution whose pattern matches from the point to the end. *)
Lemma sub_go_point_matches r t i tl out :
  begins_with_point r -> forallb no_point i = true ->
  (forall pv, exists m, match_at r (Pos pv ("."%char :: tl) []) = Some m
                        /\ rest (m_end m) = [] /\ expand t m = out) ->
  re_sub r t (str (i ++ "."%char :: tl)) = str (i ++ out).
Proof.
  intros Hr Hi Hm. unfold re_sub. f_equal.
  rewrite chars_str, <- length_chars, chars_str.
  destruct (sub_go_prefix r t i ("."%char :: tl)
              (S (length (i ++ "."%char :: tl))) None Hr Hi) as [pv' E].
  { rewrite length_app. lia. }
  rewrite E. f_equal.
  rewrite length_app. cbn [length].
  replace (S (length i + S (length tl)) - length i)%nat with (S (S (length tl)))
    by lia.
  destruct (Hm pv') as (m & Em & Erest & Eout).
  rewrite sub_go_S, Em. cbn zeta. rewrite Erest. cbn [length Nat.ltb Nat.leb].
  by rewrite Eout, sub_go_nil, app_nil_r.
Qed.

Lemma forallb_impl {A} (p q : A -> bool) l :
  (forall x, p x = true -> q x = true) -> forallb p l = true -> forallb q l = true.
Proof. rewrite !forallb_forall. intros Hpq Hl x Hx. by apply Hpq, Hl. Qed.

Lemma nonzero_no_point l : forallb nonzero l = true -> forallb no_point l = true.
Proof.
  apply forallb_impl. intros x Hx. unfold no_point.
  by rewrite (nonzero_not_point x Hx : Ascii.eqb "." x = false).
Qed.

Lemma zero_no_point l : forallb zero l = true -> forallb no_point l = true.
Proof.
  apply forallb_impl. intros x Hx. unfold no_point.
  by rewrite (zero_not_point x Hx : Ascii.eqb "." x = false).
Qed.

(** The first pattern does not match at a point followed by a zero, nor at
    one followed by digits from 1 to 9 only. *)
Lemma re1_zero_fails pv z zs :
  zero z = true -> match_at points_re1 (Pos pv ("."%char :: z :: zs) []) = None.
Proof.
  intros Hz. rewrite match_at_re1. unfold match_at, re1, Plus.
  change (run (Seq (Grp 1 (Seq (Chr point) (Seq (Chr nonzero) ?a))) ?b) ?p ?k)
    with (run (Chr point) p
            (fun q0 => run (Chr nonzero) q0 (fun q1 => run a q1 (fun q => run b
               (Pos (prev q) (rest q) ((1%nat, consumed (rest p) (rest q)) :: grps q))
               k)))).
  rewrite run_Chr_cons by done.
  by rewrite run_Chr_fail by by apply zero_not_nonzero.
Qed.

Lemma zeros_fail {A} (k : pos -> option A) pv s g :
  match s with [] => True | x :: _ => zero x = false end ->
  run (Seq (Plus (Chr zero)) Eol) (Pos pv s g) k = None.
Proof.
  intros Hs.
  change (run (Seq (Plus (Chr zero)) Eol) ?p k)
    with (run (Chr zero) p (fun q0 => run (Star (Chr zero)) q0 (fun q => run Eol q k))).
  destruct s as [|x s]; [done|]. by rewrite run_Chr_fail.
Qed.

Lemma drop_head_nonzero nz n :
  forallb nonzero nz = true ->
  match drop n nz with [] => True | x :: _ => zero x = false end.
Proof.
  intros Hnz. destruct (drop n nz) as [|x l] eqn:E; [done|].
  apply nonzero_not_zero.
  rewrite forallb_forall in Hnz. apply Hnz.
  apply list_elem_of_In. apply (subseteq_drop n nz). rewrite E. by left.
Qed.

Lemma re1_nonzero_fails pv nz :
  forallb nonzero nz = true ->
  match_at points_re1 (Pos pv ("."%char :: nz) []) = None.
Proof.
  intros Hnz. rewrite match_at_re1. unfold match_at, re1. cbn [rest].
  set (s := ("."%char :: nz)%list).
  set (K := fun q : pos => Some (Mtch (consumed s (rest q)) q)).
  change (run (Seq (Grp 1 (Seq (Chr point) (Plus (Chr nonzero))))
                 (Seq (Plus (Chr zero)) Eol)) (Pos pv s []) K)
    with (run (Chr point) (Pos pv s [])
            (fun q0 => run (Plus (Chr nonzero)) q0
               (fun q => run (Seq (Plus (Chr zero)) Eol)
                  (Pos (prev q) (rest q) ((1%nat, consumed s (rest q)) :: grps q))
                  K))).
  unfold s at 1. rewrite run_Chr_cons by done.
  apply run_Plus_class_none. intros pv' n. cbn [prev rest grps].
  apply zeros_fail. by apply drop_head_nonzero.
Qed.

Lemma re2_nonzero_fails pv nz :
  forallb nonzero nz = true ->
  match_at points_re2 (Pos pv ("."%char :: nz) []) = None.
Proof.
  intros Hnz. rewrite match_at_re2. unfold match_at, re2.
  change (run (Seq (Chr point) ?b) ?p ?k)
    with (run (Chr point) p (fun q => run b q k)).
  rewrite run_Chr_cons by done.
  apply zeros_fail. apply (drop_head_nonzero nz 0 Hnz).
Qed.

Lemma re2_match pv z zs :
  zero z = true -> forallb zero zs = true ->
  exists m,
    match_at points_re2 (Pos pv ("."%char :: z :: zs) []) = Some m
    /\ rest (m_end m) = [] /\ expand [] m = [].
Proof.
  intros Hz Hzs. rewrite match_at_re2. unfold match_at, re2. cbn [rest].
  set (K := fun q : pos => Some (Mtch (consumed ("."%char :: z :: zs) (rest q)) q)).
  change (run (Seq (Chr point) ?b) ?p ?k)
    with (run (Chr point) p (fun q => run b q k)).
  rewrite run_Chr_cons by done.
  destruct (zeros_eol K (Some "."%char) z zs [] Hz Hzs) as [pv' E];
    [by eexists|].
  rewrite E. by eexists.
Qed.

(** The normalization of [points], in general.  A text without a point is
    left as it is.  After an integer part without a point: digits from 1 to
    9 followed by zeros lose the zeros; zeros alone go with the point;
    digits from 1 to 9 alone stay. *)
Theorem format_points_general (int_part : list ascii) :
  forallb no_point int_part = true ->
  format_points (str int_part) = str int_part
  /\ (forall n ns z zs,
        nonzero n = true -> forallb nonzero ns = true ->
        zero z = true -> forallb zero zs = true ->
        format_points (str (int_part ++ "."%char :: n :: ns ++ z :: zs))
        = str (int_part ++ "."%char :: n :: ns))
  /\ (forall z zs,
        zero z = true -> forallb zero zs = true ->
        format_points (str (int_part ++ "."%char :: z :: zs)) = str int_part)
  /\ (forall nz,
        forallb nonzero nz = true ->
        format_points (str (int_part ++ "."%char :: nz))
        = str (int_part ++ "."%char :: nz)).
Proof.
  intros Hi. unfold format_points.
  assert (Hkeep : forall nz, forallb nonzero nz = true ->
    re_sub points_re2 [] (str (int_part ++ "."%char :: nz))
    = str (int_part ++ "."%char :: nz)).
  { intros nz Hnz. apply sub_go_point_fails;
      [apply re2_begins | done | by apply nonzero_no_point|].
    intros pv. by apply re2_nonzero_fails. }
  split; [|split; [|split]].
  - rewrite (re_sub_no_point points_re1) by (done || apply re1_begins).
    by rewrite (re_sub_no_point points_re2) by (done || apply re2_begins).
  - intros n ns z zs Hn Hns Hz Hzs.
    rewrite (sub_go_point_matches points_re1 [TGrp 1] int_part
               (n :: ns ++ z :: zs) ("."%char :: n :: ns));
      [|apply re1_begins | done|].
    + apply (Hkeep (n :: ns)). cbn [forallb]. by rewrite Hn, Hns.
    + intros pv. rewrite match_at_re1. by apply re1_match.
  - intros z zs Hz Hzs.
    rewrite (sub_go_point_fails points_re1);
      [|apply re1_begins | done | |].
    + rewrite (sub_go_point_matches points_re2 [] int_part (z :: zs) []);
        [by rewrite app_nil_r | apply re2_begins | done|].
      intros pv. by apply re2_match.
    + apply zero_no_point. cbn [forallb]. by rewrite Hz, Hzs.
    + intros pv. by apply re1_zero_fails.
  - intros nz Hnz.
    rewrite (sub_go_point_fails points_re1);
      [|apply re1_begins | done | by apply nonzero_no_point|].
    + by apply Hkeep.
    + intros pv. by apply re1_nonzero_fails.
Qed.

Lemma format_points_general_witness :
  format_points "12" = "12"
  /\ format_points "12.2500" = "12.25"
  /\ format_points "12.000" = "12"
  /\ format_points "12.25" = "12.25".
Proof.
  destruct (format_points_general ["1"; "2"]%char eq_refl) as (H1 & H2 & H3 & H4).
  split; [exact H1|].
  split; [exact (H2 "2" ["5"] "0" ["0"] eq_refl eq_refl eq_refl eq_refl)%char|].
  split; [exact (H3 "0" ["0"; "0"] eq_refl eq_refl)%char|].
  exact (H4 ["2"; "5"]%char eq_refl).
Defined.

(** Zeros inside the fraction keep the pattern from matching. *)
Example format_points_inner_zero :
  format_points "1.0500" = "1.0500" /\ format_points "1.50500" = "1.50500".
Proof. vm_compute. done. Qed.

End PointsFormatSpec.
